(** * Surf report engine: metric reconciliation, window scoring, tide analysis

    A shallow embedding of [scripts/surf_report.py] and
    [scripts/normalize_surf_data.py].

    Modelling conventions.
    - JSON payloads are values of [pyval]; a Python [dict] with string keys is
      an insertion-ordered association list ([dict]).
    - A Python [float] is an exact rational, an infinity or NaN ([float]):
      arithmetic on rationals is exact, and the infinities and NaN follow
      IEEE 754.  Rounding to a double is modelled where the code compares
      the rounded values of different inputs, in [total_seconds]; what the
      finite range of a double makes observable as control flow is kept:
      [float(n)] on an integer too large for a double raises
      [OverflowError].
    - An aware [datetime] is the number of microseconds since the Unix epoch
      ([Z]); a [timedelta] is a number of microseconds.  The bounds of the
      two types (years 1 to 9999, a thousand million days) are not modelled.
    - A function that can raise returns a [result]; [try]/[except] is a match
      on the raised exception.
    - The interpreter's parsers and printers that the scripts call
      ([float] on a string, [datetime.fromisoformat], [repr]) are the fields
      of the class [Builtins], and so is what the interpreter's sort makes
      of keys that [<] does not order.
    - The network is a parameter: [fetch_weather] and [fetch_tides] take the
      function from a URL to what the request gives; [build_report] is
      modelled from the fetched payloads on, and [main] from what its body
      raised.  Geocoding, the mock payload and the pretty printer are not
      modelled. *)

From Stdlib Require Import ZArith QArith Qabs Qround String Ascii List Bool Lia Lqa.
From Stdlib Require Import DecimalString Permutation Sorted.
From Stdlib Require OrderedTypeEx.
Import ListNotations.

Set Warnings "-register-all".

Local Open Scope string_scope.
Local Open Scope Z_scope.
Local Open Scope list_scope.

(** ** Floats

    A [float] is a rational, an infinity or NaN.  JSON brings the last two
    in ([1e999], [-Infinity], [NaN]), and so does [float] on a string. *)

Inductive float : Type :=
| Finite (q : Q)
| Infinity (negative : bool)
| NaN.

Definition is_nan (x : float) : bool :=
  match x with
  | NaN => true
  | _ => false
  end.

Definition Qltb (a b : Q) : bool := negb (Qle_bool b a).

(** [a < b] *)
Definition float_ltb (a b : float) : bool :=
  match a, b with
  | Finite x, Finite y => Qltb x y
  | Finite _, Infinity negative => negb negative
  | Infinity negative, Finite _ => negative
  | Infinity n, Infinity m => n && negb m
  | NaN, _ | _, NaN => false
  end.

(** [a <= b] *)
Definition float_leb (a b : float) : bool :=
  match a, b with
  | Finite x, Finite y => Qle_bool x y
  | Finite _, Infinity negative => negb negative
  | Infinity negative, Finite _ => negative
  | Infinity n, Infinity m => n || negb m
  | NaN, _ | _, NaN => false
  end.

(** [a == b] *)
Definition float_eqb (a b : float) : bool :=
  match a, b with
  | Finite x, Finite y => Qeq_bool x y
  | Infinity n, Infinity m => Bool.eqb n m
  | _, _ => false
  end.

Definition float_opp (a : float) : float :=
  match a with
  | Finite x => Finite (- x)
  | Infinity n => Infinity (negb n)
  | NaN => NaN
  end.

(** [abs(a)] *)
Definition float_abs (a : float) : float :=
  match a with
  | Finite x => Finite (Qabs x)
  | Infinity _ => Infinity false
  | NaN => NaN
  end.

(** [a + b]: opposite infinities add up to NaN. *)
Definition float_add (a b : float) : float :=
  match a, b with
  | Finite x, Finite y => Finite (x + y)
  | Finite _, Infinity n | Infinity n, Finite _ => Infinity n
  | Infinity n, Infinity m => if Bool.eqb n m then Infinity n else NaN
  | NaN, _ | _, NaN => NaN
  end.

(** [a - b] *)
Definition float_sub (a b : float) : float := float_add a (float_opp b).

(** [a / c] for a literal [c], which is not zero. *)
Definition float_div (a : float) (c : Q) : float :=
  match a with
  | Finite x => Finite (x / c)
  | Infinity n => Infinity (xorb n (Qltb c 0))
  | NaN => NaN
  end.

Declare Scope float_scope.
Delimit Scope float_scope with float.
Bind Scope float_scope with float.
Notation "a + b" := (float_add a b) : float_scope.
Notation "a - b" := (float_sub a b) : float_scope.
Notation "a / c" := (float_div a c) : float_scope.

(** ** Values, exceptions and the error monad *)

Inductive pyval : Type :=
| PNone
| PBool (b : bool)
| PInt (z : Z)
| PFloat (x : float)
| PStr (s : string)
| PList (l : list pyval)
| PDict (d : list (string * pyval)).

Inductive exn : Type :=
| TypeError
| ValueError
| KeyError (key : string)
| OverflowError
| AttributeError
| ApiError (msg : string).

Inductive result (A : Type) : Type :=
| Ok (a : A)
| Raise (e : exn).

Arguments Ok {A} a.
Arguments Raise {A} e.

Definition bind {A B : Type} (c : result A) (k : A -> result B) : result B :=
  match c with
  | Ok a => k a
  | Raise e => Raise e
  end.

Notation "x <- c ;; k" := (bind c (fun x => k))
  (at level 61, c at next level, right associativity).

(** [[f(x) for x in l]] where [f] may raise: the first failure aborts. *)
Fixpoint mapM {A B : Type} (f : A -> result B) (l : list A) : result (list B) :=
  match l with
  | [] => Ok []
  | a :: rest =>
      b <- f a ;;
      bs <- mapM f rest ;;
      Ok (b :: bs)
  end.

(** ** Dictionaries with string keys, in insertion order *)

Definition dict (V : Type) : Type := list (string * V).

Fixpoint dict_get {V : Type} (key : string) (d : dict V) : option V :=
  match d with
  | [] => None
  | (k, v) :: rest => if String.eqb key k then Some v else dict_get key rest
  end.

(** [key in d] *)
Definition dict_mem {V : Type} (key : string) (d : dict V) : bool :=
  match dict_get key d with
  | Some _ => true
  | None => false
  end.

(** [d[key] = v]: an existing key keeps its position, a new one goes last. *)
Fixpoint dict_set {V : Type} (key : string) (v : V) (d : dict V) : dict V :=
  match d with
  | [] => [(key, v)]
  | (k, w) :: rest =>
      if String.eqb key k then (k, v) :: rest else (k, w) :: dict_set key v rest
  end.

(** [d.setdefault(key, v)] *)
Definition dict_setdefault {V : Type} (key : string) (v : V) (d : dict V) : dict V :=
  if dict_mem key d then d else dict_set key v d.

(** [d[key]], which raises [KeyError] on a missing key. *)
Definition dict_item {V : Type} (key : string) (d : dict V) : result V :=
  match dict_get key d with
  | Some v => Ok v
  | None => Raise (KeyError key)
  end.

Definition dict_keys {V : Type} (d : dict V) : list string := map fst d.
Definition dict_values {V : Type} (d : dict V) : list V := map snd d.

(** [d.get(key)] on a JSON object: a missing key reads as [None]. *)
Definition py_get (key : string) (d : dict pyval) : pyval :=
  match dict_get key d with
  | Some v => v
  | None => PNone
  end.

(** [d.get(key, default)] *)
Definition py_get_default (key : string) (default : pyval) (d : dict pyval) : pyval :=
  match dict_get key d with
  | Some v => v
  | None => default
  end.

Definition is_None (v : pyval) : bool :=
  match v with
  | PNone => true
  | _ => false
  end.

(** Membership of a string in a list of strings ([src in source_order]). *)
Fixpoint str_in (s : string) (l : list string) : bool :=
  match l with
  | [] => false
  | x :: rest => String.eqb s x || str_in s rest
  end.

(** ** The interpreter's builtins *)

Class Builtins : Type := {
  (** [float(s)] on a string; [None] stands for [ValueError]. *)
  float_of_str : string -> option float;
  (** [datetime.fromisoformat(s).astimezone(timezone.utc)] as microseconds
      since the epoch; [None] stands for the exception it raises. *)
  fromisoformat : string -> option Z;
  (** [str(v)] for a float, a list or a dict. *)
  repr : pyval -> string;
  (** [sorted] and [list.sort] on keys with a NaN among them, given the test
      [<] and the flag [reverse]: the comparisons are then inconsistent, and
      the list the interpreter's merge sort returns depends on which of them
      it happens to make.  It is a rearrangement of the items, and the sort
      fails only when a comparison does. *)
  sort_unordered :
    forall K A : Type,
      (K -> K -> result bool) -> bool -> list (K * A) -> result (list (K * A));
  sort_unordered_perm :
    forall (K A : Type) (lt : K -> K -> result bool) (reverse : bool)
           (l l' : list (K * A)),
      sort_unordered K A lt reverse l = Ok l' -> Permutation l' l;
  sort_unordered_total :
    forall (K A : Type) (lt : K -> K -> result bool) (reverse : bool)
           (l : list (K * A)),
      (forall a b, In a (map fst l) -> In b (map fst l) -> exists r, lt a b = Ok r) ->
      exists l', sort_unordered K A lt reverse l = Ok l'
}.

Arguments sort_unordered {_ K A} lt reverse l.

(** The largest magnitude [float(n)] accepts: an integer at or beyond
    [2^1024 - 2^970] rounds to [2^1024], which is not a double. *)
Definition float_int_limit : Z := 2 ^ 1024 - 2 ^ 970.

(** [float(n)] for an [int] (a [bool] is an [int]). *)
Definition float_of_int (n : Z) : result float :=
  if Z.abs n <? float_int_limit then Ok (Finite (inject_Z n))
  else Raise OverflowError.

Definition int_of_bool (b : bool) : Z := if b then 1 else 0.

Section Model.

Context {B : Builtins}.

(** [float(v)] *)
Definition py_float (v : pyval) : result float :=
  match v with
  | PFloat x => Ok x
  | PInt n => float_of_int n
  | PBool b => float_of_int (int_of_bool b)
  | PStr s =>
      match float_of_str s with
      | Some x => Ok x
      | None => Raise ValueError
      end
  | PNone | PList _ | PDict _ => Raise TypeError
  end.

(** [str(v)] *)
Definition py_str (v : pyval) : string :=
  match v with
  | PStr s => s
  | PNone => "None"
  | PBool true => "True"
  | PBool false => "False"
  | PInt n => NilZero.string_of_int (Z.to_int n)
  | PFloat _ | PList _ | PDict _ => repr v
  end.

(** ** Configuration tables *)

Definition DEFAULT_SOURCE_ORDER : list string :=
  ["sg"; "icon"; "gfs"; "ecmwf"; "dwd"; "noaa"].

Definition METRIC_MAP : dict string :=
  [("waveHeight", "waveHeightM");
   ("swellHeight", "swellHeightM");
   ("swellPeriod", "swellPeriodS");
   ("swellDirection", "swellDirectionDeg");
   ("windSpeed", "windSpeedMps");
   ("windDirection", "windDirectionDeg");
   ("gust", "windGustMps");
   ("waterTemperature", "waterTemperatureC")].

(** ** select_metric_value *)

(** The clause [except (TypeError, ValueError)]. *)
Definition conversion_error (e : exn) : bool :=
  match e with
  | TypeError | ValueError => true
  | _ => false
  end.

(** [Optional[float]] as a JSON value. *)
Definition of_optional (o : option float) : pyval :=
  match o with
  | Some x => PFloat x
  | None => PNone
  end.

(** The loop [for key in ordered]; [Ok None] means the loop ran to its end. *)
Fixpoint scan_ordered (raw : dict pyval) (ordered : list string)
  : result (option float) :=
  match ordered with
  | [] => Ok None
  | key :: rest =>
      match dict_get key raw with
      | Some v =>
          if is_None v then scan_ordered raw rest
          else
            match py_float v with
            | Ok x => Ok (Some x)
            | Raise e => if conversion_error e then scan_ordered raw rest else Raise e
            end
      | None => scan_ordered raw rest
      end
  end.

(** The loop [for val in raw.values()]. *)
Fixpoint scan_values (vals : list pyval) : result (option float) :=
  match vals with
  | [] => Ok None
  | v :: rest =>
      if is_None v then scan_values rest
      else
        match py_float v with
        | Ok x => Ok (Some x)
        | Raise e => if conversion_error e then scan_values rest else Raise e
        end
  end.

Definition select_metric_value (raw : pyval) (source_order : list string)
  : result (option float) :=
  match raw with
  | PNone => Ok None
  | PInt n => x <- float_of_int n ;; Ok (Some x)
  | PBool b => x <- float_of_int (int_of_bool b) ;; Ok (Some x)
  | PFloat x => Ok (Some x)
  | PDict d =>
      let ordered :=
        source_order
        ++ filter (fun src => negb (str_in src source_order)) DEFAULT_SOURCE_ORDER in
      found <- scan_ordered d ordered ;;
      match found with
      | Some x => Ok (Some x)
      | None => scan_values (dict_values d)
      end
  | PStr _ | PList _ => Ok None
  end.

(** ** normalize_hour *)

(** The loop [for raw_key, out_key in METRIC_MAP.items()]. *)
Fixpoint normalize_metrics (hour : dict pyval) (source_order : list string)
  (items : dict string) (out : dict pyval) : result (dict pyval) :=
  match items with
  | [] => Ok out
  | (raw_key, out_key) :: rest =>
      v <- select_metric_value (py_get raw_key hour) source_order ;;
      normalize_metrics hour source_order rest (dict_set out_key (of_optional v) out)
  end.

Definition normalize_hour (hour : dict pyval) (source_order : list string)
  : result (dict pyval) :=
  normalize_metrics hour source_order METRIC_MAP [("time", py_get "time" hour)].

(** ** Instants and their text forms *)

Definition microseconds_per_hour : Z := 3600000000.
Definition microseconds_per_day : Z := 86400000000.

(** [timedelta(hours=h)] *)
Definition timedelta_hours (h : Z) : Z := h * microseconds_per_hour.

(** Nearest integer, halves to the even neighbour. *)
Definition round_half_even (x : Q) : Z :=
  let f := Qfloor x in
  match Qcompare (x - inject_Z f) (1 # 2) with
  | Lt => f
  | Gt => f + 1
  | Eq => if Z.even f then f else f + 1
  end.

(** [2 ** e] *)
Definition pow2 (e : Z) : Q :=
  if 0 <=? e then inject_Z (2 ^ e) else 1 # Z.to_pos (2 ^ (- e)).

(** The exponent of the binade of [q > 0]: [2 ** e <= q < 2 ** (e + 1)]. *)
Definition binade (q : Q) : Z :=
  let l := Z.log2 (Qnum q) - Z.log2 (Zpos (Qden q)) in
  if Qle_bool (pow2 l) q then l else l - 1.

(** The double nearest to [q >= 0], halves to the even mantissa: a mantissa
    of 53 bits at the exponent of the binade of [q].  The subnormal range and
    the overflow threshold are out of the reach of a [timedelta]. *)
Definition nearest_double_nonneg (q : Q) : Q :=
  let ulp := pow2 (binade q - 52) in
  Qred (inject_Z (round_half_even (q / ulp)) * ulp).

Definition nearest_double (q : Q) : Q :=
  if Qle_bool 0 q then nearest_double_nonneg q else - nearest_double_nonneg (- q).

(** [td.total_seconds()]: the quotient of two integers, microseconds by
    [10**6], rounded once to the nearest double. *)
Definition total_seconds (td : Z) : Q := nearest_double (td # 1000000).

(** [s.endswith(suffix)] *)
Definition endswith (s suffix : string) : bool :=
  let n := String.length s in
  let m := String.length suffix in
  (m <=? n)%nat && String.eqb (substring (n - m) m s) suffix.

(** The exceptions of the parser are all reported as [ValueError]; the
    interpreter raises [OverflowError] instead for a time whose instant in UTC
    leaves the years 1 to 9999. *)
Definition parse_time (value : string) : result Z :=
  let value :=
    if endswith value "Z"
    then (substring 0 (String.length value - 1) value ++ "+00:00")%string
    else value in
  match fromisoformat value with
  | Some t => Ok t
  | None => Raise ValueError
  end.

(** Year, month and day of a day number counted from 1970-01-01
    (proleptic Gregorian calendar). *)
Definition civil_from_days (days : Z) : Z * Z * Z :=
  let z := days + 719468 in
  let era := z / 146097 in
  let doe := z - era * 146097 in
  let yoe := (doe - doe / 1460 + doe / 36524 - doe / 146096) / 365 in
  let doy := doe - (365 * yoe + yoe / 4 - yoe / 100) in
  let mp := (5 * doy + 2) / 153 in
  let d := doy - (153 * mp + 2) / 5 + 1 in
  let m := if mp <? 10 then mp + 3 else mp - 9 in
  let y := yoe + era * 400 + (if m <=? 2 then 1 else 0) in
  (y, m, d).

Fixpoint zero_fill (n : nat) (s : string) : string :=
  match n with
  | O => s
  | S k => zero_fill k ("0" ++ s)%string
  end.

(** A non-negative number in decimal, zero-padded to [width] digits. *)
Definition padded (width : nat) (n : Z) : string :=
  let digits := NilZero.string_of_int (Z.to_int n) in
  zero_fill (width - String.length digits) digits.

(** [dt.date().isoformat()] of an instant in UTC. *)
Definition date_isoformat (t : Z) : string :=
  let '(y, m, d) := civil_from_days (t / microseconds_per_day) in
  (padded 4 y ++ "-" ++ padded 2 m ++ "-" ++ padded 2 d)%string.

Definition iso_z (t : Z) : string :=
  let in_day := t mod microseconds_per_day in
  let secs := in_day / 1000000 in
  let micro := in_day mod 1000000 in
  let hh := padded 2 (secs / 3600) in
  let mm := padded 2 (secs / 60 mod 60) in
  let ss := padded 2 (secs mod 60) in
  let fraction := if micro =? 0 then "" else ("." ++ padded 6 micro)%string in
  (date_isoformat t ++ "T" ++ hh ++ ":" ++ mm ++ ":" ++ ss ++ fraction ++ "Z")%string.

(** ** nearest_hour *)

(** The loop of [min(iterable, key=...)]: a later item replaces the best one
    only when its key is strictly smaller. *)
Fixpoint min_loop {A : Type} (key : A -> result Q) (best : A) (best_key : Q)
  (items : list A) : result A :=
  match items with
  | [] => Ok best
  | item :: rest =>
      k <- key item ;;
      if Qltb k best_key then min_loop key item k rest
      else min_loop key best best_key rest
  end.

Definition py_min_by {A : Type} (key : A -> result Q) (items : list A) : result A :=
  match items with
  | [] => Raise ValueError
  | item :: rest =>
      k <- key item ;;
      min_loop key item k rest
  end.

(** The time of a record as an instant: [parse_time(str(h["time"]))]. *)
Definition time_of (h : dict pyval) : result Z :=
  t <- dict_item "time" h ;;
  parse_time (py_str t).

Definition distance (anchor : Z) (hour : dict pyval) : result Q :=
  t <- time_of hour ;;
  Ok (Qabs (total_seconds (t - anchor))).

Definition nearest_hour (hours : list (dict pyval)) (anchor : Z)
  : result (dict pyval) :=
  let valid := filter (dict_mem "time") hours in
  match valid with
  | [] => Raise (ApiError "No weather hours with time field")
  | _ :: _ => py_min_by (distance anchor) valid
  end.

(** ** score_hour *)

(** A value used as an operand of float arithmetic. *)
Definition float_operand (v : pyval) : result float :=
  match v with
  | PFloat x => Ok x
  | PInt n => float_of_int n
  | PBool b => float_of_int (int_of_bool b)
  | PNone | PStr _ | PList _ | PDict _ => Raise TypeError
  end.

(** [max(a, b)] and [min(a, b)]: the second argument is returned only when
    it is greater, or smaller, than the first; a NaN is neither. *)
Definition py_max (a b : float) : float := if float_ltb a b then b else a.
Definition py_min (a b : float) : float := if float_ltb b a then b else a.

(** A rational rounded to [ndigits] decimals, halves to even. *)
Definition round_digits (q : Q) (ndigits : nat) : Q :=
  let scale := Z.to_pos (10 ^ Z.of_nat ndigits) in
  Qred (round_half_even (q * inject_Z (Zpos scale)) # scale).

(** [round(x, ndigits)]: an infinity and NaN are returned as they are. *)
Definition py_round (x : float) (ndigits : nat) : float :=
  match x with
  | Finite q => Finite (round_digits q ndigits)
  | Infinity _ | NaN => x
  end.

(** [if v is not None: score += term(v)] *)
Definition add_term (v : pyval) (term : float -> float) (score : float)
  : result float :=
  if is_None v then Ok score
  else x <- float_operand v ;; Ok (score + term x)%float.

Definition score_hour (hour : dict pyval) : result float :=
  let wave := py_get "waveHeightM" hour in
  let period := py_get "swellPeriodS" hour in
  let wind := py_get "windSpeedMps" hour in
  let gust := py_get "windGustMps" hour in
  let score := Finite 0 in
  score <- add_term wave
             (fun wave =>
                py_max (Finite 0)
                  (Finite 1.2 - float_abs (wave - Finite 1.2))%float) score ;;
  score <- add_term period
             (fun period => py_min (Finite 2) (period / 6)%float) score ;;
  score <- add_term wind
             (fun wind => py_max (Finite 0) (Finite 2 - wind / 3)%float) score ;;
  score <- add_term gust
             (fun gust => py_max (Finite 0) (Finite 1.5 - gust / 4)%float) score ;;
  Ok (py_round score 4).

(** ** build_windows *)

Inductive horizon : Type := Now | H24 | H48 | H72.

Definition HORIZON_HOURS (h : horizon) : Z :=
  match h with
  | Now => 1
  | H24 => 24
  | H48 => 48
  | H72 => 72
  end.

Definition is_now (h : horizon) : bool :=
  match h with
  | Now => true
  | _ => false
  end.

Record window : Type := {
  w_start : string;
  w_end : string;
  bestHours : list (dict pyval)
}.

(** The loop [for h in normalized_hours] that fills [in_window]. *)
Fixpoint collect_window (anchor end_ : Z) (normalized_hours : list (dict pyval))
  : result (list (dict pyval)) :=
  match normalized_hours with
  | [] => Ok []
  | h :: rest =>
      t <- time_of h ;;
      if (anchor <=? t) && (t <=? end_) then
        s <- score_hour h ;;
        let entry := dict_set "score" (PFloat s) h in
        in_window <- collect_window anchor end_ rest ;;
        Ok (entry :: in_window)
      else collect_window anchor end_ rest
  end.

(** Stable insertion by descending key: [x] goes before the first element
    whose key does not exceed its own. *)
Fixpoint insert_desc {A : Type} (x : float * A) (l : list (float * A))
  : list (float * A) :=
  match l with
  | [] => [x]
  | y :: rest =>
      if float_ltb (fst x) (fst y) then y :: insert_desc x rest else x :: l
  end.

Fixpoint sort_desc {A : Type} (l : list (float * A)) : list (float * A) :=
  match l with
  | [] => []
  | x :: rest => insert_desc x (sort_desc rest)
  end.

(** [sorted(items, key=key, reverse=True)]: the keys are computed first.  On
    keys that [<] orders, which floats other than NaN are, the sort is the
    stable one; with a NaN among the keys it is [sort_unordered]. *)
Definition sorted_desc {A : Type} (key : A -> result float) (items : list A)
  : result (list A) :=
  keys <- mapM key items ;;
  if existsb is_nan keys then
    sorted <- sort_unordered (fun a b => Ok (float_ltb a b)) true
                (combine keys items) ;;
    Ok (map snd sorted)
  else Ok (map snd (sort_desc (combine keys items))).

(** [x["score"]] as a sort key. *)
Definition score_key (x : dict pyval) : result float :=
  v <- dict_item "score" x ;;
  float_operand v.

Definition WINDOW_LENGTHS : list (string * Z) :=
  [("24h", 24); ("48h", 48); ("72h", 72)].

(** The loop [for label, hours in [...]] of [build_windows]. *)
Fixpoint windows_loop (normalized_hours : list (dict pyval)) (anchor : Z)
  (hz : horizon) (lengths : list (string * Z)) (windows : dict window)
  : result (dict window) :=
  match lengths with
  | [] => Ok windows
  | (label, hours) :: rest =>
      if (HORIZON_HOURS hz <? hours) || is_now hz then
        windows_loop normalized_hours anchor hz rest windows
      else
        let end_ := anchor + timedelta_hours hours in
        in_window <- collect_window anchor end_ normalized_hours ;;
        sorted <- sorted_desc score_key in_window ;;
        let top := firstn 3 sorted in
        windows_loop normalized_hours anchor hz rest
          (dict_set label
             {| w_start := iso_z anchor; w_end := iso_z end_; bestHours := top |}
             windows)
  end.

Definition build_windows (normalized_hours : list (dict pyval)) (anchor : Z)
  (hz : horizon) : result (dict window) :=
  windows_loop normalized_hours anchor hz WINDOW_LENGTHS [].

(** ** normalize_tides *)

(** Truth value of a JSON value ([if not t]). *)
Definition py_truthy (v : pyval) : bool :=
  match v with
  | PNone => false
  | PBool b => b
  | PInt n => negb (n =? 0)
  | PFloat x => negb (float_eqb x (Finite 0))
  | PStr s => negb (String.eqb s "")
  | PList l => match l with [] => false | _ :: _ => true end
  | PDict d => match d with [] => false | _ :: _ => true end
  end.

Definition as_number (v : pyval) : option float :=
  match v with
  | PInt n => Some (Finite (inject_Z n))
  | PBool b => Some (Finite (inject_Z (int_of_bool b)))
  | PFloat x => Some x
  | _ => None
  end.

(** [a == b] on JSON values. *)
Fixpoint py_eq (a b : pyval) {struct a} : bool :=
  match a, b with
  | PNone, PNone => true
  | PStr s, PStr t => String.eqb s t
  | PList l, PList m =>
      (fix all2 (l m : list pyval) {struct l} : bool :=
         match l, m with
         | [], [] => true
         | x :: l', y :: m' => py_eq x y && all2 l' m'
         | _, _ => false
         end) l m
  | PDict d, PDict e =>
      Nat.eqb (List.length d) (List.length e)
      && (fix sub (d : list (string * pyval)) : bool :=
            match d with
            | [] => true
            | (k, v) :: d' =>
                (fix find (e : list (string * pyval)) : bool :=
                   match e with
                   | [] => false
                   | (k', w) :: e' => if String.eqb k k' then py_eq v w else find e'
                   end) e
                && sub d'
            end) d
  | _, _ =>
      match as_number a, as_number b with
      | Some x, Some y => float_eqb x y
      | _, _ => false
      end
  end.

(** [a < b] on JSON values: numbers by value, strings and lists
    lexicographically, anything else is a [TypeError]. *)
Fixpoint py_lt (a b : pyval) {struct a} : result bool :=
  match a, b with
  | PStr s, PStr t => Ok (String.ltb s t)
  | PList l, PList m =>
      (fix lex (l m : list pyval) {struct l} : result bool :=
         match l, m with
         | [], [] => Ok false
         | [], _ :: _ => Ok true
         | _ :: _, [] => Ok false
         | x :: l', y :: m' => if py_eq x y then lex l' m' else py_lt x y
         end) l m
  | _, _ =>
      match as_number a, as_number b with
      | Some x, Some y => Ok (float_ltb x y)
      | _, _ => Raise TypeError
      end
  end.

(** Stable insertion by ascending key; a failing comparison aborts. *)
Fixpoint insert_asc {A : Type} (x : pyval * A) (l : list (pyval * A))
  : result (list (pyval * A)) :=
  match l with
  | [] => Ok [x]
  | y :: rest =>
      smaller <- py_lt (fst y) (fst x) ;;
      if smaller then (r <- insert_asc x rest ;; Ok (y :: r)) else Ok (x :: l)
  end.

Fixpoint sort_asc {A : Type} (l : list (pyval * A)) : result (list (pyval * A)) :=
  match l with
  | [] => Ok []
  | x :: rest =>
      sorted <- sort_asc rest ;;
      insert_asc x sorted
  end.

(** Whether a NaN stands in a key, at any depth of a list. *)
Fixpoint has_nan (v : pyval) : bool :=
  match v with
  | PFloat x => is_nan x
  | PList l =>
      (fix any (l : list pyval) : bool :=
         match l with
         | [] => false
         | x :: l' => has_nan x || any l'
         end) l
  | _ => false
  end.

(** [l.sort(key=key)]: the keys are computed first.  The sort is the stable
    one, that fails when a comparison does; with a NaN among the keys it is
    [sort_unordered]. *)
Definition list_sort {A : Type} (key : A -> result pyval) (items : list A)
  : result (list A) :=
  keys <- mapM key items ;;
  sorted <- (if existsb has_nan keys
             then sort_unordered py_lt false (combine keys items)
             else sort_asc (combine keys items)) ;;
  Ok (map snd sorted).

(** [float(height) if height is not None else None], inside its [try]. *)
Definition height_value (height : pyval) : result pyval :=
  if is_None height then Ok PNone
  else
    match py_float height with
    | Ok x => Ok (PFloat x)
    | Raise e => if conversion_error e then Ok PNone else Raise e
    end.

(** The loop [for item in data] of [normalize_tides]. *)
Fixpoint normalize_tides_loop (data : list (dict pyval)) : result (list (dict pyval)) :=
  match data with
  | [] => Ok []
  | item :: rest =>
      let t := py_get "time" item in
      if negb (py_truthy t) then normalize_tides_loop rest
      else
        let item_type := py_get "type" item in
        let height := py_get "height" item in
        h <- height_value height ;;
        out <- normalize_tides_loop rest ;;
        Ok ([("time", t); ("type", item_type); ("heightM", h)] :: out)
  end.

Definition normalize_tides (data : list (dict pyval)) : result (list (dict pyval)) :=
  out <- normalize_tides_loop data ;;
  list_sort (dict_item "time") out.

(** ** tide_trend_now *)

Definition lower_ascii (c : ascii) : ascii :=
  let n := nat_of_ascii c in
  if (65 <=? n)%nat && (n <=? 90)%nat then ascii_of_nat (n + 32) else c.

(** [s.lower()], on the letters A to Z. *)
Fixpoint lower (s : string) : string :=
  match s with
  | EmptyString => EmptyString
  | String c rest => String (lower_ascii c) (lower rest)
  end.

(** [str(e.get("type", "")).lower()] *)
Definition kind_of (e : dict pyval) : string :=
  lower (py_str (py_get_default "type" (PStr "") e)).

(** The body of the [try] that fills [parsed]. *)
Definition parse_extreme (e : dict pyval) : result (Z * string) :=
  t <- time_of e ;;
  Ok (t, kind_of e).

Fixpoint parsed_extremes (extremes : list (dict pyval)) : list (Z * string) :=
  match extremes with
  | [] => []
  | e :: rest =>
      match parse_extreme e with
      | Ok item => item :: parsed_extremes rest
      | Raise _ => parsed_extremes rest
      end
  end.

Definition is_none {A : Type} (o : option A) : bool :=
  match o with
  | None => true
  | Some _ => false
  end.

(** One round of [for dt, kind in parsed] on [(prev_item, next_item)]. *)
Definition trend_step (anchor : Z)
  (st : option (Z * string) * option (Z * string)) (item : Z * string)
  : option (Z * string) * option (Z * string) :=
  let '(prev_item, next_item) := st in
  if fst item <=? anchor then (Some item, next_item)
  else if (anchor <? fst item) && is_none next_item then (prev_item, Some item)
  else (prev_item, next_item).

Definition classify (prev_item next_item : option (Z * string)) : string :=
  match prev_item, next_item with
  | Some (_, prev_kind), Some (_, next_kind) =>
      if String.eqb prev_kind "low" && String.eqb next_kind "high" then "rising"
      else if String.eqb prev_kind "high" && String.eqb next_kind "low" then "falling"
      else "unknown"
  | _, _ => "unknown"
  end.

Definition tide_trend_now (extremes : list (dict pyval)) (anchor : Z) : string :=
  let parsed := parsed_extremes extremes in
  match parsed with
  | [] => "unknown"
  | _ :: _ =>
      let '(prev_item, next_item) := fold_left (trend_step anchor) parsed (None, None) in
      classify prev_item next_item
  end.

(** ** tides_by_day *)

(** A day's bucket: the lists under ["high"] and ["low"]. *)
Definition bucket : Type := dict (list (dict pyval)).

Definition empty_bucket : bucket := [("high", []); ("low", [])].

(** The body of the [try]: the UTC calendar day of the extreme. *)
Definition day_of (e : dict pyval) : result string :=
  t <- time_of e ;;
  Ok (date_isoformat t).

(** The entry appended to a bucket. *)
Definition day_entry (time : pyval) (e : dict pyval) : dict pyval :=
  [("time", time); ("heightM", py_get "heightM" e)].

(** The loop [for e in extremes] of [tides_by_day]. *)
Fixpoint tides_by_day_loop (extremes : list (dict pyval)) (out : dict bucket)
  : result (dict bucket) :=
  match extremes with
  | [] => Ok out
  | e :: rest =>
      match day_of e with
      | Raise _ => tides_by_day_loop rest out
      | Ok day =>
          let out := dict_setdefault day empty_bucket out in
          let kind := kind_of e in
          if negb (str_in kind ["high"; "low"]) then tides_by_day_loop rest out
          else
            b <- dict_item day out ;;
            entries <- dict_item kind b ;;
            time <- dict_item "time" e ;;
            tides_by_day_loop rest
              (dict_set day (dict_set kind (entries ++ [day_entry time e]) b) out)
      end
  end.

Definition tides_by_day (extremes : list (dict pyval)) : result (dict bucket) :=
  tides_by_day_loop extremes [].

(** ** build_report, from the fetched payloads on *)

Record report_meta : Type := {
  generatedAt : string;
  meta_horizon : horizon;
  inputMode : string;
  sourcesRequested : list string;
  warnings : list string
}.

Record report_tides : Type := {
  trendNow : string;
  extremes : list (dict pyval);
  byDay : dict bucket
}.

Record report : Type := {
  meta : report_meta;
  location : pyval;
  now : dict pyval;
  forecast_windows : dict window;
  tides : report_tides
}.

(** The part of [build_report] that follows the two fetches: [weather_hours]
    and [tide_data] are what [fetch_weather] and [fetch_tides] returned. *)
Definition build_report (anchor : Z) (hz : horizon) (mode : string)
  (sources : list string) (geo_warnings : list string) (loc : pyval)
  (weather_hours tide_data : list (dict pyval)) : result report :=
  let source_order := sources in
  normalized <-
    mapM (fun hour => normalize_hour hour source_order)
         (filter (dict_mem "time") weather_hours) ;;
  match normalized with
  | [] => Raise (ApiError "No weather data points returned")
  | _ :: _ =>
      current <- nearest_hour normalized anchor ;;
      extremes <- normalize_tides tide_data ;;
      windows <- build_windows normalized anchor hz ;;
      by_day <- tides_by_day extremes ;;
      Ok {| meta := {| generatedAt := iso_z anchor;
                       meta_horizon := hz;
                       inputMode := mode;
                       sourcesRequested := sources;
                       warnings := geo_warnings |};
            location := loc;
            now := current;
            forecast_windows := windows;
            tides := {| trendNow := tide_trend_now extremes anchor;
                        extremes := extremes;
                        byDay := by_day |} |}
  end.

End Model.

(** ** normalize_surf_data.normalize *)

Definition NOW_KEYS : list string :=
  ["waveHeightM"; "swellHeightM"; "swellPeriodS"; "swellDirectionDeg";
   "windSpeedMps"; "windDirectionDeg"; "windGustMps"; "waterTemperatureC"].

(** [payload[outer].setdefault(key, v)]: only a dict has [setdefault]. *)
Definition setdefault_in (outer key : string) (v : pyval) (payload : dict pyval)
  : result (dict pyval) :=
  inner <- dict_item outer payload ;;
  match inner with
  | PDict d => Ok (dict_set outer (PDict (dict_setdefault key v d)) payload)
  | _ => Raise AttributeError
  end.

(** The loop [for key in NOW_KEYS]. *)
Fixpoint setdefault_now (keys : list string) (payload : dict pyval)
  : result (dict pyval) :=
  match keys with
  | [] => Ok payload
  | key :: rest =>
      payload <- setdefault_in "now" key PNone payload ;;
      setdefault_now rest payload
  end.

Definition normalize (payload : dict pyval) : result (dict pyval) :=
  let payload := dict_setdefault "meta" (PDict []) payload in
  let payload := dict_setdefault "location" (PDict []) payload in
  let payload := dict_setdefault "now" (PDict []) payload in
  let payload := dict_setdefault "forecast" (PDict []) payload in
  let payload := dict_setdefault "tides" (PDict []) payload in
  payload <- setdefault_now NOW_KEYS payload ;;
  payload <- setdefault_in "meta" "warnings" (PList []) payload ;;
  payload <- setdefault_in "forecast" "windows" (PDict []) payload ;;
  payload <- setdefault_in "tides" "extremes" (PList []) payload ;;
  payload <- setdefault_in "tides" "byDay" (PDict []) payload ;;
  setdefault_in "tides" "trendNow" (PStr "unknown") payload.

(** ** fetch_weather and fetch_tides, from the response on

    [http_get_json] is the function from the URL to what the request gives:
    the JSON object of the response, or the exception the request raised.
    [query] is the URL-encoded query string. *)

Definition WEATHER_ENDPOINT : string := "https://api.stormglass.io/v2/weather/point".

Definition TIDE_ENDPOINTS : list string :=
  ["https://api.stormglass.io/v2/tide/extremes/point";
   "https://api.stormglass.io/v2/tide/extremes"].

Definition url_of (endpoint query : string) : string :=
  (endpoint ++ "?" ++ query)%string.

Definition fetch_weather (http_get_json : string -> result (dict pyval))
  (query : string) : result (list pyval) :=
  payload <- http_get_json (url_of WEATHER_ENDPOINT query) ;;
  match py_get_default "hours" (PList []) payload with
  | PList hours => Ok hours
  | _ => Raise (ApiError "Weather response missing hours array")
  end.

(** The body of the [try] of [fetch_tides]. *)
Definition tide_attempt (http_get_json : string -> result (dict pyval))
  (query endpoint : string) : result (list pyval) :=
  payload <- http_get_json (url_of endpoint query) ;;
  match py_get_default "data" (PList []) payload with
  | PList data => Ok data
  | _ => Raise (ApiError "Tide response missing data array")
  end.

(** The loop [for endpoint in TIDE_ENDPOINTS] and what follows it; only an
    [ApiError] is caught and kept as [last_error]. *)
Fixpoint fetch_tides_loop (http_get_json : string -> result (dict pyval))
  (query : string) (endpoints : list string) (last_error : option exn)
  : result (list pyval) :=
  match endpoints with
  | [] =>
      match last_error with
      | Some e => Raise e
      | None => Ok []
      end
  | endpoint :: rest =>
      match tide_attempt http_get_json query endpoint with
      | Ok data => Ok data
      | Raise (ApiError msg) =>
          fetch_tides_loop http_get_json query rest (Some (ApiError msg))
      | Raise e => Raise e
      end
  end.

Definition fetch_tides (http_get_json : string -> result (dict pyval))
  (query : string) : result (list pyval) :=
  fetch_tides_loop http_get_json query TIDE_ENDPOINTS None.

(** ** parse_sources

    [strip] is [str.strip]. *)

(** [s.split(sep)] for a separator of one character. *)
Fixpoint split_on (sep : ascii) (s : string) : list string :=
  match s with
  | EmptyString => [EmptyString]
  | String c rest =>
      if Ascii.eqb c sep then EmptyString :: split_on sep rest
      else
        match split_on sep rest with
        | part :: parts => String c part :: parts
        | [] => [String c EmptyString]
        end
  end.

Definition parse_sources (strip : string -> string) (value : option string)
  : list string :=
  match value with
  | None => []
  | Some v =>
      if String.eqb v "" then []
      else
        map strip
          (filter (fun part => negb (String.eqb (strip part) ""))
             (split_on ","%char v))
  end.

(** ** parse_args, after argparse, and main *)

(** The checks of [parse_args] on the parsed arguments: the message it gives
    to [parser.error], if any. *)
Definition check_args (location : option string) (lat lon : option float)
  : option string :=
  let has_location :=
    match location with
    | Some s => negb (String.eqb s "")
    | None => false
    end in
  let no_lat := match lat with None => true | Some _ => false end in
  let no_lon := match lon with None => true | Some _ => false end in
  let has_coords := negb no_lat || negb no_lon in
  if has_location && has_coords
  then Some "Use either --location or --lat/--lon, not both."
  else if negb has_location && negb has_coords
  then Some "Provide --location or both --lat and --lon."
  else if has_coords && (no_lat || no_lon)
  then Some "Both --lat and --lon are required for coordinate mode."
  else None.

(** What the body of the [try] of [main] can raise: [SystemExit], the
    script's [ConfigError], another [Exception], or an exception that is not
    an [Exception] ([KeyboardInterrupt], [GeneratorExit]). *)
Inductive raised : Type :=
| SystemExit (code : pyval)
| ConfigError (msg : string)
| Exception (e : exn)
| BaseException (name : string).

(** How a call of [main] ends: with a status, or with an exception that no
    clause caught. *)
Inductive ending : Type :=
| Returns (status : Z)
| Propagates (r : raised).

(** [parser.error(message)] exits with status 2. *)
Definition parse_args_outcome (location : option string) (lat lon : option float)
  : option raised :=
  match check_args location lat lon with
  | Some _ => Some (SystemExit (PInt 2))
  | None => None
  end.

(** The [except] clauses of [main], in their order; [None] when no clause
    catches the exception. *)
Definition exit_status (r : raised) : option Z :=
  match r with
  | SystemExit code =>
      match code with
      | PInt n => if (n =? 0) || (n =? 2) || (n =? 3) then Some n else Some 2
      | PBool b => if Z.eqb (int_of_bool b) 0 then Some (int_of_bool b) else Some 2
      | _ => Some 2
      end
  | Exception (ApiError _) => Some 4
  | ConfigError _ => Some 3
  | Exception _ => Some 5
  | BaseException _ => None
  end.

(** [main]: [body] is what the body of its [try] raised, if anything, from
    parsing the arguments to printing the report.  The [print] of a handler
    is taken to succeed. *)
Definition main (body : option raised) : ending :=
  match body with
  | None => Returns 0
  | Some r =>
      match exit_status r with
      | Some status => Returns status
      | None => Propagates r
      end
  end.

(** [main] on arguments that parse, with the outcome of [build_report]; the
    report that was built is printed. *)
Definition main_of_report {A : Type} (built : result A) : ending :=
  main (match built with
        | Ok _ => None
        | Raise e => Some (Exception e)
        end).

(** ** A reference instance of the builtins

    It covers the payloads the provider sends: timestamps of the form
    [YYYY-MM-DDTHH:MM:SS+HH:MM] and numeric strings in plain decimal
    notation.  It is used to run the model on concrete payloads. *)

Definition digit_of (c : ascii) : option Z :=
  let n := nat_of_ascii c in
  if (48 <=? n)%nat && (n <=? 57)%nat then Some (Z.of_nat n - 48) else None.

Fixpoint digits_from (s : string) (acc : Z) : option Z :=
  match s with
  | EmptyString => Some acc
  | String c rest =>
      match digit_of c with
      | Some d => digits_from rest (10 * acc + d)
      | None => None
      end
  end.

(** A non-empty run of decimal digits. *)
Definition natural (s : string) : option Z :=
  match s with
  | EmptyString => None
  | _ => digits_from s 0
  end.

Fixpoint split_at_dot (s : string) : string * option string :=
  match s with
  | EmptyString => (EmptyString, None)
  | String c rest =>
      if Ascii.eqb c "."%char then (EmptyString, Some rest)
      else let '(whole, fraction) := split_at_dot rest in (String c whole, fraction)
  end.

Definition unsigned_decimal (s : string) : option Q :=
  match split_at_dot s with
  | (whole, None) => option_map inject_Z (natural whole)
  | (whole, Some fraction) =>
      match natural whole, natural fraction with
      | Some w, Some f =>
          let scale := Pos.pow 10 (Pos.of_nat (String.length fraction)) in
          Some (Qred ((w * Zpos scale + f) # scale))
      | _, _ => None
      end
  end.

Definition decimal_of_str (s : string) : option Q :=
  match s with
  | String "-"%char rest => option_map Qopp (unsigned_decimal rest)
  | _ => unsigned_decimal s
  end.

Definition days_from_civil (y m d : Z) : Z :=
  let y := if m <=? 2 then y - 1 else y in
  let era := y / 400 in
  let yoe := y - era * 400 in
  let doy := (153 * (if 2 <? m then m - 3 else m + 9) + 2) / 5 + d - 1 in
  let doe := yoe * 365 + yoe / 4 - yoe / 100 + doy in
  era * 146097 + doe - 719468.

Definition field (start len : nat) (s : string) : option Z :=
  natural (substring start len s).

Definition in_range (lo hi x : Z) : bool := (lo <=? x) && (x <=? hi).

(** [YYYY-MM-DDTHH:MM:SS+HH:MM] *)
Definition whole_seconds_of_str (s : string) : option Z :=
  match field 0 4 s, field 5 2 s, field 8 2 s,
        field 11 2 s, field 14 2 s, field 17 2 s,
        field 20 2 s, field 23 2 s with
  | Some y, Some mo, Some d, Some h, Some mi, Some sec, Some oh, Some om =>
      let separators :=
        String.eqb (substring 4 1 s) "-" && String.eqb (substring 7 1 s) "-"
        && String.eqb (substring 10 1 s) "T" && String.eqb (substring 13 1 s) ":"
        && String.eqb (substring 16 1 s) ":" && String.eqb (substring 22 1 s) ":"
        && Nat.eqb (String.length s) 25 in
      let days := days_from_civil y mo d in
      let valid :=
        in_range 1 9999 y && in_range 0 23 h && in_range 0 59 mi
        && in_range 0 59 sec && in_range 0 23 oh && in_range 0 59 om
        && (let '(y', mo', d') := civil_from_days days in
            (y' =? y) && (mo' =? mo) && (d' =? d)) in
      let local := days * 86400 + h * 3600 + mi * 60 + sec in
      let offset := oh * 3600 + om * 60 in
      let sign := substring 19 1 s in
      if separators && valid then
        if String.eqb sign "+" then Some ((local - offset) * 1000000)
        else if String.eqb sign "-" then Some ((local + offset) * 1000000)
        else None
      else None
  | _, _, _, _, _, _, _, _ => None
  end.

(** The same, or [YYYY-MM-DDTHH:MM:SS.ffffff+HH:MM]. *)
Definition timestamp_of_str (s : string) : option Z :=
  if Nat.eqb (String.length s) 32 && String.eqb (substring 19 1 s) "." then
    match field 20 6 s,
          whole_seconds_of_str (substring 0 19 s ++ substring 26 6 s) with
    | Some micro, Some t => Some (t + micro)
    | _, _ => None
    end
  else whole_seconds_of_str s.

(** [float(s)]: the three words for the values that are not rationals, or a
    decimal. *)
Definition float_literal (s : string) : option float :=
  if String.eqb s "nan" then Some NaN
  else if String.eqb s "inf" then Some (Infinity false)
  else if String.eqb s "-inf" then Some (Infinity true)
  else option_map Finite (decimal_of_str s).

(** No payload of the provider carries a NaN; the reference leaves a list
    with such a key in the order it has. *)
Definition reference_builtins : Builtins := {|
  float_of_str := float_literal;
  fromisoformat := timestamp_of_str;
  repr := fun _ => EmptyString;
  sort_unordered := fun K A lt reverse l => Ok l;
  sort_unordered_perm :=
    fun K A lt reverse l l' (H : Ok l = Ok l') =>
      match H in (_ = r)
            return match r with
                   | Ok l' => Permutation l' l
                   | Raise _ => True
                   end
      with
      | eq_refl => Permutation_refl l
      end;
  sort_unordered_total :=
    fun K A lt reverse l _ => ex_intro _ l eq_refl
|}.

(** * Specification-side definitions *)

(** A list of source names without its repeated entries; the first
    occurrence stays in place. *)
Fixpoint dedup (l : list string) : list string :=
  match l with
  | [] => []
  | x :: rest => x :: filter (fun y => negb (String.eqb y x)) (dedup rest)
  end.

(** The first element of [l] on which [f] gives a value. *)
Fixpoint first_some {A : Type} (f : A -> option float) (l : list A)
  : option float :=
  match l with
  | [] => None
  | a :: rest =>
      match f a with
      | Some x => Some x
      | None => first_some f rest
      end
  end.

(** An integer that [float] rejects as too large. *)
Definition big_int (v : pyval) : bool :=
  match v with
  | PInt n => negb (Z.abs n <? float_int_limit)
  | _ => false
  end.

(** A raw metric that is, or holds, such an integer. *)
Definition has_big_int (raw : pyval) : bool :=
  match raw with
  | PDict d => existsb big_int (dict_values d)
  | _ => big_int raw
  end.

(** The record a normalized hour is: the time and the eight metrics. *)
Definition mk_hour (t : pyval)
  (wave swell period swell_dir wind wind_dir gust water : option float)
  : dict pyval :=
  [("time", t);
   ("waveHeightM", of_optional wave);
   ("swellHeightM", of_optional swell);
   ("swellPeriodS", of_optional period);
   ("swellDirectionDeg", of_optional swell_dir);
   ("windSpeedMps", of_optional wind);
   ("windDirectionDeg", of_optional wind_dir);
   ("windGustMps", of_optional gust);
   ("waterTemperatureC", of_optional water)].

Definition normalized_hour (h : dict pyval) : Prop :=
  exists t wave swell period swell_dir wind wind_dir gust water,
    h = mk_hour t wave swell period swell_dir wind wind_dir gust water.

(** ** The defaults of normalize_surf_data.normalize, as a table *)

(** The fields [normalize] fills in: section, key, default. *)
Definition NORMALIZE_DEFAULTS : list (string * string * pyval) :=
  map (fun key => ("now", key, PNone)) NOW_KEYS
  ++ [("meta", "warnings", PList []);
      ("forecast", "windows", PDict []);
      ("tides", "extremes", PList []);
      ("tides", "byDay", PDict []);
      ("tides", "trendNow", PStr "unknown")].

(** The [setdefault] calls on the sections, one after the other. *)
Fixpoint fill_defaults (defaults : list (string * string * pyval))
  (payload : dict pyval) : result (dict pyval) :=
  match defaults with
  | [] => Ok payload
  | (section, key, v) :: rest =>
      payload <- setdefault_in section key v payload ;;
      fill_defaults rest payload
  end.

(** The five [payload.setdefault(section, {})] calls. *)
Definition with_sections (payload : dict pyval) : dict pyval :=
  dict_setdefault "tides" (PDict [])
    (dict_setdefault "forecast" (PDict [])
       (dict_setdefault "now" (PDict [])
          (dict_setdefault "location" (PDict [])
             (dict_setdefault "meta" (PDict []) payload)))).

(** [payload[section][key]] when the section is an object that has the key. *)
Definition section_field (section key : string) (payload : dict pyval) : option pyval :=
  match dict_get section payload with
  | Some (PDict d) => dict_get key d
  | _ => None
  end.

(** The default the table gives for a field, if any. *)
Fixpoint default_of (defaults : list (string * string * pyval))
  (section key : string) : option pyval :=
  match defaults with
  | [] => None
  | (s, k, v) :: rest =>
      if String.eqb s section && String.eqb k key then Some v
      else default_of rest section key
  end.

Definition is_object (v : pyval) : bool :=
  match v with
  | PDict _ => true
  | _ => false
  end.

(** The sections [normalize] writes into are objects, where present. *)
Definition sections_are_objects (payload : dict pyval) : bool :=
  forallb (fun section =>
             match dict_get section payload with
             | Some v => is_object v
             | None => true
             end)
          ["now"; "meta"; "forecast"; "tides"].

(** ** Sample payloads *)

(** 2024-01-01T09:00:00Z *)
Definition sample_anchor : Z := 1704099600000000.

Definition sample_weather_hours : list (dict pyval) :=
  [ [("time", PStr "2024-01-01T09:00:00+00:00");
     ("waveHeight", PDict [("icon", PFloat (Finite 1.5)); ("gfs", PFloat (Finite 1.8))]);
     ("swellPeriod", PDict [("sg", PFloat (Finite 9))]);
     ("windSpeed", PFloat (Finite 4.5))];
    [("time", PStr "2024-01-01T10:00:00+00:00");
     ("waveHeight", PDict [("sg", PFloat (Finite 1.2))]);
     ("swellPeriod", PDict [("sg", PFloat (Finite 12))]);
     ("gust", PDict [("noaa", PFloat (Finite 2))])];
    [("waveHeight", PDict [("sg", PFloat (Finite 1.1))])] ].

Definition sample_hours : list (dict pyval) :=
  [ mk_hour (PStr "2024-01-01T10:00:00+00:00")
      (Some (Finite 1.5)) None (Some (Finite 9)) None (Some (Finite 4.5)) None None None;
    mk_hour (PStr "2024-01-01T08:30:00+00:00")
      (Some (Finite 1.2)) None (Some (Finite 12)) None None None (Some (Finite 2)) None;
    mk_hour (PStr "2024-01-01T09:30:00+00:00")
      None None None None None None None (Some (Finite 11)) ].

(** A normalized hour whose [time] was [null] upstream. *)
Definition untimed_hour : dict pyval :=
  mk_hour PNone (Some (Finite 1.2)) None None None None None None None.

(** A normalized hour with a negative swell period. *)
Definition negative_period_hour : dict pyval :=
  mk_hour (PStr "2024-01-01T09:00:00+00:00")
    None None (Some (Finite (-6))) None None None None None.

Definition sample_extremes : list (dict pyval) :=
  [ [("time", PStr "2024-01-01T03:10:00+00:00"); ("type", PStr "high");
     ("heightM", PFloat (Finite 1.8))];
    [("time", PStr "2024-01-01T09:00:00+00:00"); ("type", PStr "Low");
     ("heightM", PFloat (Finite 0.7))];
    [("time", PStr "2024-01-01T15:20:00+00:00"); ("type", PStr "HIGH");
     ("heightM", PFloat (Finite 1.9))];
    [("time", PStr "2024-01-01T21:00:00+00:00"); ("type", PStr "slack");
     ("heightM", PNone)] ].

(** Tide events whose time strings are in ascending order although their
    instants are not: 08:30Z, 10:00Z, 07:00Z. *)
Definition mixed_offset_tides : list (dict pyval) :=
  [ [("time", PStr "2024-01-01T09:30:00+01:00"); ("type", PStr "low");
     ("height", PFloat (Finite 0.4))];
    [("time", PStr "2024-01-01T10:00:00+00:00"); ("type", PStr "high");
     ("height", PFloat (Finite 1.9))];
    [("time", PStr "2024-01-01T10:00:00+03:00"); ("type", PStr "high");
     ("height", PFloat (Finite 1.7))] ].

Definition mixed_offset_extremes : list (dict pyval) :=
  [ [("time", PStr "2024-01-01T09:30:00+01:00"); ("type", PStr "low");
     ("heightM", PFloat (Finite 0.4))];
    [("time", PStr "2024-01-01T10:00:00+00:00"); ("type", PStr "high");
     ("heightM", PFloat (Finite 1.9))];
    [("time", PStr "2024-01-01T10:00:00+03:00"); ("type", PStr "high");
     ("heightM", PFloat (Finite 1.7))] ].

(** The first two of [sample_weather_hours], normalized with the source
    order [gfs]. *)
Definition sample_normalized_hours : list (dict pyval) :=
  [ mk_hour (PStr "2024-01-01T09:00:00+00:00")
      (Some (Finite 1.8)) None (Some (Finite 9)) None (Some (Finite 4.5)) None None None;
    mk_hour (PStr "2024-01-01T10:00:00+00:00")
      (Some (Finite 1.2)) None (Some (Finite 12)) None None None (Some (Finite 2)) None ].

(** A raw hour whose [time] is null. *)
Definition untimed_weather_hour : dict pyval :=
  [("time", PNone); ("waveHeight", PDict [("sg", PFloat (Finite 1.2))])].

(** A payload for [normalize] with a partial [now] and a null trend. *)
Definition sample_payload : dict pyval :=
  [("now", PDict [("waveHeightM", PFloat (Finite 1.2))]);
   ("tides", PDict [("trendNow", PNone)])].

Definition sample_normalized_payload : dict pyval :=
  [("now", PDict [("waveHeightM", PFloat (Finite 1.2)); ("swellHeightM", PNone);
                  ("swellPeriodS", PNone); ("swellDirectionDeg", PNone);
                  ("windSpeedMps", PNone); ("windDirectionDeg", PNone);
                  ("windGustMps", PNone); ("waterTemperatureC", PNone)]);
   ("tides", PDict [("trendNow", PNone); ("extremes", PList []);
                    ("byDay", PDict [])]);
   ("meta", PDict [("warnings", PList [])]);
   ("location", PDict []);
   ("forecast", PDict [("windows", PDict [])])].

(** A wave height as the provider sends it, by source. *)
Definition sample_wave_sources : dict pyval :=
  [("icon", PFloat (Finite 1.5)); ("gfs", PFloat (Finite 1.8))].

(** Two hours inside the 24h window of [sample_anchor]; the first has the
    swell period and the wind speed [-Infinity], as [-1e999] reads in JSON,
    and scores NaN. *)
Definition nan_score_hours : list (dict pyval) :=
  [ mk_hour (PStr "2024-01-01T10:00:00+00:00")
      None None (Some (Infinity true)) None (Some (Infinity true)) None None None;
    mk_hour (PStr "2024-01-01T11:00:00+00:00")
      (Some (Finite 1.2)) None None None None None None None ].

(** Two hours of the year 900, one microsecond apart, the second one nearer
    to [sample_anchor]. *)
Definition far_hours : list (dict pyval) :=
  [ mk_hour (PStr "0900-01-01T00:00:00.000002+00:00")
      (Some (Finite 1.0)) None None None None None None None;
    mk_hour (PStr "0900-01-01T00:00:00.000003+00:00")
      (Some (Finite 2.0)) None None None None None None None ].

(** The reference parsers with any sort that keeps the laws of the class. *)
Definition builtins_with_sort
  (sort : forall K A : Type,
      (K -> K -> result bool) -> bool -> list (K * A) -> result (list (K * A)))
  (perm : forall (K A : Type) (lt : K -> K -> result bool) (reverse : bool)
                 (l l' : list (K * A)),
      sort K A lt reverse l = Ok l' -> Permutation l' l)
  (total : forall (K A : Type) (lt : K -> K -> result bool) (reverse : bool)
                  (l : list (K * A)),
      (forall a b, In a (map fst l) -> In b (map fst l) -> exists r, lt a b = Ok r) ->
      exists l', sort K A lt reverse l = Ok l')
  : Builtins := {|
  float_of_str := float_literal;
  fromisoformat := timestamp_of_str;
  repr := fun _ => EmptyString;
  sort_unordered := sort;
  sort_unordered_perm := perm;
  sort_unordered_total := total
|}.

(** A provider whose first tide endpoint is down and whose other endpoints
    answer with one extreme. *)
Definition sample_http (url : string) : result (dict pyval) :=
  if String.eqb url
       "https://api.stormglass.io/v2/tide/extremes/point?lat=50.7&lng=-1.7"
  then Raise (ApiError "HTTP 404")
  else Ok [("data", PList [PDict [("time", PStr "2024-01-01T03:10:00+00:00");
                                  ("type", PStr "high");
                                  ("height", PFloat (Finite 1.8))]])].

(** A provider that answers every request with an API error naming the URL. *)
Definition failing_http (url : string) : result (dict pyval) :=
  Raise (ApiError url).

(** The nearest extreme at or before the anchor: the latest time that does
    not exceed it; of several extremes at that time, the last listed. *)
Definition nearer_preceding (anchor : Z) (best : option (Z * string))
  (item : Z * string) : option (Z * string) :=
  if fst item <=? anchor then
    match best with
    | Some b => if fst b <=? fst item then Some item else best
    | None => Some item
    end
  else best.

Definition nearest_preceding (anchor : Z) (parsed : list (Z * string))
  : option (Z * string) :=
  fold_left (nearer_preceding anchor) parsed None.

(** The nearest extreme after the anchor: the earliest time beyond it; of
    several extremes at that time, the first listed. *)
Definition nearer_following (anchor : Z) (best : option (Z * string))
  (item : Z * string) : option (Z * string) :=
  if anchor <? fst item then
    match best with
    | Some b => if fst item <? fst b then Some item else best
    | None => Some item
    end
  else best.

Definition nearest_following (anchor : Z) (parsed : list (Z * string))
  : option (Z * string) :=
  fold_left (nearer_following anchor) parsed None.

(** Times never decrease along the list. *)
Definition chronological (parsed : list (Z * string)) : Prop :=
  StronglySorted (fun a b => fst a <= fst b) parsed.

(** The raw time of a record when it is a string. *)
Definition time_string (v : pyval) : string :=
  match v with
  | PStr s => s
  | _ => EmptyString
  end.

(** The string keys of the two pairs are in ascending order. *)
Definition str_key_le {A : Type} (p q : pyval * A) : Prop :=
  String.leb (time_string (fst p)) (time_string (fst q)) = true.

Definition str_key_is {A : Type} (s : string) (p : pyval * A) : bool :=
  String.eqb (time_string (fst p)) s.

(** A float that is a rational between two bounds. *)
Definition finite_between (lo hi : Q) (x : float) : Prop :=
  exists q, x = Finite q /\ (lo <= q)%Q /\ (q <= hi)%Q.

(** The distance, in microseconds, below which seconds as doubles tell
    microseconds apart: [2 ** 33] seconds, some 272 years. *)
Definition exact_seconds_range : Z := 2 ^ 33 * 1000000.

(** Keys never increase from [a] to [b]. *)
Definition key_ge {A : Type} (a b : float * A) : Prop :=
  float_leb (fst b) (fst a) = true.

Section Specification.

Context {B : Builtins}.

(** A value that is not null and that [float] converts. *)
Definition convertible (v : pyval) : option float :=
  if is_None v then None
  else
    match py_float v with
    | Ok x => Some x
    | Raise _ => None
    end.

(** The preference order, then the default order, duplicates removed. *)
Definition effective_order (preferred : list string) : list string :=
  dedup (preferred ++ DEFAULT_SOURCE_ORDER).

Definition convertible_at (d : dict pyval) (key : string) : option float :=
  match dict_get key d with
  | Some v => convertible v
  | None => None
  end.

(** What the specification asks of [resolve] on a mapping. *)
Definition resolve_spec (d : dict pyval) (preferred : list string)
  : option float :=
  match first_some (convertible_at d) (effective_order preferred) with
  | Some x => Some x
  | None => first_some convertible (dict_values d)
  end.

(** [if o is not None: score += f(o)] on a resolved metric. *)
Definition add_opt (o : option float) (f : float -> float) (score : float)
  : float :=
  match o with
  | Some x => (score + f x)%float
  | None => score
  end.

(** Whether the time of a record parses and lies in [[anchor, end_]]. *)
Definition in_window (anchor end_ : Z) (h : dict pyval) : bool :=
  match time_of h with
  | Ok t => (anchor <=? t) && (t <=? end_)
  | Raise _ => false
  end.

(** The entry [build_windows] makes of an hour: a copy that carries its score. *)
Definition with_score (h : dict pyval) : dict pyval :=
  match score_hour h with
  | Ok s => dict_set "score" (PFloat s) h
  | Raise _ => h
  end.

(** The candidates of the window of [len] hours: the hours inside it, scored,
    in the order of the input. *)
Definition candidates (anchor len : Z) (hours : list (dict pyval)) : list (dict pyval) :=
  map with_score (filter (in_window anchor (anchor + timedelta_hours len)) hours).

Definition entry_score (e : dict pyval) : float :=
  match score_key e with
  | Ok x => x
  | Raise _ => Finite 0
  end.


(** Scores never increase along the list. *)
Definition descending (l : list (dict pyval)) : Prop :=
  StronglySorted (fun a b => float_leb (entry_score b) (entry_score a) = true) l.

(** What kind of float a value is. *)
Inductive float_kind : Type :=
| Rational
| PlusInfinity
| MinusInfinity
| NotANumber.

Definition float_kind_of (x : float) : float_kind :=
  match x with
  | Finite _ => Rational
  | Infinity false => PlusInfinity
  | Infinity true => MinusInfinity
  | NaN => NotANumber
  end.

(** The kind of a sum, from the kinds of its terms. *)
Definition add_kind (a b : float_kind) : float_kind :=
  match a, b with
  | NotANumber, _ | _, NotANumber => NotANumber
  | Rational, k | k, Rational => k
  | PlusInfinity, PlusInfinity => PlusInfinity
  | MinusInfinity, MinusInfinity => MinusInfinity
  | PlusInfinity, MinusInfinity | MinusInfinity, PlusInfinity => NotANumber
  end.

(** The metric is [-Infinity]. *)
Definition is_neg_inf (v : pyval) : bool :=
  match v with
  | PFloat (Infinity true) => true
  | _ => false
  end.

(** The hours whose score is NaN: the swell period is [-Infinity], which
    makes its term [-Infinity], and so is the wind speed or the gust, which
    makes that term [+Infinity]. *)
Definition scores_nan (h : dict pyval) : bool :=
  is_neg_inf (py_get "swellPeriodS" h)
  && (is_neg_inf (py_get "windSpeedMps" h) || is_neg_inf (py_get "windGustMps" h)).

(** The last instant of a [datetime]: 9999-12-31T23:59:59.999999Z. *)
Definition datetime_max : Z := 253402300799999999.

(** Every score of the hours is a number: none is NaN. *)
Definition numeric_scores (hours : list (dict pyval)) : Prop :=
  forall h s, In h hours -> score_hour h = Ok s -> is_nan s = false.

(** The labels whose length does not exceed the requested horizon. *)
Definition expected_labels (hz : horizon) : list string :=
  map fst (filter (fun w => snd w <=? HORIZON_HOURS hz) WINDOW_LENGTHS).

Definition sorted_entries (cands : list (dict pyval)) : list (dict pyval) :=
  map snd (sort_desc (combine (map entry_score cands) cands)).

Definition window_for (anchor len : Z) (hours : list (dict pyval)) : window :=
  {| w_start := iso_z anchor;
     w_end := iso_z (anchor + timedelta_hours len);
     bestHours := firstn 3 (sorted_entries (candidates anchor len hours)) |}.

(** Whether the extreme parses and falls on the UTC day [day]. *)
Definition on_day (day : string) (e : dict pyval) : bool :=
  match day_of e with
  | Ok d => String.eqb d day
  | Raise _ => false
  end.

(** The entries of the extremes of one day and one kind, in list order. *)
Definition entries_for (day kind : string) (extremes : list (dict pyval))
  : list (dict pyval) :=
  map (fun e => day_entry (py_get "time" e) e)
      (filter (fun e => on_day day e && String.eqb (kind_of e) kind) extremes).

Definition bucket_for (day : string) (extremes : list (dict pyval)) : bucket :=
  [("high", entries_for day "high" extremes);
   ("low", entries_for day "low" extremes)].

(** The state of [tides_by_day] after the extremes [processed]: one bucket
    for each day on which one of them falls, holding the entries of that day. *)
Definition grouped (processed : list (dict pyval)) (out : dict bucket) : Prop :=
  NoDup (dict_keys out)
  /\ (forall day b, dict_get day out = Some b -> b = bucket_for day processed)
  /\ (forall day, dict_mem day out = true
                  <-> exists e, In e processed /\ day_of e = Ok day).

(** The record [normalize_tides] makes of a raw tide event. *)
Definition tide_record (item : dict pyval) : dict pyval :=
  [("time", py_get "time" item);
   ("type", py_get "type" item);
   ("heightM", match height_value (py_get "height" item) with
               | Ok h => h
               | Raise _ => PNone
               end)].

(** The events [normalize_tides] keeps, as records, in the order of the input. *)
Definition kept_tides (data : list (dict pyval)) : list (dict pyval) :=
  map tide_record (filter (fun item => py_truthy (py_get "time" item)) data).


End Specification.

(** * Properties *)

Section DictFacts.

Context {V : Type}.

Lemma dict_get_set_same (key : string) (v : V) (d : dict V) :
  dict_get key (dict_set key v d) = Some v.
Proof.
  induction d as [|[k w] d IH]; simpl.
  - now rewrite String.eqb_refl.
  - destruct (String.eqb key k) eqn:E; simpl; rewrite ?E; auto.
Qed.

Lemma dict_get_set_other (key key' : string) (v : V) (d : dict V) :
  key' <> key -> dict_get key' (dict_set key v d) = dict_get key' d.
Proof.
  intros N. induction d as [|[k w] d IH]; simpl.
  - destruct (String.eqb key' key) eqn:E; auto.
    apply String.eqb_eq in E. contradiction.
  - destruct (String.eqb key k) eqn:E; simpl.
    + apply String.eqb_eq in E. subst.
      destruct (String.eqb key' k) eqn:E'; auto.
      apply String.eqb_eq in E'. contradiction.
    + now rewrite IH.
Qed.

Lemma dict_get_In (key : string) (v : V) (d : dict V) :
  dict_get key d = Some v -> In v (dict_values d).
Proof.
  induction d as [|[k w] d IH]; simpl; [discriminate|].
  destruct (String.eqb key k); intros H.
  - left. congruence.
  - right. auto.
Qed.

Lemma dict_get_In_pair (key : string) (v : V) (d : dict V) :
  dict_get key d = Some v -> In (key, v) d.
Proof.
  induction d as [|[k w] d IH]; simpl; [discriminate|].
  destruct (String.eqb key k) eqn:E; intros H.
  - apply String.eqb_eq in E. left. congruence.
  - right. auto.
Qed.

Lemma dict_keys_set_mem (key : string) (v : V) (d : dict V) :
  dict_mem key d = true -> dict_keys (dict_set key v d) = dict_keys d.
Proof.
  unfold dict_mem, dict_keys.
  induction d as [|[k w] d IH]; simpl; [discriminate|].
  destruct (String.eqb key k) eqn:E; simpl; auto.
  intros H. f_equal. auto.
Qed.

Lemma dict_keys_set_new (key : string) (v : V) (d : dict V) :
  dict_mem key d = false -> dict_keys (dict_set key v d) = dict_keys d ++ [key].
Proof.
  unfold dict_mem, dict_keys.
  induction d as [|[k w] d IH]; simpl; auto.
  destruct (String.eqb key k) eqn:E; simpl; [discriminate|].
  intros H. f_equal. auto.
Qed.

Lemma dict_mem_keys (key : string) (d : dict V) :
  dict_mem key d = true <-> In key (dict_keys d).
Proof.
  unfold dict_mem, dict_keys.
  induction d as [|[k w] d IH]; simpl; [split; [discriminate|tauto]|].
  destruct (String.eqb key k) eqn:E.
  - apply String.eqb_eq in E. subst. tauto.
  - rewrite IH. split; auto. intros [H|H]; auto.
    subst. rewrite String.eqb_refl in E. discriminate.
Qed.

Lemma dict_set_NoDup (key : string) (v : V) (d : dict V) :
  NoDup (dict_keys d) -> NoDup (dict_keys (dict_set key v d)).
Proof.
  intros H. destruct (dict_mem key d) eqn:M.
  - now rewrite dict_keys_set_mem.
  - rewrite dict_keys_set_new by assumption.
    apply NoDup_app; auto.
    + repeat constructor. simpl; tauto.
    + intros x Hx [<-|[]]. apply dict_mem_keys in Hx. congruence.
Qed.

Lemma dict_In_get (key : string) (v : V) (d : dict V) :
  NoDup (dict_keys d) -> In (key, v) d -> dict_get key d = Some v.
Proof.
  unfold dict_keys.
  induction d as [|[k w] d IH]; simpl; [tauto|].
  intros N [E|Hin].
  - inversion E; subst. now rewrite String.eqb_refl.
  - inversion N; subst.
    destruct (String.eqb key k) eqn:E; auto.
    apply String.eqb_eq in E. subst.
    exfalso. apply H1. apply in_map_iff. exists (k, v). auto.
Qed.

Lemma dict_mem_set (key key' : string) (v : V) (d : dict V) :
  dict_mem key' d = true -> dict_mem key' (dict_set key v d) = true.
Proof.
  unfold dict_mem. destruct (String.eqb key' key) eqn:E.
  - apply String.eqb_eq in E. subst. now rewrite dict_get_set_same.
  - rewrite dict_get_set_other; auto.
    intros ->. rewrite String.eqb_refl in E. discriminate.
Qed.

Lemma dict_mem_setdefault_same (key : string) (v : V) (d : dict V) :
  dict_mem key (dict_setdefault key v d) = true.
Proof.
  unfold dict_setdefault. destruct (dict_mem key d) eqn:M; auto.
  unfold dict_mem. now rewrite dict_get_set_same.
Qed.

Lemma dict_mem_setdefault (key key' : string) (v : V) (d : dict V) :
  dict_mem key' d = true -> dict_mem key' (dict_setdefault key v d) = true.
Proof.
  unfold dict_setdefault. destruct (dict_mem key d); auto.
  apply dict_mem_set.
Qed.

End DictFacts.

Section Properties.

Context {B : Builtins}.

(** ** select_metric_value *)

Lemma float_of_int_raise (n : Z) (e : exn) :
  float_of_int n = Raise e -> e = OverflowError /\ big_int (PInt n) = true.
Proof.
  unfold float_of_int, big_int.
  destruct (Z.abs n <? float_int_limit); [discriminate|].
  intros H. inversion H. auto.
Qed.

Lemma float_of_bool_ok (b : bool) :
  float_of_int (int_of_bool b) = Ok (Finite (inject_Z (int_of_bool b))).
Proof. destruct b; vm_compute; reflexivity. Qed.

(** [float] fails on a conversion error, which the scans skip, or on an
    integer out of range. *)
Lemma py_float_raise (v : pyval) (e : exn) :
  py_float v = Raise e ->
  conversion_error e = true \/ (e = OverflowError /\ big_int v = true).
Proof.
  destruct v; simpl; try (intros H; inversion H; now left); try discriminate.
  - rewrite float_of_bool_ok. discriminate.
  - intros H. right. now apply float_of_int_raise.
  - destruct (float_of_str s); [discriminate|]. intros H; inversion H; now left.
Qed.

Lemma big_int_not_convertible (v : pyval) :
  big_int v = true -> py_float v = Raise OverflowError.
Proof.
  destruct v; simpl; try discriminate.
  unfold float_of_int. destruct (Z.abs z <? float_int_limit); [discriminate|reflexivity].
Qed.

Lemma scan_ordered_ok (d : dict pyval) (ordered : list string) (r : option float) :
  scan_ordered d ordered = Ok r -> r = first_some (convertible_at d) ordered.
Proof.
  induction ordered as [|key rest IH]; simpl.
  - congruence.
  - unfold convertible_at at 1, convertible.
    destruct (dict_get key d) as [v|]; auto.
    destruct (is_None v); auto.
    destruct (py_float v) as [x|e]; [congruence|].
    destruct (conversion_error e); [auto|discriminate].
Qed.

Lemma scan_ordered_raise (d : dict pyval) (ordered : list string) (e : exn) :
  scan_ordered d ordered = Raise e ->
  e = OverflowError /\ existsb big_int (dict_values d) = true.
Proof.
  induction ordered as [|key rest IH]; simpl; [discriminate|].
  destruct (dict_get key d) as [v|] eqn:G; auto.
  destruct (is_None v); auto.
  destruct (py_float v) as [x|e'] eqn:F; [discriminate|].
  destruct (conversion_error e') eqn:C; auto.
  intros H. inversion H; subst.
  destruct (py_float_raise _ _ F) as [C'|[-> Hb]]; [congruence|].
  split; auto. apply existsb_exists. exists v. split; auto.
  eapply dict_get_In; eauto.
Qed.

Lemma scan_values_ok (vals : list pyval) (r : option float) :
  scan_values vals = Ok r -> r = first_some convertible vals.
Proof.
  induction vals as [|v rest IH]; simpl.
  - congruence.
  - unfold convertible at 1.
    destruct (is_None v); auto.
    destruct (py_float v) as [x|e]; [congruence|].
    destruct (conversion_error e); [auto|discriminate].
Qed.

Lemma scan_values_raise (vals : list pyval) (e : exn) :
  scan_values vals = Raise e ->
  e = OverflowError /\ existsb big_int vals = true.
Proof.
  induction vals as [|v rest IH]; simpl; [discriminate|].
  destruct (is_None v).
  - intros H. destruct (IH H) as [-> Hb]. split; auto. now rewrite Hb, orb_true_r.
  - destruct (py_float v) as [x|e'] eqn:F; [discriminate|].
    destruct (conversion_error e') eqn:C.
    + intros H. destruct (IH H) as [-> Hb]. split; auto. now rewrite Hb, orb_true_r.
    + intros H. inversion H; subst.
      destruct (py_float_raise _ _ F) as [C'|[-> Hb]]; [congruence|].
      now rewrite Hb.
Qed.

(** Dropping keys on which [f] has no value does not change the first hit. *)
Lemma first_some_filter {A : Type} (f : A -> option float) (p : A -> bool) (l : list A) :
  (forall a, p a = false -> f a = None) ->
  first_some f (filter p l) = first_some f l.
Proof.
  intros H. induction l as [|a l IH]; simpl; auto.
  destruct (p a) eqn:P; simpl.
  - now rewrite IH.
  - now rewrite (H a P).
Qed.

Lemma first_some_dedup (f : string -> option float) (l : list string) :
  first_some f (dedup l) = first_some f l.
Proof.
  induction l as [|x l IH]; simpl; auto.
  destruct (f x) eqn:F; auto.
  rewrite first_some_filter; auto.
  intros a Ha. apply negb_false_iff, String.eqb_eq in Ha. congruence.
Qed.

Lemma first_some_app {A : Type} (f : A -> option float) (l1 l2 : list A) :
  first_some f (l1 ++ l2) =
  match first_some f l1 with
  | Some x => Some x
  | None => first_some f l2
  end.
Proof.
  induction l1 as [|a l1 IH]; simpl; auto.
  destruct (f a); auto.
Qed.

Lemma first_some_none {A : Type} (f : A -> option float) (l : list A) :
  first_some f l = None -> forall a, In a l -> f a = None.
Proof.
  induction l as [|a l IH]; simpl; [tauto|].
  destruct (f a) eqn:F; [discriminate|].
  intros H a' [<-|Hin]; auto.
Qed.

Lemma str_in_In (s : string) (l : list string) : str_in s l = true -> In s l.
Proof.
  induction l as [|x l IH]; simpl; [discriminate|].
  intros H. apply orb_true_iff in H. destruct H as [H|H].
  - left. symmetry. now apply String.eqb_eq.
  - right. auto.
Qed.

(** The list the code scans and the effective order of the specification
    give the same first hit. *)
Lemma ordered_effective (f : string -> option float) (preferred : list string) :
  first_some f
    (preferred ++ filter (fun src => negb (str_in src preferred)) DEFAULT_SOURCE_ORDER)
  = first_some f (effective_order preferred).
Proof.
  unfold effective_order. rewrite first_some_dedup, !first_some_app.
  destruct (first_some f preferred) eqn:F; auto.
  apply first_some_filter. intros a Ha.
  apply negb_false_iff, str_in_In in Ha.
  eapply first_some_none; eauto.
Qed.

(** Whenever [select_metric_value] returns on a mapping, it returns what the
    specification asks. *)
Lemma select_metric_value_mapping_ok (d : dict pyval) (preferred : list string)
  (r : option float) :
  select_metric_value (PDict d) preferred = Ok r -> r = resolve_spec d preferred.
Proof.
  unfold select_metric_value, resolve_spec.
  destruct (scan_ordered d _) as [found|e] eqn:S; simpl; [|discriminate].
  apply scan_ordered_ok in S. rewrite ordered_effective in S. rewrite <- S.
  destruct found; [congruence|].
  apply scan_values_ok.
Qed.

(** It raises nothing but [OverflowError], and only on an integer that is out
    of the range of a double. *)
Lemma select_metric_value_raise (raw : pyval) (order : list string) (e : exn) :
  select_metric_value raw order = Raise e ->
  e = OverflowError /\ has_big_int raw = true.
Proof.
  destruct raw; simpl; try discriminate.
  - rewrite float_of_bool_ok. discriminate.
  - destruct (float_of_int z) eqn:F; simpl; [discriminate|].
    intros H. inversion H; subst. now apply float_of_int_raise.
  - destruct (scan_ordered d _) as [found|e'] eqn:S; simpl.
    + destruct found; [discriminate|]. apply scan_values_raise.
    + intros H. inversion H; subst. eapply scan_ordered_raise; eauto.
Qed.

(** On a mapping without such an integer it returns, and returns the value
    the specification asks. *)
Lemma select_metric_value_mapping (d : dict pyval) (preferred : list string) :
  existsb big_int (dict_values d) = false ->
  select_metric_value (PDict d) preferred = Ok (resolve_spec d preferred).
Proof.
  intros H.
  destruct (select_metric_value (PDict d) preferred) as [r|e] eqn:S.
  - f_equal. now apply select_metric_value_mapping_ok.
  - apply select_metric_value_raise in S. simpl in S. destruct S. congruence.
Qed.

(** ** select_metric_value on integers beyond the range of a double *)

Lemma select_metric_value_returns (raw : pyval) (source_order : list string) :
  has_big_int raw = false -> exists r, select_metric_value raw source_order = Ok r.
Proof.
  intros H. destruct (select_metric_value raw source_order) as [r|e] eqn:S; eauto.
  apply select_metric_value_raise in S. destruct S. congruence.
Qed.

(** C1. On the mapping [{sg: 10**400, icon: 1.5}] with an empty preference
    order the specification asks for [1.5], the first entry of the effective
    order that [float] converts; [select_metric_value] raises [OverflowError]
    at [sg] instead of going on to [icon].  The scenario
    [{icon: 1.5, gfs: 1.8}] with preference [[gfs]] resolves to [1.8]. *)
Theorem select_metric_value_mapping_overflow :
  resolve_spec [("sg", PInt (10 ^ 400)); ("icon", PFloat (Finite 1.5))] [] = Some (Finite 1.5)
  /\ select_metric_value (PDict [("sg", PInt (10 ^ 400)); ("icon", PFloat (Finite 1.5))]) []
     = Raise OverflowError
  /\ select_metric_value
       (PDict [("icon", PFloat (Finite 1.5)); ("gfs", PFloat (Finite 1.8))]) ["gfs"]
     = Ok (Some (Finite 1.8)).
Proof. repeat split; vm_compute; reflexivity. Qed.

(** C8. On the bare number [10**400], an [int], [select_metric_value] raises
    [OverflowError]: it returns neither a number nor [None].  The same integer
    inside a mapping is fatal too, whereas a value that is not a number at
    all, such as a list, is skipped. *)
Theorem select_metric_value_overflow (source_order : list string) :
  select_metric_value (PInt (10 ^ 400)) source_order = Raise OverflowError
  /\ select_metric_value (PDict [("sg", PInt (10 ^ 400))]) [] = Raise OverflowError
  /\ select_metric_value (PDict [("sg", PList []); ("icon", PFloat (Finite 1.5))]) []
     = Ok (Some (Finite 1.5)).
Proof. repeat split; vm_compute; reflexivity. Qed.

(** ** normalize_hour *)

Lemma normalize_hour_ok (hour : dict pyval) (source_order : list string)
  (out : dict pyval) :
  normalize_hour hour source_order = Ok out ->
  exists wave swell period swell_dir wind wind_dir gust water,
    select_metric_value (py_get "waveHeight" hour) source_order = Ok wave
    /\ select_metric_value (py_get "swellHeight" hour) source_order = Ok swell
    /\ select_metric_value (py_get "swellPeriod" hour) source_order = Ok period
    /\ select_metric_value (py_get "swellDirection" hour) source_order = Ok swell_dir
    /\ select_metric_value (py_get "windSpeed" hour) source_order = Ok wind
    /\ select_metric_value (py_get "windDirection" hour) source_order = Ok wind_dir
    /\ select_metric_value (py_get "gust" hour) source_order = Ok gust
    /\ select_metric_value (py_get "waterTemperature" hour) source_order = Ok water
    /\ out = mk_hour (py_get "time" hour)
               wave swell period swell_dir wind wind_dir gust water.
Proof.
  unfold normalize_hour, METRIC_MAP.
  cbn [normalize_metrics].
  destruct (select_metric_value (py_get "waveHeight" hour) _) as [o1|] ; [|discriminate].
  destruct (select_metric_value (py_get "swellHeight" hour) _) as [o2|]; [|discriminate].
  destruct (select_metric_value (py_get "swellPeriod" hour) _) as [o3|]; [|discriminate].
  destruct (select_metric_value (py_get "swellDirection" hour) _) as [o4|]; [|discriminate].
  destruct (select_metric_value (py_get "windSpeed" hour) _) as [o5|]; [|discriminate].
  destruct (select_metric_value (py_get "windDirection" hour) _) as [o6|]; [|discriminate].
  destruct (select_metric_value (py_get "gust" hour) _) as [o7|]; [|discriminate].
  destruct (select_metric_value (py_get "waterTemperature" hour) _) as [o8|]; [|discriminate].
  cbn [bind]. intros H. inversion H; subst; clear H.
  exists o1, o2, o3, o4, o5, o6, o7, o8.
  repeat (split; [reflexivity|]). reflexivity.
Qed.

Lemma normalize_hour_raise (hour : dict pyval) (source_order : list string) (e : exn) :
  normalize_hour hour source_order = Raise e ->
  e = OverflowError
  /\ exists raw_key, In raw_key (dict_keys METRIC_MAP)
                     /\ has_big_int (py_get raw_key hour) = true.
Proof.
  unfold normalize_hour, METRIC_MAP.
  cbn [normalize_metrics].
  assert (step : forall raw_key (k : option float -> result (dict pyval)),
             In raw_key (dict_keys METRIC_MAP) ->
             (forall v, k v = Raise e ->
                e = OverflowError
                /\ exists raw_key, In raw_key (dict_keys METRIC_MAP)
                                   /\ has_big_int (py_get raw_key hour) = true) ->
             bind (select_metric_value (py_get raw_key hour) source_order) k = Raise e ->
             e = OverflowError
             /\ exists raw_key, In raw_key (dict_keys METRIC_MAP)
                                /\ has_big_int (py_get raw_key hour) = true).
  { intros raw_key k Hin Hk.
    destruct (select_metric_value (py_get raw_key hour) source_order) eqn:S; cbn [bind].
    - apply Hk.
    - intros H. inversion H; subst.
      apply select_metric_value_raise in S. destruct S as [-> Hb].
      split; auto. exists raw_key. auto. }
  repeat (apply step; [cbn; tauto | intros ?]).
  discriminate.
Qed.

Lemma normalize_hour_normalized (hour : dict pyval) (source_order : list string)
  (out : dict pyval) :
  normalize_hour hour source_order = Ok out -> normalized_hour out.
Proof.
  intros H. apply normalize_hour_ok in H.
  destruct H as (o1 & o2 & o3 & o4 & o5 & o6 & o7 & o8 & H).
  exists (py_get "time" hour), o1, o2, o3, o4, o5, o6, o7, o8. tauto.
Qed.

Lemma select_metric_value_absent (source_order : list string) :
  select_metric_value PNone source_order = Ok None.
Proof. reflexivity. Qed.

(** C6. For every raw hour and every preference order, the record built by
    [normalize_hour] has exactly the keys [time] and the eight canonical
    metric keys, whatever the raw hour carries: [time] is copied, each metric
    holds what [select_metric_value] resolved, and a metric that is absent
    upstream is present with the value [None].  The only raw hours for which
    no record is built are those holding an integer beyond the range of a
    double, on which [select_metric_value] raises [OverflowError]. *)
Theorem normalize_hour_canonical_keys (hour : dict pyval) (source_order : list string) :
  match normalize_hour hour source_order with
  | Ok out =>
      dict_keys out = "time" :: NOW_KEYS
      /\ dict_get "time" out = Some (py_get "time" hour)
      /\ (forall raw_key out_key, In (raw_key, out_key) METRIC_MAP ->
            exists v, select_metric_value (py_get raw_key hour) source_order = Ok v
                      /\ dict_get out_key out = Some (of_optional v))
      /\ (forall raw_key out_key, In (raw_key, out_key) METRIC_MAP ->
            dict_get raw_key hour = None -> dict_get out_key out = Some PNone)
  | Raise e =>
      e = OverflowError
      /\ exists raw_key, In raw_key (dict_keys METRIC_MAP)
                         /\ has_big_int (py_get raw_key hour) = true
  end.
Proof.
  destruct (normalize_hour hour source_order) as [out|e] eqn:N.
  - apply normalize_hour_ok in N.
    destruct N as (o1 & o2 & o3 & o4 & o5 & o6 & o7 & o8
                   & S1 & S2 & S3 & S4 & S5 & S6 & S7 & S8 & ->).
    assert (metrics : forall raw_key out_key, In (raw_key, out_key) METRIC_MAP ->
              exists v, select_metric_value (py_get raw_key hour) source_order = Ok v
                        /\ dict_get out_key
                             (mk_hour (py_get "time" hour) o1 o2 o3 o4 o5 o6 o7 o8)
                           = Some (of_optional v)).
    { intros raw_key out_key Hin. cbn in Hin.
      repeat (destruct Hin as [Hin|Hin];
              [inversion Hin; subst; eexists; split; [eassumption|reflexivity]|]).
      contradiction. }
    repeat split; auto.
    intros raw_key out_key Hin Habs.
    destruct (metrics _ _ Hin) as (v & Sv & Gv).
    unfold py_get in Sv. rewrite Habs in Sv. simpl in Sv.
    inversion Sv; subst. exact Gv.
  - exact (normalize_hour_raise _ _ _ N).
Qed.

(** ** The error monad on lists *)

Lemma mapM_ok {A C : Type} (f : A -> result C) (l : list A) (l' : list C) :
  mapM f l = Ok l' -> Forall2 (fun a c => f a = Ok c) l l'.
Proof.
  revert l'. induction l as [|a l IH]; simpl; intros l' H.
  - inversion H. constructor.
  - destruct (f a) as [c|] eqn:F; simpl in H; [|discriminate].
    destruct (mapM f l) as [cs|]; simpl in H; [|discriminate].
    inversion H; subst. constructor; auto.
Qed.

Lemma mapM_total {A C : Type} (f : A -> result C) (g : A -> C) (l : list A) :
  (forall a, In a l -> f a = Ok (g a)) -> mapM f l = Ok (map g l).
Proof.
  induction l as [|a l IH]; simpl; intros H; auto.
  rewrite (H a) by auto. simpl. rewrite IH by auto. reflexivity.
Qed.

Lemma mapM_raise {A C : Type} (f : A -> result C) (l : list A) (e : exn) :
  mapM f l = Raise e -> exists a, In a l /\ f a = Raise e.
Proof.
  induction l as [|a l IH]; simpl; [discriminate|].
  destruct (f a) as [c|e'] eqn:F; simpl.
  - destruct (mapM f l) as [cs|e'']; simpl; [discriminate|].
    intros H. inversion H; subst. destruct IH as (a' & Hin & Ha'); eauto.
  - intros H. inversion H; subst. eauto.
Qed.

Lemma filter_all {A : Type} (p : A -> bool) (l : list A) :
  (forall a, In a l -> p a = true) -> filter p l = l.
Proof.
  induction l as [|a l IH]; simpl; intros H; auto.
  rewrite (H a) by auto. f_equal. auto.
Qed.

(** ** nearest_hour *)

Lemma Qltb_lt (a b : Q) : Qltb a b = true <-> (a < b)%Q.
Proof.
  unfold Qltb. rewrite negb_true_iff. split.
  - intros H. apply Qnot_le_lt. intros L. apply Qle_bool_iff in L. congruence.
  - intros H. destruct (Qle_bool b a) eqn:E; auto.
    apply Qle_bool_iff in E. exfalso. eapply Qlt_not_le; eauto.
Qed.

Lemma Qltb_ge (a b : Q) : Qltb a b = false <-> (b <= a)%Q.
Proof.
  unfold Qltb. rewrite negb_false_iff. apply Qle_bool_iff.
Qed.

(** The loop of [min] keeps the first item of least key: everything before
    it has a larger key, nothing after it has a smaller one. *)
Lemma min_loop_first_least {A : Type} (key : A -> result Q) (items : list A) :
  forall (before : list A) (best : A) (best_key : Q) (after : list A),
    key best = Ok best_key ->
    (forall y, In y before -> exists ky, key y = Ok ky /\ (best_key < ky)%Q) ->
    (forall y, In y after -> exists ky, key y = Ok ky /\ (best_key <= ky)%Q) ->
    (forall y, In y items -> exists ky, key y = Ok ky) ->
    exists before' h d after',
      min_loop key best best_key items = Ok h
      /\ before ++ best :: after ++ items = before' ++ h :: after'
      /\ key h = Ok d
      /\ (forall y, In y before' -> exists ky, key y = Ok ky /\ (d < ky)%Q)
      /\ (forall y, In y after' -> exists ky, key y = Ok ky /\ (d <= ky)%Q).
Proof.
  induction items as [|x items IH]; intros before best best_key after Hb Hbefore Hafter Hitems.
  - exists before, best, best_key, after. simpl. rewrite app_nil_r. auto.
  - simpl. destruct (Hitems x) as [k Hk]; [now left|]. rewrite Hk. simpl.
    destruct (Qltb k best_key) eqn:L.
    + apply Qltb_lt in L.
      destruct (IH (before ++ best :: after) x k []) as (b' & h & d & a' & R & E & Kh & P1 & P2);
        auto.
      * intros y Hy. apply in_app_or in Hy. destruct Hy as [Hy|[<-|Hy]].
        -- destruct (Hbefore y Hy) as (ky & Ky & Lt). exists ky. split; auto.
           eapply Qlt_trans; eauto.
        -- exists best_key. auto.
        -- destruct (Hafter y Hy) as (ky & Ky & Le). exists ky. split; auto.
           eapply Qlt_le_trans; eauto.
      * simpl; tauto.
      * intros y Hy. apply Hitems. now right.
      * exists b', h, d, a'. repeat split; auto.
        rewrite <- E. rewrite <- ?app_assoc. simpl. rewrite <- ?app_assoc. reflexivity.
    + apply Qltb_ge in L.
      destruct (IH before best best_key (after ++ [x])) as (b' & h & d & a' & R & E & Kh & P1 & P2);
        auto.
      * intros y Hy. apply in_app_or in Hy. destruct Hy as [Hy|[<-|[]]]; eauto.
      * intros y Hy. apply Hitems. now right.
      * exists b', h, d, a'. repeat split; auto.
        rewrite <- E. rewrite <- ?app_assoc. simpl. rewrite <- ?app_assoc. reflexivity.
Qed.

(** A key that fails makes [min] fail, with the exception of that key. *)
Lemma min_loop_raise {A : Type} (key : A -> result Q) (E : exn) (items : list A) :
  forall best best_key,
    (forall y e, In y items -> key y = Raise e -> e = E) ->
    (exists y e, In y items /\ key y = Raise e) ->
    min_loop key best best_key items = Raise E.
Proof.
  induction items as [|x items IH]; intros best best_key Hall (y & e & Hin & Hy).
  - destruct Hin.
  - simpl. destruct (key x) as [k|e'] eqn:K; simpl.
    + assert (Hrest : exists y e, In y items /\ key y = Raise e).
      { destruct Hin as [<-|Hin]; [congruence|eauto]. }
      destruct (Qltb k best_key); apply IH; auto;
        intros y0 e0 H0 H1; apply (Hall y0 e0); solve [now right|assumption].
    + f_equal. apply (Hall x e'); [now left|assumption].
Qed.

Lemma py_min_by_raise {A : Type} (key : A -> result Q) (E : exn) (items : list A) :
  (forall y e, In y items -> key y = Raise e -> e = E) ->
  (exists y e, In y items /\ key y = Raise e) ->
  py_min_by key items = Raise E.
Proof.
  intros Hall (y & e & Hin & Hy). destruct items as [|x items]; [destruct Hin|].
  simpl. destruct (key x) as [k|e'] eqn:K; simpl.
  - apply min_loop_raise.
    + intros y0 e0 H0 H1; apply (Hall y0 e0); [now right|assumption].
    + destruct Hin as [<-|Hin]; [congruence|eauto].
  - f_equal. apply (Hall x e'); [now left|assumption].
Qed.

Lemma time_of_mem (h : dict pyval) (t : Z) :
  time_of h = Ok t -> dict_mem "time" h = true.
Proof.
  unfold time_of, dict_item, dict_mem.
  destruct (dict_get "time" h); [reflexivity|discriminate].
Qed.

Lemma distance_ok (anchor : Z) (h : dict pyval) (t : Z) :
  time_of h = Ok t -> distance anchor h = Ok (Qabs (total_seconds (t - anchor))).
Proof. unfold distance. intros ->. reflexivity. Qed.

(** With its [time] key present, a record's time either parses or raises
    [ValueError]. *)
Lemma time_of_raise (h : dict pyval) (e : exn) :
  dict_mem "time" h = true -> time_of h = Raise e -> e = ValueError.
Proof.
  unfold time_of, dict_item, dict_mem, parse_time.
  destruct (dict_get "time" h) as [v|]; [|discriminate]. simpl.
  destruct (fromisoformat _); [discriminate|]. intros _ H. now inversion H.
Qed.

Lemma distance_raise (anchor : Z) (h : dict pyval) (e : exn) :
  distance anchor h = Raise e -> time_of h = Raise e.
Proof.
  unfold distance. destruct (time_of h); cbn [bind]; [discriminate|].
  intros H. inversion H. reflexivity.
Qed.

(** *** Seconds as doubles *)

Lemma round_half_even_error (x : Q) :
  (x - (1 # 2) <= inject_Z (round_half_even x) <= x + (1 # 2))%Q.
Proof.
  unfold round_half_even.
  pose proof (Qfloor_le x) as Hl. pose proof (Qlt_floor x) as Hu.
  rewrite inject_Z_plus in Hu. change (inject_Z 1) with 1%Q in Hu.
  destruct (Qcompare (x - inject_Z (Qfloor x)) (1 # 2)) eqn:C.
  - apply Qeq_alt in C.
    destruct (Z.even (Qfloor x)); [|rewrite inject_Z_plus; change (inject_Z 1) with 1%Q];
      lra.
  - apply Qlt_alt in C. lra.
  - apply Qgt_alt in C. rewrite inject_Z_plus. change (inject_Z 1) with 1%Q. lra.
Qed.

Lemma round_half_even_nonneg (x : Q) : (0 <= x)%Q -> 0 <= round_half_even x.
Proof.
  intros H. unfold round_half_even.
  assert (F : 0 <= Qfloor x).
  { change 0 with (Qfloor 0). now apply Qfloor_resp_le. }
  destruct (Qcompare _ _); [destruct (Z.even _)| |]; lia.
Qed.

Lemma pow2_pos (e : Z) : (0 < pow2 e)%Q.
Proof.
  unfold pow2. destruct (0 <=? e) eqn:E.
  - unfold Qlt; simpl. assert (0 < 2 ^ e) by (apply Z.pow_pos_nonneg; lia). lia.
  - reflexivity.
Qed.

Lemma pow2_small (e : Z) : e <= -20 -> (pow2 e <= 1 # 1048576)%Q.
Proof.
  intros H. unfold pow2.
  assert (E : (0 <=? e) = false) by lia. rewrite E.
  unfold Qle; simpl.
  assert (P : 2 ^ 20 <= 2 ^ (- e)) by (apply Z.pow_le_mono_r; lia).
  change (2 ^ 20) with 1048576 in P.
  rewrite Z2Pos.id by lia. lia.
Qed.

Lemma binade_bound (q : Q) :
  (0 <= q)%Q -> (q < inject_Z (2 ^ 33))%Q -> binade q <= 32.
Proof.
  intros Hq Hb. unfold binade.
  destruct q as [n d]. cbn [Qnum Qden].
  assert (Hn : 0 <= n) by (unfold Qle in Hq; simpl in Hq; lia).
  assert (Hlt : n < 2 ^ 33 * Zpos d).
  { unfold Qlt in Hb; simpl in Hb. lia. }
  assert (L : Z.log2 n - Z.log2 (Zpos d) <= 33).
  { destruct (Z.eq_dec n 0) as [->|Nz].
    - change (Z.log2 0) with 0. pose proof (Z.log2_nonneg (Zpos d)). lia.
    - destruct (Z.log2_spec n) as [Ln _]; [lia|].
      destruct (Z.log2_spec (Zpos d)) as [_ Ud]; [lia|].
      pose proof (Z.log2_nonneg (Zpos d)) as Nd.
      pose proof (Z.log2_nonneg n) as Nn.
      assert (P : 2 ^ Z.log2 n < 2 ^ (34 + Z.log2 (Zpos d))).
      { replace (34 + Z.log2 (Zpos d)) with (33 + Z.succ (Z.log2 (Zpos d))) by lia.
        rewrite Z.pow_add_r by lia.
        apply Z.le_lt_trans with (m := n); [assumption|].
        apply Z.lt_trans with (m := 2 ^ 33 * Zpos d); [assumption|].
        apply Z.mul_lt_mono_pos_l; [reflexivity|assumption]. }
      apply Z.pow_lt_mono_r_iff in P; lia. }
  destruct (Qle_bool (pow2 (Z.log2 n - Z.log2 (Zpos d))) (n # d)) eqn:E; [|lia].
  destruct (Z.eq_dec (Z.log2 n - Z.log2 (Zpos d)) 33) as [E33|]; [|lia].
  rewrite E33 in E. apply Qle_bool_iff in E.
  change (pow2 33) with (inject_Z (2 ^ 33)) in E.
  exfalso. eapply Qlt_not_le; eauto.
Qed.

(** Within the range the double is less than half a microsecond away. *)
Lemma nearest_double_nonneg_error (q : Q) :
  (0 <= q)%Q -> (q < inject_Z (2 ^ 33))%Q ->
  (q - (1 # 2097152) <= nearest_double_nonneg q <= q + (1 # 2097152))%Q.
Proof.
  intros Hq Hb. unfold nearest_double_nonneg. rewrite Qred_correct.
  set (ulp := pow2 (binade q - 52)).
  assert (Hp : (0 < ulp)%Q) by apply pow2_pos.
  assert (Hs : (ulp <= 1 # 1048576)%Q).
  { apply pow2_small. pose proof (binade_bound q Hq Hb). lia. }
  pose proof (round_half_even_error (q / ulp)) as [Hl Hu].
  set (m := inject_Z (round_half_even (q / ulp))) in *.
  assert (Hd : (q / ulp * ulp == q)%Q).
  { rewrite Qmult_comm. apply Qmult_div_r. intros Z. rewrite Z in Hp. discriminate. }
  assert (L1 : ((q / ulp - (1 # 2)) * ulp <= m * ulp)%Q)
    by (apply Qmult_le_compat_r; [assumption|now apply Qlt_le_weak]).
  assert (L2 : (m * ulp <= (q / ulp + (1 # 2)) * ulp)%Q)
    by (apply Qmult_le_compat_r; [assumption|now apply Qlt_le_weak]).
  assert (E1 : ((q / ulp - (1 # 2)) * ulp == q - (1 # 2) * ulp)%Q)
    by (rewrite <- Hd at 2; ring).
  assert (E2 : ((q / ulp + (1 # 2)) * ulp == q + (1 # 2) * ulp)%Q)
    by (rewrite <- Hd at 2; ring).
  rewrite E1 in L1. rewrite E2 in L2. lra.
Qed.

Lemma micro_seconds (a : Z) : (a # 1000000 == inject_Z a * (1 # 1000000))%Q.
Proof. unfold Qeq; simpl. lia. Qed.

Lemma micro_in_range (a : Z) :
  0 <= a < exact_seconds_range ->
  (0 <= a # 1000000)%Q /\ (a # 1000000 < inject_Z (2 ^ 33))%Q.
Proof.
  unfold exact_seconds_range. intros H. split.
  - unfold Qle; simpl. lia.
  - unfold Qlt; simpl. lia.
Qed.

(** Within the range, seconds as doubles order microseconds as they are. *)
Lemma nearest_double_nonneg_lt (a b : Z) :
  0 <= a -> a < b -> b < exact_seconds_range ->
  (nearest_double_nonneg (a # 1000000) < nearest_double_nonneg (b # 1000000))%Q.
Proof.
  intros Ha Hab Hb.
  destruct (micro_in_range a) as [A0 A1]; [lia|].
  destruct (micro_in_range b) as [B0 B1]; [lia|].
  pose proof (nearest_double_nonneg_error _ A0 A1) as [_ Ua].
  pose proof (nearest_double_nonneg_error _ B0 B1) as [Lb _].
  pose proof (micro_seconds a) as Ea. pose proof (micro_seconds b) as Eb.
  assert (S : (inject_Z a + 1 <= inject_Z b)%Q).
  { change 1%Q with (inject_Z 1). rewrite <- inject_Z_plus, <- Zle_Qle. lia. }
  lra.
Qed.

Lemma nearest_double_nonneg_sign (q : Q) :
  (0 <= q)%Q -> (0 <= nearest_double_nonneg q)%Q.
Proof.
  intros H. unfold nearest_double_nonneg. rewrite Qred_correct.
  apply Qmult_le_0_compat.
  - change 0%Q with (inject_Z 0). rewrite <- Zle_Qle.
    apply round_half_even_nonneg.
    apply Qle_shift_div_l; [apply pow2_pos|]. now rewrite Qmult_0_l.
  - apply Qlt_le_weak, pow2_pos.
Qed.

(** The distance in seconds is the double nearest to the magnitude. *)
Lemma total_seconds_abs (td : Z) :
  (Qabs (total_seconds td) == nearest_double_nonneg (Z.abs td # 1000000))%Q.
Proof.
  unfold total_seconds, nearest_double.
  destruct (Qle_bool 0 (td # 1000000)) eqn:E.
  - apply Qle_bool_iff in E.
    assert (H : 0 <= td) by (unfold Qle in E; simpl in E; lia).
    rewrite Z.abs_eq by assumption.
    apply Qabs_pos. now apply nearest_double_nonneg_sign.
  - assert (H : td < 0).
    { destruct (Z.ltb_spec td 0); auto.
      assert (X : Qle_bool 0 (td # 1000000) = true)
        by (apply Qle_bool_iff; unfold Qle; simpl; lia).
      congruence. }
    rewrite Qabs_opp.
    change (- (td # 1000000))%Q with ((- td) # 1000000).
    rewrite Z.abs_neq by lia.
    apply Qabs_pos. apply nearest_double_nonneg_sign.
    unfold Qle; simpl. lia.
Qed.

(** The distance [nearest_hour] compares, in terms of the instants. *)
Lemma distance_seconds (anchor : Z) (h : dict pyval) (t : Z) (d : Q) :
  time_of h = Ok t -> distance anchor h = Ok d ->
  (d == nearest_double_nonneg (Z.abs (t - anchor) # 1000000))%Q.
Proof.
  intros T D. rewrite (distance_ok _ _ _ T) in D. inversion D.
  apply total_seconds_abs.
Qed.

(** C4, as the code has it.  For every non-empty sequence of hours whose
    [time] parses and lies within [2 ** 33] seconds, some 272 years, of the
    anchor, [nearest_hour] returns an element of the sequence whose instant
    is nearest to the anchor: every element before it is strictly farther
    in time, no element after it is nearer, so among equally distant elements
    it is the one of smallest index.  On the empty sequence it raises the
    data-gap error, [ApiError "No weather hours with time field"], and
    returns nothing. *)
Theorem nearest_hour_first_least (hours : list (dict pyval)) (anchor : Z) :
  hours <> [] ->
  (forall h, In h hours ->
     exists t, time_of h = Ok t /\ Z.abs (t - anchor) < exact_seconds_range) ->
  nearest_hour [] anchor = Raise (ApiError "No weather hours with time field")
  /\ exists before h t after,
       nearest_hour hours anchor = Ok h
       /\ hours = before ++ h :: after
       /\ time_of h = Ok t
       /\ (forall h' t', In h' before -> time_of h' = Ok t' ->
             Z.abs (t - anchor) < Z.abs (t' - anchor))
       /\ (forall h' t', In h' after -> time_of h' = Ok t' ->
             Z.abs (t - anchor) <= Z.abs (t' - anchor)).
Proof.
  intros Hne Htimes. split; [reflexivity|].
  unfold nearest_hour.
  rewrite filter_all by (intros h Hh; destruct (Htimes h Hh) as (t & Ht & _);
                         eapply time_of_mem; eauto).
  destruct hours as [|h0 rest]; [congruence|].
  assert (Hkeys : forall y, In y (h0 :: rest) -> exists ky, distance anchor y = Ok ky).
  { intros y Hy. destruct (Htimes y Hy) as (t & Ht & _). erewrite distance_ok; eauto. }
  destruct (Hkeys h0) as [k0 Hk0]; [now left|].
  unfold py_min_by. rewrite Hk0. simpl.
  destruct (min_loop_first_least (distance anchor) rest [] h0 k0 [])
    as (before & h & d & after & R & E & Kh & P1 & P2); auto.
  - simpl; tauto.
  - simpl; tauto.
  - intros y Hy. apply Hkeys. now right.
  - cbn [app] in E.
    assert (Hin : forall y, In y before \/ y = h \/ In y after -> In y (h0 :: rest)).
    { intros y Hy. rewrite E. apply in_or_app. cbn [In].
      destruct Hy as [Hy|[->|Hy]]; auto. }
    destruct (Htimes h) as (t & Ht & Hr); [apply Hin; auto|].
    pose proof (distance_seconds _ _ _ _ Ht Kh) as Ed.
    exists before, h, t, after. repeat split; auto.
    + intros h' t' Hb Ht'.
      destruct (Htimes h') as (t'' & Ht'' & Hr'); [apply Hin; auto|].
      assert (t'' = t') by congruence. subst t''.
      destruct (P1 h' Hb) as (ky & Ky & Lt).
      pose proof (distance_seconds _ _ _ _ Ht' Ky) as Ek.
      rewrite Ed, Ek in Lt.
      destruct (Z.lt_trichotomy (Z.abs (t - anchor)) (Z.abs (t' - anchor)))
        as [L|[L|L]]; [assumption| |].
      * rewrite L in Lt. exfalso. eapply Qlt_irrefl; eauto.
      * exfalso. eapply Qlt_irrefl. eapply Qlt_trans; [exact Lt|].
        apply nearest_double_nonneg_lt; [apply Z.abs_nonneg|assumption|assumption].
    + intros h' t' Ha Ht'.
      destruct (Htimes h') as (t'' & Ht'' & Hr'); [apply Hin; auto|].
      assert (t'' = t') by congruence. subst t''.
      destruct (P2 h' Ha) as (ky & Ky & Le).
      pose proof (distance_seconds _ _ _ _ Ht' Ky) as Ek.
      rewrite Ed, Ek in Le.
      destruct (Z.le_gt_cases (Z.abs (t - anchor)) (Z.abs (t' - anchor)))
        as [L|L]; [assumption|].
      exfalso. eapply Qlt_not_le; [|exact Le].
      apply nearest_double_nonneg_lt; [apply Z.abs_nonneg|assumption|assumption].
Qed.

(** ** Floats *)

Lemma float_ltb_leb (a b : float) : float_ltb a b = true -> float_leb a b = true.
Proof.
  destruct a as [x|n|], b as [y|m|]; cbn; auto;
    try (intros L; apply Qltb_lt in L; apply Qle_bool_iff; now apply Qlt_le_weak);
    repeat match goal with
           | b : bool |- _ => destruct b
           end; cbn; try discriminate; auto.
Qed.

(** Floats other than NaN are totally ordered. *)
Lemma float_ltb_false (a b : float) :
  is_nan a = false -> is_nan b = false ->
  float_ltb a b = false -> float_leb b a = true.
Proof.
  destruct a as [x|n|], b as [y|m|]; cbn; try discriminate; auto;
    try (intros _ _ L; apply Qltb_ge in L; now apply Qle_bool_iff);
    repeat match goal with
           | b : bool |- _ => destruct b
           end; cbn; try discriminate; auto.
Qed.

Lemma float_leb_trans (a b c : float) :
  float_leb a b = true -> float_leb b c = true -> float_leb a c = true.
Proof.
  destruct a as [x|n|], b as [y|m|], c as [z|k|]; cbn; try discriminate; auto;
    try (intros H1 H2; apply Qle_bool_iff in H1, H2; apply Qle_bool_iff;
         eapply Qle_trans; eauto; fail);
    repeat match goal with
           | b : bool |- _ => destruct b
           end; cbn; try discriminate; auto.
Qed.

Lemma float_leb_nan (a b : float) :
  float_leb a b = true -> is_nan a = false /\ is_nan b = false.
Proof. destruct a, b; cbn; auto; discriminate. Qed.


(** ** score_hour *)

Lemma score_hour_mk_hour (t : pyval)
  (wave swell period swell_dir wind wind_dir gust water : option float) :
  score_hour (mk_hour t wave swell period swell_dir wind wind_dir gust water)
  = Ok (py_round
          (add_opt gust
             (fun gust => py_max (Finite 0) (Finite 1.5 - gust / 4)%float)
             (add_opt wind
                (fun wind => py_max (Finite 0) (Finite 2 - wind / 3)%float)
                (add_opt period
                   (fun period => py_min (Finite 2) (period / 6)%float)
                   (add_opt wave
                      (fun wave =>
                         py_max (Finite 0)
                           (Finite 1.2 - float_abs (wave - Finite 1.2))%float)
                      (Finite 0)))))
          4).
Proof.
  destruct wave, period, wind, gust; reflexivity.
Qed.

Lemma score_hour_normalized (h : dict pyval) :
  normalized_hour h -> exists s, score_hour h = Ok s.
Proof.
  intros (t & o1 & o2 & o3 & o4 & o5 & o6 & o7 & o8 & ->).
  rewrite score_hour_mk_hour. eauto.
Qed.

(** A float that is not negative: zero or more, an infinity included. *)
Lemma py_max_zero_nonneg (x : float) :
  float_leb (Finite 0) (py_max (Finite 0) x) = true.
Proof.
  unfold py_max. destruct (float_ltb (Finite 0) x) eqn:L.
  - now apply float_ltb_leb.
  - reflexivity.
Qed.

(** The term of the swell period when the period is not negative. *)
Lemma period_term_nonneg (period : float) :
  float_ltb period (Finite 0) = false ->
  float_leb (Finite 0) (py_min (Finite 2) (period / 6)%float) = true.
Proof.
  intros H. unfold py_min.
  destruct (float_ltb (period / 6) (Finite 2)) eqn:L; [|reflexivity].
  destruct period as [x|n|]; cbn in *; try discriminate.
  - apply Qltb_ge in H. apply Qle_bool_iff.
    apply Qle_shift_div_l; [reflexivity|]. now rewrite Qmult_0_l.
  - destruct n; discriminate.
Qed.

Lemma float_add_nonneg (a b : float) :
  float_leb (Finite 0) a = true -> float_leb (Finite 0) b = true ->
  float_leb (Finite 0) (a + b)%float = true.
Proof.
  destruct a as [x|n|], b as [y|m|]; cbn; try discriminate; auto.
  - intros Ha Hb. apply Qle_bool_iff in Ha, Hb. apply Qle_bool_iff. lra.
  - destruct n, m; auto.
Qed.

Lemma round_digits_nonneg (x : Q) (ndigits : nat) :
  (0 <= x)%Q -> (0 <= round_digits x ndigits)%Q.
Proof.
  intros H. unfold round_digits. rewrite Qred_correct.
  set (scale := Z.to_pos (10 ^ Z.of_nat ndigits)).
  assert (Z : 0 <= round_half_even (x * inject_Z (Zpos scale))).
  { apply round_half_even_nonneg. apply Qmult_le_0_compat; auto.
    unfold Qle; simpl. lia. }
  unfold Qle; simpl. lia.
Qed.

Lemma py_round_nonneg (x : float) (ndigits : nat) :
  float_leb (Finite 0) x = true -> float_leb (Finite 0) (py_round x ndigits) = true.
Proof.
  destruct x as [q|n|]; cbn; auto.
  intros H. apply Qle_bool_iff in H. apply Qle_bool_iff.
  now apply round_digits_nonneg.
Qed.

Lemma add_opt_nonneg (o : option float) (f : float -> float) (score : float) :
  float_leb (Finite 0) score = true ->
  (forall x, o = Some x -> float_leb (Finite 0) (f x) = true) ->
  float_leb (Finite 0) (add_opt o f score) = true.
Proof.
  intros Hs Hf. destruct o as [x|]; simpl; auto.
  apply float_add_nonneg; auto.
Qed.

(** C5, as the code has it.  For every normalized hour whose swell period is
    missing or not negative, whatever the other metrics are, [score_hour]
    returns a number that is not negative; it is a function of the record, so
    any two evaluations give the same score. *)
Theorem score_hour_nonneg (h : dict pyval) :
  normalized_hour h ->
  (forall period, dict_get "swellPeriodS" h = Some (PFloat period) ->
                  float_ltb period (Finite 0) = false) ->
  exists s, score_hour h = Ok s
            /\ float_leb (Finite 0) s = true
            /\ (forall s', score_hour h = Ok s' -> s' = s).
Proof.
  intros (t & wave & swell & period & swell_dir & wind & wind_dir & gust & water & ->) Hp.
  rewrite score_hour_mk_hour. eexists. split; [reflexivity|]. split.
  - apply py_round_nonneg.
    repeat apply add_opt_nonneg; try reflexivity;
      try (intros; apply py_max_zero_nonneg).
    intros x ->. apply period_term_nonneg. apply Hp. reflexivity.
  - intros s' H. now inversion H.
Qed.

(** ** The scores that are NaN *)

Lemma float_kind_add (a b : float) :
  float_kind_of (a + b)%float = add_kind (float_kind_of a) (float_kind_of b).
Proof. destruct a as [x|[|]|], b as [y|[|]|]; reflexivity. Qed.

Lemma add_kind_rational (k : float_kind) : add_kind k Rational = k.
Proof. now destruct k. Qed.

Lemma float_kind_round (x : float) (ndigits : nat) :
  float_kind_of (py_round x ndigits) = float_kind_of x.
Proof. now destruct x. Qed.

Lemma float_kind_nan (x : float) :
  is_nan x = match float_kind_of x with
             | NotANumber => true
             | _ => false
             end.
Proof. now destruct x as [q|[|]|]. Qed.

Lemma float_kind_py_max_zero (x : float) :
  float_kind_of (py_max (Finite 0) x)
  = match float_kind_of x with
    | PlusInfinity => PlusInfinity
    | _ => Rational
    end.
Proof.
  unfold py_max. destruct x as [q|[|]|]; cbn [float_ltb negb]; try reflexivity.
  now destruct (Qltb 0 q).
Qed.

Lemma float_kind_wave_term (wave : float) :
  float_kind_of
    (py_max (Finite 0) (Finite 1.2 - float_abs (wave - Finite 1.2))%float)
  = Rational.
Proof. rewrite float_kind_py_max_zero. now destruct wave as [q|[|]|]. Qed.

Lemma float_kind_period_term (period : float) :
  float_kind_of (py_min (Finite 2) (period / 6)%float)
  = if is_neg_inf (PFloat period) then MinusInfinity else Rational.
Proof.
  unfold py_min. destruct period as [q|[|]|]; try reflexivity.
  cbn [float_div float_ltb is_neg_inf]. now destruct (Qltb (q / 6) 2).
Qed.

Lemma float_kind_calm_term (cap c : Q) (v : float) :
  (0 < c)%Q ->
  float_kind_of (py_max (Finite 0) (Finite cap - v / c)%float)
  = if is_neg_inf (PFloat v) then PlusInfinity else Rational.
Proof.
  intros Hc.
  assert (N : Qltb c 0 = false) by (apply Qltb_ge; now apply Qlt_le_weak).
  rewrite float_kind_py_max_zero.
  destruct v as [q|[|]|]; cbn [float_div float_sub float_add float_opp is_neg_inf];
    rewrite ?N; reflexivity.
Qed.

Lemma float_kind_add_opt (o : option float) (f : float -> float) (score : float) :
  float_kind_of (add_opt o f score)
  = add_kind (float_kind_of score)
      match o with
      | Some x => float_kind_of (f x)
      | None => Rational
      end.
Proof.
  destruct o as [x|]; cbn [add_opt].
  - apply float_kind_add.
  - now rewrite add_kind_rational.
Qed.

(** The score of a normalized hour is NaN exactly when its swell period is
    [-Infinity] and its wind speed or its gust is too. *)
Lemma score_hour_nan (h : dict pyval) :
  normalized_hour h ->
  exists s, score_hour h = Ok s /\ is_nan s = scores_nan h.
Proof.
  intros (t & wave & swell & period & swell_dir & wind & wind_dir & gust & water & ->).
  rewrite score_hour_mk_hour. eexists. split; [reflexivity|].
  rewrite float_kind_nan, float_kind_round, !float_kind_add_opt.
  assert (W : match wave with
              | Some x =>
                  float_kind_of
                    (py_max (Finite 0) (Finite 1.2 - float_abs (x - Finite 1.2))%float)
              | None => Rational
              end = Rational)
    by (destruct wave; [apply float_kind_wave_term|reflexivity]).
  rewrite W. clear W.
  unfold scores_nan. change (py_get "swellPeriodS" (mk_hour _ _ _ _ _ _ _ _ _))
    with (of_optional period).
  change (py_get "windSpeedMps" (mk_hour t wave swell period swell_dir wind wind_dir
                                   gust water))
    with (of_optional wind).
  change (py_get "windGustMps" (mk_hour t wave swell period swell_dir wind wind_dir
                                  gust water))
    with (of_optional gust).
  destruct period as [p|]; [rewrite float_kind_period_term|];
    destruct wind as [w|]; [rewrite float_kind_calm_term by reflexivity| |
                            rewrite float_kind_calm_term by reflexivity|];
    destruct gust as [g|]; try rewrite float_kind_calm_term by reflexivity;
    cbn [of_optional]; change (is_neg_inf PNone) with false;
    repeat match goal with
           | |- context [is_neg_inf ?v] => destruct (is_neg_inf v)
           end; reflexivity.
Qed.

(** Hours of which none scores NaN, by their metrics. *)
Lemma scores_nan_numeric (hours : list (dict pyval)) :
  (forall h, In h hours -> normalized_hour h) ->
  (forall h, In h hours -> scores_nan h = false) ->
  numeric_scores hours.
Proof.
  intros Hn H h s Hin Hs.
  destruct (score_hour_nan h (Hn h Hin)) as (s' & Hs' & E).
  assert (s' = s) by congruence. subst s'.
  rewrite E. now apply H.
Qed.

(** ** The stable descending sort *)

Section SortDesc.

Context {A : Type}.

Lemma insert_desc_perm (x : float * A) (l : list (float * A)) :
  Permutation (insert_desc x l) (x :: l).
Proof.
  induction l as [|y l IH]; simpl; auto.
  destruct (float_ltb (fst x) (fst y)); auto.
  rewrite IH. apply perm_swap.
Qed.

Lemma sort_desc_perm (l : list (float * A)) : Permutation (sort_desc l) l.
Proof.
  induction l as [|x l IH]; simpl; auto.
  rewrite insert_desc_perm. auto.
Qed.

(** On keys without a NaN the insertion keeps the list sorted. *)
Lemma insert_desc_sorted (x : float * A) (l : list (float * A)) :
  is_nan (fst x) = false ->
  Forall (fun p => is_nan (fst p) = false) l ->
  StronglySorted key_ge l -> StronglySorted key_ge (insert_desc x l).
Proof.
  intros Nx Nl S. induction S as [|y l Hs IH Hy]; simpl.
  - repeat constructor.
  - inversion Nl as [|? ? Ny Nl']; subst.
    destruct (float_ltb (fst x) (fst y)) eqn:L.
    + constructor; auto.
      eapply Permutation_Forall; [symmetry; apply insert_desc_perm|].
      constructor; auto. unfold key_ge. now apply float_ltb_leb.
    + apply float_ltb_false in L; auto. constructor.
      * constructor; auto.
      * constructor; auto.
        eapply Forall_impl; [|exact Hy].
        intros z Hz. unfold key_ge in *. eapply float_leb_trans; eauto.
Qed.

Lemma sort_desc_sorted (l : list (float * A)) :
  Forall (fun p => is_nan (fst p) = false) l -> StronglySorted key_ge (sort_desc l).
Proof.
  induction l as [|x l IH]; simpl; intros N.
  - constructor.
  - inversion N; subst. apply insert_desc_sorted; auto.
    eapply Permutation_Forall; [symmetry; apply sort_desc_perm|assumption].
Qed.



End SortDesc.

Lemma combine_map_key {A : Type} (k : A -> float) (l : list A) :
  combine (map k l) l = map (fun a => (k a, a)) l.
Proof. induction l as [|a l IH]; simpl; congruence. Qed.

Lemma filter_map_commute {A C : Type} (f : A -> C) (p : C -> bool) (l : list A) :
  filter p (map f l) = map f (filter (fun a => p (f a)) l).
Proof.
  induction l as [|a l IH]; simpl; auto.
  destruct (p (f a)); simpl; congruence.
Qed.


Lemma In_firstn {A : Type} (a : A) (n : nat) (l : list A) :
  In a (firstn n l) -> In a l.
Proof.
  intros H. rewrite <- (firstn_skipn n l). apply in_or_app. now left.
Qed.


Lemma existsb_none {A : Type} (p : A -> bool) (l : list A) :
  (forall a, In a l -> p a = false) -> existsb p l = false.
Proof.
  induction l as [|a l IH]; simpl; intros H; auto.
  rewrite (H a) by auto. simpl. auto.
Qed.

(** The pairs the sort works on carry the score of their entry. *)
Lemma sorted_entries_pairs (cands : list (dict pyval)) :
  forall p, In p (sort_desc (combine (map entry_score cands) cands)) ->
            fst p = entry_score (snd p) /\ In (snd p) cands.
Proof.
  intros p Hp.
  eapply Permutation_in in Hp; [|apply sort_desc_perm].
  rewrite combine_map_key in Hp. apply in_map_iff in Hp.
  destruct Hp as (e & <- & He). auto.
Qed.

Lemma sorted_entries_perm (cands : list (dict pyval)) :
  Permutation (sorted_entries cands) cands.
Proof.
  unfold sorted_entries. rewrite sort_desc_perm, combine_map_key, map_map.
  simpl. now rewrite map_id.
Qed.

Lemma sorted_entries_descending (cands : list (dict pyval)) :
  (forall e, In e cands -> is_nan (entry_score e) = false) ->
  descending (sorted_entries cands).
Proof.
  intros N. unfold descending, sorted_entries.
  assert (S : StronglySorted key_ge
                (sort_desc (combine (map entry_score cands) cands))).
  { apply sort_desc_sorted. rewrite combine_map_key.
    apply Forall_forall. intros p Hp. apply in_map_iff in Hp.
    destruct Hp as (e & <- & He). now apply N. }
  pose proof (sorted_entries_pairs cands) as P.
  induction S as [|p l Hs IH Hp]; simpl; constructor.
  - apply IH. intros q Hq. apply P. now right.
  - rewrite Forall_forall in *. intros e He. apply in_map_iff in He.
    destruct He as (q & <- & Hq).
    destruct (P p) as [Ep _]; [now left|].
    destruct (P q) as [Eq _]; [now right|].
    specialize (Hp q Hq). unfold key_ge in Hp. now rewrite Ep, Eq in Hp.
Qed.


(** ** build_windows *)


Lemma score_key_with_score (h : dict pyval) (s : float) :
  score_hour h = Ok s -> score_key (with_score h) = Ok s.
Proof.
  intros H. unfold with_score, score_key, dict_item. rewrite H.
  rewrite dict_get_set_same. reflexivity.
Qed.

Lemma collect_window_ok (anchor end_ : Z) (hours : list (dict pyval)) :
  (forall h, In h hours -> normalized_hour h /\ exists t, time_of h = Ok t) ->
  collect_window anchor end_ hours
  = Ok (map with_score (filter (in_window anchor end_) hours)).
Proof.
  induction hours as [|h hours IH]; intros H; auto.
  cbn [collect_window filter]. unfold in_window at 1.
  destruct (H h) as [Hn [t Ht]]; [now left|]. rewrite Ht. cbn [bind].
  rewrite IH by (intros; apply H; now right).
  destruct ((anchor <=? t) && (t <=? end_)); auto.
  destruct (score_hour_normalized h Hn) as [s Hs].
  assert (W : with_score h = dict_set "score" (PFloat s) h)
    by (unfold with_score; now rewrite Hs).
  rewrite Hs. cbn [bind map]. now rewrite W.
Qed.

Lemma candidates_score_key (anchor len : Z) (hours : list (dict pyval)) :
  (forall h, In h hours -> normalized_hour h /\ exists t, time_of h = Ok t) ->
  forall e, In e (candidates anchor len hours) -> score_key e = Ok (entry_score e).
Proof.
  intros H e He. unfold candidates in He. apply in_map_iff in He.
  destruct He as (h & <- & Hh). apply filter_In in Hh. destruct Hh as [Hh _].
  destruct (H h Hh) as [Hn _]. destruct (score_hour_normalized h Hn) as [s Hs].
  unfold entry_score. now rewrite (score_key_with_score h s Hs).
Qed.

(** When no hour scores NaN, no candidate does. *)
Lemma candidates_numeric (anchor len : Z) (hours : list (dict pyval)) :
  (forall h, In h hours -> normalized_hour h /\ exists t, time_of h = Ok t) ->
  numeric_scores hours ->
  forall e, In e (candidates anchor len hours) -> is_nan (entry_score e) = false.
Proof.
  intros H N e He. unfold candidates in He. apply in_map_iff in He.
  destruct He as (h & <- & Hh). apply filter_In in Hh. destruct Hh as [Hh _].
  destruct (H h Hh) as [Hn _]. destruct (score_hour_normalized h Hn) as [s Hs].
  unfold entry_score. rewrite (score_key_with_score h s Hs). eapply N; eauto.
Qed.

Lemma sorted_desc_ok (anchor len : Z) (hours : list (dict pyval)) :
  (forall h, In h hours -> normalized_hour h /\ exists t, time_of h = Ok t) ->
  numeric_scores hours ->
  sorted_desc score_key (candidates anchor len hours)
  = Ok (sorted_entries (candidates anchor len hours)).
Proof.
  intros H N. unfold sorted_desc, sorted_entries.
  rewrite (mapM_total score_key entry_score) by now apply candidates_score_key.
  cbn [bind]. rewrite existsb_none; [reflexivity|].
  intros x Hx. apply in_map_iff in Hx. destruct Hx as (e & <- & He).
  eapply candidates_numeric; eauto.
Qed.

(** With or without a NaN among the scores, the sort returns. *)
Lemma sorted_desc_returns (anchor len : Z) (hours : list (dict pyval)) :
  (forall h, In h hours -> normalized_hour h /\ exists t, time_of h = Ok t) ->
  exists sorted,
    sorted_desc score_key (candidates anchor len hours) = Ok sorted
    /\ Permutation sorted (candidates anchor len hours).
Proof.
  intros H. unfold sorted_desc.
  rewrite (mapM_total score_key entry_score) by now apply candidates_score_key.
  cbn [bind]. set (cands := candidates anchor len hours).
  destruct (existsb is_nan (map entry_score cands)).
  - destruct (sort_unordered_total _ _ (fun a b : float => Ok (float_ltb a b)) true
                (combine (map entry_score cands) cands)) as [l' Hl']; [eauto|].
    rewrite Hl'. cbn [bind]. eexists. split; [reflexivity|].
    apply sort_unordered_perm in Hl'.
    rewrite Hl', combine_map_key, map_map. cbn [snd]. now rewrite map_id.
  - eexists. split; [reflexivity|]. apply sorted_entries_perm.
Qed.

Lemma windows_loop_skip (hours : list (dict pyval)) (anchor : Z) (hz : horizon)
  (label : string) (len : Z) (rest : list (string * Z)) (windows : dict window) :
  (HORIZON_HOURS hz <? len) || is_now hz = true ->
  windows_loop hours anchor hz ((label, len) :: rest) windows
  = windows_loop hours anchor hz rest windows.
Proof. intros H. cbn [windows_loop]. now rewrite H. Qed.

Lemma windows_loop_take (hours : list (dict pyval)) (anchor : Z) (hz : horizon)
  (label : string) (len : Z) (rest : list (string * Z)) (windows : dict window) :
  (forall h, In h hours -> normalized_hour h /\ exists t, time_of h = Ok t) ->
  numeric_scores hours ->
  (HORIZON_HOURS hz <? len) || is_now hz = false ->
  windows_loop hours anchor hz ((label, len) :: rest) windows
  = windows_loop hours anchor hz rest
      (dict_set label (window_for anchor len hours) windows).
Proof.
  intros Hh N H. cbn [windows_loop]. rewrite H.
  rewrite collect_window_ok by assumption.
  fold (candidates anchor len hours). cbn [bind].
  rewrite sorted_desc_ok by assumption. reflexivity.
Qed.

Lemma windows_loop_step (hours : list (dict pyval)) (anchor : Z) (hz : horizon)
  (label : string) (len : Z) (rest : list (string * Z)) (windows : dict window) :
  (forall h, In h hours -> normalized_hour h /\ exists t, time_of h = Ok t) ->
  (HORIZON_HOURS hz <? len) || is_now hz = false ->
  exists win,
    windows_loop hours anchor hz ((label, len) :: rest) windows
    = windows_loop hours anchor hz rest (dict_set label win windows).
Proof.
  intros Hh H. cbn [windows_loop]. rewrite H.
  rewrite collect_window_ok by assumption.
  fold (candidates anchor len hours). cbn [bind].
  destruct (sorted_desc_returns anchor len hours Hh) as (sorted & -> & _).
  cbn [bind]. eauto.
Qed.

(** What [build_windows] returns on well-formed hours, horizon by horizon. *)
Lemma build_windows_ok (hours : list (dict pyval)) (anchor : Z) (hz : horizon) :
  (forall h, In h hours -> normalized_hour h /\ exists t, time_of h = Ok t) ->
  numeric_scores hours ->
  build_windows hours anchor hz
  = Ok (map (fun w => (fst w, window_for anchor (snd w) hours))
          (filter (fun w => snd w <=? HORIZON_HOURS hz) WINDOW_LENGTHS)).
Proof.
  intros H N. unfold build_windows, WINDOW_LENGTHS.
  destruct hz;
    repeat first
      [ rewrite windows_loop_skip by reflexivity
      | rewrite windows_loop_take by (assumption || reflexivity) ];
    reflexivity.
Qed.

(** On well-formed hours [build_windows] returns, whatever the scores are,
    with the labels of the horizon. *)
Lemma build_windows_returns (hours : list (dict pyval)) (anchor : Z) (hz : horizon) :
  (forall h, In h hours -> normalized_hour h /\ exists t, time_of h = Ok t) ->
  exists windows,
    build_windows hours anchor hz = Ok windows
    /\ dict_keys windows = expected_labels hz.
Proof.
  intros H. unfold build_windows, WINDOW_LENGTHS.
  destruct hz;
    repeat first
      [ rewrite windows_loop_skip by reflexivity
      | match goal with
        | |- context [windows_loop _ _ ?hz ((?label, ?len) :: ?rest) ?w] =>
            let win := fresh "win" in
            let E := fresh "E" in
            destruct (windows_loop_step hours anchor hz label len rest w H eq_refl)
              as [win E];
            rewrite E; clear E
        end ];
    eexists; (split; reflexivity).
Qed.



(** ** tide_trend_now *)

(** The scan keeps the last extreme at or before the anchor and the first
    one after it, in the order of the list. *)
Lemma trend_scan (anchor : Z) (parsed : list (Z * string)) :
  forall prev_item next_item,
    fold_left (trend_step anchor) parsed (prev_item, next_item)
    = (fold_left (fun p item => if fst item <=? anchor then Some item else p)
         parsed prev_item,
       fold_left (fun n item =>
                    if (anchor <? fst item) && is_none n then Some item else n)
         parsed next_item).
Proof.
  induction parsed as [|item parsed IH]; intros p n; auto.
  cbn [fold_left]. unfold trend_step at 2.
  destruct (fst item <=? anchor) eqn:L.
  - rewrite IH. f_equal.
    assert (G : (anchor <? fst item) = false) by lia. now rewrite G.
  - destruct ((anchor <? fst item) && is_none n); now rewrite IH.
Qed.

Lemma scan_preceding_chronological (anchor : Z) (parsed : list (Z * string)) :
  chronological parsed ->
  forall best,
    (forall b, best = Some b -> Forall (fun q => fst b <= fst q) parsed) ->
    fold_left (fun p item => if fst item <=? anchor then Some item else p) parsed best
    = fold_left (nearer_preceding anchor) parsed best.
Proof.
  induction 1 as [|item parsed Hs IH Hitem]; intros best Hb; auto.
  cbn [fold_left]. unfold nearer_preceding at 2.
  destruct (fst item <=? anchor) eqn:L.
  - assert (E : match best with
                | Some b => if fst b <=? fst item then Some item else best
                | None => Some item
                end = Some item).
    { destruct best as [b|]; auto.
      specialize (Hb b eq_refl). inversion Hb; subst.
      assert (G : (fst b <=? fst item) = true) by lia. now rewrite G. }
    rewrite E. apply IH. intros b Eb. inversion Eb; subst. exact Hitem.
  - apply IH. intros b Eb. specialize (Hb b Eb). now inversion Hb.
Qed.

Lemma scan_following_chronological (anchor : Z) (parsed : list (Z * string)) :
  chronological parsed ->
  forall best,
    (forall b, best = Some b -> Forall (fun q => fst b <= fst q) parsed) ->
    fold_left (fun n item => if (anchor <? fst item) && is_none n then Some item else n)
      parsed best
    = fold_left (nearer_following anchor) parsed best.
Proof.
  induction 1 as [|item parsed Hs IH Hitem]; intros best Hb; auto.
  cbn [fold_left]. unfold nearer_following at 2.
  destruct (anchor <? fst item) eqn:L; cbn [andb].
  - destruct best as [b|]; cbn [is_none].
    + specialize (Hb b eq_refl). inversion Hb; subst.
      assert (G : (fst item <? fst b) = false) by lia. rewrite G.
      apply IH. intros b' Eb. now inversion Eb; subst.
    + apply IH. intros b Eb. inversion Eb; subst. exact Hitem.
  - apply IH. intros b Eb. specialize (Hb b Eb). now inversion Hb.
Qed.

(** What the two specification-side searches find, on any list. *)
Lemma nearest_preceding_fold (anchor : Z) (parsed : list (Z * string)) :
  forall (seen : list (Z * string)) best,
    (forall p, best = Some p ->
       In p seen /\ fst p <= anchor
       /\ forall q, In q seen -> fst q <= anchor -> fst q <= fst p) ->
    (best = None -> forall q, In q seen -> anchor < fst q) ->
    let r := fold_left (nearer_preceding anchor) parsed best in
    (forall p, r = Some p ->
       In p (seen ++ parsed) /\ fst p <= anchor
       /\ forall q, In q (seen ++ parsed) -> fst q <= anchor -> fst q <= fst p)
    /\ (r = None -> forall q, In q (seen ++ parsed) -> anchor < fst q).
Proof.
  induction parsed as [|item parsed IH]; intros seen best Hs Hn.
  - cbn. rewrite app_nil_r. auto.
  - cbn [fold_left].
    replace (seen ++ item :: parsed) with ((seen ++ [item]) ++ parsed)
      by (rewrite <- app_assoc; reflexivity).
    apply IH; unfold nearer_preceding.
    + intros p Ep. destruct (fst item <=? anchor) eqn:L.
      * destruct best as [b|].
        -- destruct (Hs b eq_refl) as (Hin & Hle & Hmax).
           destruct (fst b <=? fst item) eqn:G; inversion Ep; subst.
           ++ split; [apply in_or_app; right; now left|]. split; [lia|].
              intros q Hq Hqa. apply in_app_or in Hq. destruct Hq as [Hq|[<-|[]]].
              ** specialize (Hmax q Hq Hqa). lia.
              ** lia.
           ++ split; [apply in_or_app; now left|]. split; [lia|].
              intros q Hq Hqa. apply in_app_or in Hq. destruct Hq as [Hq|[<-|[]]].
              ** now apply Hmax.
              ** lia.
        -- inversion Ep; subst.
           split; [apply in_or_app; right; now left|]. split; [lia|].
           intros q Hq Hqa. apply in_app_or in Hq. destruct Hq as [Hq|[<-|[]]].
           ** specialize (Hn eq_refl q Hq). lia.
           ** lia.
      * destruct (Hs p Ep) as (Hin & Hle & Hmax).
        split; [apply in_or_app; now left|]. split; [lia|].
        intros q Hq Hqa. apply in_app_or in Hq. destruct Hq as [Hq|[<-|[]]].
        -- now apply Hmax.
        -- lia.
    + intros En q Hq. destruct (fst item <=? anchor) eqn:L.
      * destruct best as [b|]; [destruct (fst b <=? fst item)|]; discriminate.
      * apply in_app_or in Hq. destruct Hq as [Hq|[<-|[]]]; [now apply Hn|lia].
Qed.

Lemma nearest_following_fold (anchor : Z) (parsed : list (Z * string)) :
  forall (seen : list (Z * string)) best,
    (forall n, best = Some n ->
       In n seen /\ anchor < fst n
       /\ forall q, In q seen -> anchor < fst q -> fst n <= fst q) ->
    (best = None -> forall q, In q seen -> fst q <= anchor) ->
    let r := fold_left (nearer_following anchor) parsed best in
    (forall n, r = Some n ->
       In n (seen ++ parsed) /\ anchor < fst n
       /\ forall q, In q (seen ++ parsed) -> anchor < fst q -> fst n <= fst q)
    /\ (r = None -> forall q, In q (seen ++ parsed) -> fst q <= anchor).
Proof.
  induction parsed as [|item parsed IH]; intros seen best Hs Hn.
  - cbn. rewrite app_nil_r. auto.
  - cbn [fold_left].
    replace (seen ++ item :: parsed) with ((seen ++ [item]) ++ parsed)
      by (rewrite <- app_assoc; reflexivity).
    apply IH; unfold nearer_following.
    + intros p Ep. destruct (anchor <? fst item) eqn:L.
      * destruct best as [b|].
        -- destruct (Hs b eq_refl) as (Hin & Hle & Hmin).
           destruct (fst item <? fst b) eqn:G; inversion Ep; subst.
           ++ split; [apply in_or_app; right; now left|]. split; [lia|].
              intros q Hq Hqa. apply in_app_or in Hq. destruct Hq as [Hq|[<-|[]]].
              ** specialize (Hmin q Hq Hqa). lia.
              ** lia.
           ++ split; [apply in_or_app; now left|]. split; [lia|].
              intros q Hq Hqa. apply in_app_or in Hq. destruct Hq as [Hq|[<-|[]]].
              ** now apply Hmin.
              ** lia.
        -- inversion Ep; subst.
           split; [apply in_or_app; right; now left|]. split; [lia|].
           intros q Hq Hqa. apply in_app_or in Hq. destruct Hq as [Hq|[<-|[]]].
           ** specialize (Hn eq_refl q Hq). lia.
           ** lia.
      * destruct (Hs p Ep) as (Hin & Hle & Hmin).
        split; [apply in_or_app; now left|]. split; [lia|].
        intros q Hq Hqa. apply in_app_or in Hq. destruct Hq as [Hq|[<-|[]]].
        -- now apply Hmin.
        -- lia.
    + intros En q Hq. destruct (anchor <? fst item) eqn:L.
      * destruct best as [b|]; [destruct (fst item <? fst b)|]; discriminate.
      * apply in_app_or in Hq. destruct Hq as [Hq|[<-|[]]]; [now apply Hn|lia].
Qed.

Lemma classify_rising (prev_item next_item : option (Z * string)) :
  classify prev_item next_item = "rising"
  <-> exists tp tn, prev_item = Some (tp, "low") /\ next_item = Some (tn, "high").
Proof.
  unfold classify. split.
  - destruct prev_item as [[tp pk]|]; [|discriminate].
    destruct next_item as [[tn nk]|]; [|discriminate].
    destruct (String.eqb pk "low") eqn:E1, (String.eqb nk "high") eqn:E2; cbn [andb];
      try (destruct (String.eqb pk "high" && String.eqb nk "low"); discriminate);
      try (destruct (String.eqb pk "high"); cbn [andb]; discriminate).
    apply String.eqb_eq in E1, E2. subst. eauto.
  - intros (tp & tn & -> & ->). reflexivity.
Qed.

Lemma classify_falling (prev_item next_item : option (Z * string)) :
  classify prev_item next_item = "falling"
  <-> exists tp tn, prev_item = Some (tp, "high") /\ next_item = Some (tn, "low").
Proof.
  unfold classify. split.
  - destruct prev_item as [[tp pk]|]; [|discriminate].
    destruct next_item as [[tn nk]|]; [|discriminate].
    destruct (String.eqb pk "low" && String.eqb nk "high"); [discriminate|].
    destruct (String.eqb pk "high") eqn:E1, (String.eqb nk "low") eqn:E2; cbn [andb];
      try discriminate.
    apply String.eqb_eq in E1, E2. subst. eauto.
  - intros (tp & tn & -> & ->). reflexivity.
Qed.

Lemma classify_values (prev_item next_item : option (Z * string)) :
  classify prev_item next_item = "rising"
  \/ classify prev_item next_item = "falling"
  \/ classify prev_item next_item = "unknown".
Proof.
  unfold classify.
  destruct prev_item as [[tp pk]|]; auto.
  destruct next_item as [[tn nk]|]; auto.
  destruct (String.eqb pk "low" && String.eqb nk "high"); auto.
  destruct (String.eqb pk "high" && String.eqb nk "low"); auto.
Qed.

Lemma tide_trend_now_scan (extremes : list (dict pyval)) (anchor : Z) :
  tide_trend_now extremes anchor
  = classify
      (fold_left (fun p item => if fst item <=? anchor then Some item else p)
         (parsed_extremes extremes) None)
      (fold_left (fun n item =>
                    if (anchor <? fst item) && is_none n then Some item else n)
         (parsed_extremes extremes) None).
Proof.
  unfold tide_trend_now. destruct (parsed_extremes extremes) as [|item parsed] eqn:P.
  - reflexivity.
  - rewrite trend_scan. reflexivity.
Qed.

(** C3, as the code has it.  For every list of tide extremes whose parsed
    times are in chronological order and every anchor, [tide_trend_now]
    returns [rising] exactly when the nearest extreme at or before the anchor
    is a [low] and the nearest extreme after it is a [high], [falling] exactly
    in the mirrored case, and [unknown] otherwise, in particular on the empty
    list.  The preceding extreme has a time at or before the anchor, so an
    extreme at the anchor itself counts as preceding; the following one is
    strictly later. *)
Theorem tide_trend_now_chronological (extremes : list (dict pyval)) (anchor : Z) :
  chronological (parsed_extremes extremes) ->
  let parsed := parsed_extremes extremes in
  let prev := nearest_preceding anchor parsed in
  let next := nearest_following anchor parsed in
  let trend := tide_trend_now extremes anchor in
  (trend = "rising"
   <-> exists tp tn, prev = Some (tp, "low") /\ next = Some (tn, "high"))
  /\ (trend = "falling"
      <-> exists tp tn, prev = Some (tp, "high") /\ next = Some (tn, "low"))
  /\ (trend = "rising" \/ trend = "falling" \/ trend = "unknown")
  /\ tide_trend_now [] anchor = "unknown"
  /\ (forall p, prev = Some p ->
        In p parsed /\ fst p <= anchor
        /\ forall q, In q parsed -> fst q <= anchor -> fst q <= fst p)
  /\ (prev = None -> forall q, In q parsed -> anchor < fst q)
  /\ (forall n, next = Some n ->
        In n parsed /\ anchor < fst n
        /\ forall q, In q parsed -> anchor < fst q -> fst n <= fst q)
  /\ (next = None -> forall q, In q parsed -> fst q <= anchor).
Proof.
  intros Hc parsed prev next trend.
  assert (E : trend = classify prev next).
  { unfold trend. rewrite tide_trend_now_scan. fold parsed.
    rewrite (scan_preceding_chronological anchor parsed Hc) by discriminate.
    rewrite (scan_following_chronological anchor parsed Hc) by discriminate.
    reflexivity. }
  destruct (nearest_preceding_fold anchor parsed [] None) as [P1 P2];
    [discriminate | intros _ q [] |].
  destruct (nearest_following_fold anchor parsed [] None) as [F1 F2];
    [discriminate | intros _ q [] |].
  rewrite E. split; [apply classify_rising|]. split; [apply classify_falling|].
  split; [apply classify_values|]. split; [reflexivity|].
  repeat split; auto; try (apply P1; assumption); try (apply F1; assumption).
Qed.

(** ** tides_by_day *)

Lemma entries_for_app (day kind : string) (l : list (dict pyval)) (e : dict pyval) :
  entries_for day kind (l ++ [e])
  = entries_for day kind l
    ++ (if on_day day e && String.eqb (kind_of e) kind
        then [day_entry (py_get "time" e) e] else []).
Proof.
  unfold entries_for. rewrite filter_app, map_app. cbn [filter].
  destruct (on_day day e && String.eqb (kind_of e) kind); reflexivity.
Qed.

Lemma entries_for_no_day (day kind : string) (l : list (dict pyval)) :
  (forall e, In e l -> day_of e <> Ok day) -> entries_for day kind l = [].
Proof.
  intros H. unfold entries_for.
  induction l as [|e l IH]; auto.
  cbn [filter]. unfold on_day at 1.
  destruct (day_of e) as [d|] eqn:D; cbn [andb].
  - destruct (String.eqb d day) eqn:E; cbn [andb].
    + apply String.eqb_eq in E. subst. exfalso. apply (H e); [now left|assumption].
    + apply IH. intros; apply H; now right.
  - apply IH. intros; apply H; now right.
Qed.

Lemma bucket_for_skip (day : string) (l : list (dict pyval)) (e : dict pyval) :
  on_day day e = false \/ str_in (kind_of e) ["high"; "low"] = false ->
  bucket_for day (l ++ [e]) = bucket_for day l.
Proof.
  intros H. unfold bucket_for. rewrite !entries_for_app.
  destruct H as [H|H].
  - rewrite H. cbn [andb]. now rewrite !app_nil_r.
  - cbn [str_in] in H. rewrite orb_false_r in H. apply orb_false_iff in H.
    destruct H as [H1 H2]. rewrite H1, H2, !andb_false_r. now rewrite !app_nil_r.
Qed.

Lemma day_of_time (e : dict pyval) (day : string) :
  day_of e = Ok day -> dict_item "time" e = Ok (py_get "time" e).
Proof.
  unfold day_of, time_of, dict_item, py_get.
  destruct (dict_get "time" e); [reflexivity|discriminate].
Qed.

Lemma on_day_iff (day : string) (e : dict pyval) :
  on_day day e = true <-> day_of e = Ok day.
Proof.
  unfold on_day. destruct (day_of e) as [d|x].
  - rewrite String.eqb_eq. split; congruence.
  - split; discriminate.
Qed.

(** One round of the loop keeps the grouping. *)
Lemma tides_by_day_step (processed : list (dict pyval)) (out : dict bucket)
  (e : dict pyval) (rest : list (dict pyval)) :
  grouped processed out ->
  exists out',
    tides_by_day_loop (e :: rest) out = tides_by_day_loop rest out'
    /\ grouped (processed ++ [e]) out'.
Proof.
  intros (Hnd & Hget & Hmem). cbn [tides_by_day_loop].
  destruct (day_of e) as [day|x] eqn:D.
  2:{ exists out. split; [reflexivity|]. split; [assumption|]. split.
      - intros d b G. rewrite bucket_for_skip; auto.
        left. unfold on_day. now rewrite D.
      - intros d. rewrite Hmem. split; intros (e' & Hin & He').
        + exists e'. split; auto. apply in_or_app. now left.
        + apply in_app_or in Hin. destruct Hin as [Hin|[<-|[]]]; eauto. congruence. }
  set (out1 := dict_setdefault day empty_bucket out).
  assert (N1 : NoDup (dict_keys out1)).
  { unfold out1, dict_setdefault. destruct (dict_mem day out); auto.
    now apply dict_set_NoDup. }
  assert (G1 : dict_get day out1 = Some (bucket_for day processed)).
  { unfold out1, dict_setdefault. destruct (dict_mem day out) eqn:M.
    - unfold dict_mem in M. destruct (dict_get day out) as [b|] eqn:G; [|discriminate].
      now rewrite (Hget day b G).
    - rewrite dict_get_set_same. unfold bucket_for, empty_bucket.
      rewrite !entries_for_no_day; auto;
        intros e' Hin He'; assert (dict_mem day out = true) by (apply Hmem; eauto);
        congruence. }
  assert (O1 : forall d, d <> day -> dict_get d out1 = dict_get d out).
  { intros d Hd. unfold out1, dict_setdefault. destruct (dict_mem day out); auto.
    now apply dict_get_set_other. }
  assert (M1 : forall d, dict_mem d out1 = true <-> d = day \/ dict_mem d out = true).
  { intros d. destruct (String.eqb d day) eqn:E.
    - apply String.eqb_eq in E. subst. unfold dict_mem at 1. rewrite G1. tauto.
    - assert (d <> day) by (intros ->; rewrite String.eqb_refl in E; discriminate).
      unfold dict_mem at 1. rewrite (O1 d) by assumption. fold (dict_mem d out). tauto. }
  assert (Mem' : forall out' : dict bucket,
             (forall d, dict_mem d out' = true <-> dict_mem d out1 = true) ->
             forall d, dict_mem d out' = true
                       <-> exists e', In e' (processed ++ [e]) /\ day_of e' = Ok d).
  { intros out' Hsame d. rewrite Hsame, M1, Hmem. split.
    - intros [->|(e' & Hin & He')].
      + exists e. split; auto. apply in_or_app. right. now left.
      + exists e'. split; auto. apply in_or_app. now left.
    - intros (e' & Hin & He'). apply in_app_or in Hin.
      destruct Hin as [Hin|[<-|[]]]; [right; eauto|left; congruence]. }
  destruct (str_in (kind_of e) ["high"; "low"]) eqn:K; cbn [negb].
  - (* a high or a low: appended to its list *)
    unfold dict_item at 1. rewrite G1. cbn [bind].
    rewrite (day_of_time e day D).
    assert (Kcases : kind_of e = "high" \/ kind_of e = "low").
    { apply str_in_In in K. destruct K as [K|[K|[]]]; auto. }
    set (entry := day_entry (py_get "time" e) e).
    assert (B' : exists b',
               (entries <- dict_item (kind_of e) (bucket_for day processed) ;;
                time <- Ok (py_get "time" e) ;;
                tides_by_day_loop rest
                  (dict_set day
                     (dict_set (kind_of e) (entries ++ [day_entry time e])
                        (bucket_for day processed)) out1))
               = tides_by_day_loop rest (dict_set day b' out1)
               /\ b' = bucket_for day (processed ++ [e])).
    { assert (Oday : on_day day e = true) by now apply on_day_iff.
      destruct Kcases as [Kh|Kl].
      - rewrite Kh. eexists. split; [reflexivity|].
        unfold bucket_for. rewrite !entries_for_app, Oday, Kh.
        cbn [andb String.eqb Ascii.eqb Bool.eqb dict_set].
        now rewrite app_nil_r.
      - rewrite Kl. eexists. split; [reflexivity|].
        unfold bucket_for. rewrite !entries_for_app, Oday, Kl.
        cbn [andb String.eqb Ascii.eqb Bool.eqb dict_set].
        now rewrite app_nil_r. }
    destruct B' as (b' & -> & Eb').
    exists (dict_set day b' out1). split; [reflexivity|]. split; [|split].
    + now apply dict_set_NoDup.
    + intros d b G. destruct (String.eqb d day) eqn:E.
      * apply String.eqb_eq in E. subst d. rewrite dict_get_set_same in G. congruence.
      * assert (d <> day) by (intros ->; rewrite String.eqb_refl in E; discriminate).
        rewrite dict_get_set_other in G by assumption. rewrite O1 in G by assumption.
        rewrite bucket_for_skip; auto. left.
        destruct (on_day d e) eqn:Od; auto. apply on_day_iff in Od. congruence.
    + apply Mem'. intros d. split.
      * intros H. destruct (String.eqb d day) eqn:E.
        -- apply String.eqb_eq in E. subst. apply M1. now left.
        -- assert (d <> day) by (intros ->; rewrite String.eqb_refl in E; discriminate).
           unfold dict_mem in *. now rewrite dict_get_set_other in H.
      * apply dict_mem_set.
  - (* any other type: the bucket exists, nothing is appended *)
    exists out1. split; [reflexivity|]. split; [assumption|]. split.
    + intros d b G. rewrite bucket_for_skip by (now right).
      destruct (String.eqb d day) eqn:E.
      * apply String.eqb_eq in E. subst d. congruence.
      * assert (d <> day) by (intros ->; rewrite String.eqb_refl in E; discriminate).
        rewrite O1 in G by assumption. auto.
    + apply Mem'. tauto.
Qed.

Lemma tides_by_day_loop_grouped (rest : list (dict pyval)) :
  forall processed out,
    grouped processed out ->
    exists out', tides_by_day_loop rest out = Ok out'
                 /\ grouped (processed ++ rest) out'.
Proof.
  induction rest as [|e rest IH]; intros processed out G.
  - exists out. rewrite app_nil_r. auto.
  - destruct (tides_by_day_step processed out e rest G) as (out1 & E & G1).
    destruct (IH _ _ G1) as (out' & R & G').
    exists out'. rewrite E, R. rewrite <- app_assoc in G'. auto.
Qed.

Lemma entries_for_origin (day kind : string) (extremes : list (dict pyval))
  (x : dict pyval) :
  In x (entries_for day kind extremes) ->
  exists e, In e extremes /\ day_of e = Ok day /\ kind_of e = kind
            /\ x = day_entry (py_get "time" e) e.
Proof.
  unfold entries_for. intros H. apply in_map_iff in H.
  destruct H as (e & <- & He). apply filter_In in He. destruct He as [Hin Hc].
  apply andb_true_iff in Hc. destruct Hc as [Hd Hk].
  exists e. repeat split; auto; [now apply on_day_iff | now apply String.eqb_eq].
Qed.

Lemma tides_by_day_grouped (extremes : list (dict pyval)) :
  exists out, tides_by_day extremes = Ok out /\ grouped extremes out.
Proof.
  unfold tides_by_day.
  destruct (tides_by_day_loop_grouped extremes [] []) as (out & R & G); eauto.
  split; [constructor|]. split; [discriminate|].
  intros day. split; [discriminate|]. intros (e & [] & _).
Qed.

(** ** build_report *)

Lemma build_report_ok (anchor : Z) (hz : horizon) (mode : string)
  (sources geo_warnings : list string) (loc : pyval)
  (weather_hours tide_data : list (dict pyval)) (r : report) :
  build_report anchor hz mode sources geo_warnings loc weather_hours tide_data = Ok r ->
  exists normalized,
    mapM (fun hour => normalize_hour hour sources)
         (filter (dict_mem "time") weather_hours) = Ok normalized
    /\ nearest_hour normalized anchor = Ok (now r)
    /\ normalize_tides tide_data = Ok (extremes (tides r))
    /\ build_windows normalized anchor hz = Ok (forecast_windows r)
    /\ tides_by_day (extremes (tides r)) = Ok (byDay (tides r))
    /\ trendNow (tides r) = tide_trend_now (extremes (tides r)) anchor.
Proof.
  unfold build_report.
  destruct (mapM _ _) as [normalized|] eqn:N; cbn [bind]; [|discriminate].
  destruct normalized as [|h0 normalized]; [discriminate|].
  destruct (nearest_hour _ _) as [current|] eqn:C; cbn [bind]; [|discriminate].
  destruct (normalize_tides _) as [exs|] eqn:T; cbn [bind]; [|discriminate].
  destruct (build_windows _ _ _) as [windows|] eqn:W; cbn [bind]; [|discriminate].
  destruct (tides_by_day _) as [by_day|] eqn:D; cbn [bind]; [|discriminate].
  intros H. injection H as <-.
  cbn [tides extremes byDay now forecast_windows trendNow].
  exists (h0 :: normalized). repeat split; auto.
Qed.

(** C9. For every list of tide extremes, [tides_by_day] returns a mapping in
    which each day's bucket has exactly the keys [high] and [low]; the list
    under each key holds the entries of exactly the extremes of that day whose
    lower-cased type is that key, in list order, so no extreme of another type
    is ever appended.  Such an extreme still gets its day's bucket, and it
    stays in the flat list: the report stores under [extremes] the very list
    that was grouped. *)
Theorem tides_by_day_high_low (extremes_list : list (dict pyval)) :
  (exists out,
     tides_by_day extremes_list = Ok out
     /\ NoDup (dict_keys out)
     /\ (forall day b, In (day, b) out ->
           dict_keys b = ["high"; "low"]
           /\ dict_get "high" b = Some (entries_for day "high" extremes_list)
           /\ dict_get "low" b = Some (entries_for day "low" extremes_list)
           /\ forall kind entries x,
                dict_get kind b = Some entries -> In x entries ->
                exists e, In e extremes_list /\ day_of e = Ok day
                          /\ kind_of e = kind /\ (kind = "high" \/ kind = "low")
                          /\ x = day_entry (py_get "time" e) e)
     /\ (forall e day, In e extremes_list -> day_of e = Ok day ->
           dict_mem day out = true))
  /\ (forall anchor hz mode sources geo_warnings loc weather_hours tide_data,
        match build_report anchor hz mode sources geo_warnings loc
                weather_hours tide_data with
        | Ok r => normalize_tides tide_data = Ok (extremes (tides r))
                  /\ tides_by_day (extremes (tides r)) = Ok (byDay (tides r))
        | Raise _ => True
        end).
Proof.
  split.
  - destruct (tides_by_day_grouped extremes_list) as (out & R & Hnd & Hget & Hmem).
    exists out. split; [assumption|]. split; [assumption|]. split.
    + intros day b Hin. apply dict_In_get in Hin; [|assumption].
      apply Hget in Hin. subst b. repeat split.
      intros kind entries x G Hx. unfold bucket_for in G. cbn [dict_get] in G.
      destruct (String.eqb kind "high") eqn:E1.
      * apply String.eqb_eq in E1. subst kind. inversion G; subst.
        apply entries_for_origin in Hx. destruct Hx as (e & ? & ? & ? & ?).
        exists e. repeat split; auto.
      * destruct (String.eqb kind "low") eqn:E2; [|discriminate].
        apply String.eqb_eq in E2. subst kind. inversion G; subst.
        apply entries_for_origin in Hx. destruct Hx as (e & ? & ? & ? & ?).
        exists e. repeat split; auto.
    + intros e day Hin D. apply Hmem. eauto.
  - intros. destruct (build_report _ _ _ _ _ _ _ _) as [r|] eqn:R; auto.
    apply build_report_ok in R. destruct R as (normalized & _ & _ & T & _ & D & _).
    auto.
Qed.

(** C7. For every raw weather-hours input in which no hour carries a [time]
    field, whatever the tide data and the other arguments, report assembly
    raises the data-gap error, [ApiError "No weather data points returned"];
    it returns no report. *)
Theorem build_report_data_gap (anchor : Z) (hz : horizon) (mode : string)
  (sources geo_warnings : list string) (loc : pyval)
  (weather_hours tide_data : list (dict pyval)) :
  filter (dict_mem "time") weather_hours = [] ->
  build_report anchor hz mode sources geo_warnings loc weather_hours tide_data
  = Raise (ApiError "No weather data points returned").
Proof.
  intros H. unfold build_report. rewrite H. reflexivity.
Qed.

(** ** Malformed times *)

Lemma normalized_hour_time (h : dict pyval) :
  normalized_hour h -> dict_mem "time" h = true.
Proof.
  intros (t & o1 & o2 & o3 & o4 & o5 & o6 & o7 & o8 & ->). reflexivity.
Qed.

Lemma collect_window_raise (anchor end_ : Z) (hours : list (dict pyval)) :
  (forall h, In h hours -> normalized_hour h) ->
  (exists h e, In h hours /\ time_of h = Raise e) ->
  collect_window anchor end_ hours = Raise ValueError.
Proof.
  induction hours as [|h hours IH]; intros Hn (bad & e & Hin & Hbad).
  - destruct Hin.
  - cbn [collect_window].
    destruct (time_of h) as [t|e'] eqn:T; cbn [bind].
    + assert (R : collect_window anchor end_ hours = Raise ValueError).
      { apply IH; [intros; apply Hn; now right|].
        destruct Hin as [<-|Hin]; [congruence|eauto]. }
      rewrite R.
      destruct ((anchor <=? t) && (t <=? end_)); auto.
      destruct (score_hour_normalized h) as [s Hs]; [apply Hn; now left|].
      rewrite Hs. reflexivity.
    + f_equal. eapply time_of_raise; eauto.
      apply normalized_hour_time. apply Hn. now left.
Qed.

Lemma nearest_hour_raise (hours : list (dict pyval)) (anchor : Z) :
  (exists h e, In h hours /\ dict_mem "time" h = true /\ time_of h = Raise e) ->
  nearest_hour hours anchor = Raise ValueError.
Proof.
  intros (bad & e & Hin & Hmem & Hbad). unfold nearest_hour.
  assert (Hv : In bad (filter (dict_mem "time") hours)) by (apply filter_In; auto).
  destruct (filter (dict_mem "time") hours) as [|h0 valid] eqn:F; [destruct Hv|].
  rewrite <- F in *. apply py_min_by_raise.
  - intros y e' Hy Ky. apply distance_raise in Ky.
    apply filter_In in Hy. destruct Hy as [_ Hy]. eapply time_of_raise; eauto.
  - exists bad, e. split; auto. unfold distance. now rewrite Hbad.
Qed.

Lemma mapM_normalized (sources : list string)
  (raw_hours normalized : list (dict pyval)) :
  mapM (fun hour => normalize_hour hour sources) raw_hours = Ok normalized ->
  forall h, In h normalized -> normalized_hour h.
Proof.
  intros H. apply mapM_ok in H.
  induction H as [|raw h raws hs Hh Hrest IH]; intros h' [].
  - subst. eapply normalize_hour_normalized; eauto.
  - auto.
Qed.

(** C10. For every list of normalized hours with an hour whose [time] is
    present but does not parse, [nearest_hour] raises the parser's
    [ValueError], and so does [build_windows] for every horizon that makes
    it read the hours (every horizon but [now], for which it builds no window
    and returns the empty mapping).  A report assembled from such hours is
    aborted with that error.  A tide event with such a time, in contrast, is
    skipped by the trend scan and the day grouping. *)
Theorem malformed_time_aborts (hours : list (dict pyval)) (anchor : Z)
  (h : dict pyval) :
  (forall h', In h' hours -> normalized_hour h') ->
  In h hours ->
  (exists v, dict_get "time" h = Some v /\ parse_time (py_str v) = Raise ValueError) ->
  nearest_hour hours anchor = Raise ValueError
  /\ (forall hz, hz <> Now -> build_windows hours anchor hz = Raise ValueError)
  /\ build_windows hours anchor Now = Ok []
  /\ (forall hz mode sources geo_warnings loc weather_hours tide_data,
        mapM (fun hour => normalize_hour hour sources)
             (filter (dict_mem "time") weather_hours) = Ok hours ->
        build_report anchor hz mode sources geo_warnings loc weather_hours tide_data
        = Raise ValueError)
  /\ (forall rest out,
        parsed_extremes (h :: rest) = parsed_extremes rest
        /\ tides_by_day_loop (h :: rest) out = tides_by_day_loop rest out).
Proof.
  intros Hn Hin (v & Hv & Hp).
  assert (Hbad : time_of h = Raise ValueError).
  { unfold time_of, dict_item. rewrite Hv. exact Hp. }
  assert (Hnear : nearest_hour hours anchor = Raise ValueError).
  { apply nearest_hour_raise. exists h, ValueError. repeat split; auto.
    now apply normalized_hour_time, Hn. }
  split; [assumption|]. split; [|split; [reflexivity|split]].
  - intros hz Hz. unfold build_windows, WINDOW_LENGTHS. cbn [windows_loop].
    assert (G : (HORIZON_HOURS hz <? 24) || is_now hz = false)
      by (destruct hz; [congruence|reflexivity..]).
    rewrite G. rewrite collect_window_raise; eauto.
  - intros hz mode sources geo_warnings loc weather_hours tide_data N.
    unfold build_report. rewrite N. cbn [bind].
    destruct hours as [|h0 hours]; [destruct Hin|].
    rewrite Hnear. reflexivity.
  - intros rest out. split.
    + cbn [parsed_extremes]. unfold parse_extreme. rewrite Hbad. reflexivity.
    + cbn [tides_by_day_loop]. unfold day_of. rewrite Hbad. reflexivity.
Qed.

(** * Further properties *)

(** ** select_metric_value *)

(** X1. On a mapping that holds no integer beyond the range of a double,
    [select_metric_value] returns the first entry that is present, not null
    and convertible, in the preference order followed by the default order
    (repeated names counting once), and otherwise the first such value in the
    insertion order of the mapping. *)
Theorem select_metric_value_resolves (d : dict pyval) (preferred : list string) :
  existsb big_int (dict_values d) = false ->
  select_metric_value (PDict d) preferred = Ok (resolve_spec d preferred).
Proof.
  intros H.
  destruct (select_metric_value (PDict d) preferred) as [r|e] eqn:S.
  - f_equal. now apply select_metric_value_mapping_ok.
  - apply select_metric_value_raise in S. cbn [has_big_int] in S.
    destruct S as [_ S]. congruence.
Qed.

(** X2. [select_metric_value] either returns, or raises [OverflowError]
    because the raw value is, or holds, an integer beyond the range of a
    double; it raises nothing else, whatever the raw value and the order. *)
Theorem select_metric_value_outcome (raw : pyval) (source_order : list string) :
  (exists r, select_metric_value raw source_order = Ok r)
  \/ (select_metric_value raw source_order = Raise OverflowError
      /\ has_big_int raw = true).
Proof.
  destruct (select_metric_value raw source_order) as [r|e] eqn:S.
  - left. eauto.
  - right. apply select_metric_value_raise in S. destruct S as [-> S]. auto.
Qed.

Lemma scan_ordered_absent (d : dict pyval) (before rest : list string) :
  (forall k, In k before -> dict_get k d = None) ->
  scan_ordered d (before ++ rest) = scan_ordered d rest.
Proof.
  induction before as [|k before IH]; intros H; auto.
  cbn [app scan_ordered]. rewrite (H k) by now left.
  apply IH. intros; apply H; now right.
Qed.

(** X3. A source named in the preference order whose entry is present, not
    null and convertible is chosen whenever the sources named before it are
    absent from the mapping, whatever the default order and the other
    entries of the mapping are. *)
Theorem preferred_source_wins (d : dict pyval) (before : list string)
  (key : string) (rest : list string) (v : pyval) (x : float) :
  (forall k, In k before -> dict_get k d = None) ->
  dict_get key d = Some v ->
  is_None v = false ->
  py_float v = Ok x ->
  select_metric_value (PDict d) (before ++ key :: rest) = Ok (Some x).
Proof.
  intros Hb Hk Hn Hf. unfold select_metric_value.
  rewrite <- app_assoc. rewrite scan_ordered_absent by assumption.
  cbn [app scan_ordered]. rewrite Hk, Hn, Hf. reflexivity.
Qed.

(** ** normalize_hour and score_hour *)


Lemma round_half_even_le (x : Q) (n : Z) :
  (x <= inject_Z n)%Q -> round_half_even x <= n.
Proof.
  intros H. unfold round_half_even.
  assert (F : Qfloor x <= n).
  { rewrite <- (Qfloor_Z n). now apply Qfloor_resp_le. }
  destruct (Z.eq_dec (Qfloor x) n) as [E|N].
  - assert (L : (x - inject_Z (Qfloor x) < 1 # 2)%Q).
    { rewrite E. apply Qle_lt_trans with (y := 0%Q); [|reflexivity].
      apply (Qplus_le_l _ _ (inject_Z n)). ring_simplify. exact H. }
    assert (C : Qcompare (x - inject_Z (Qfloor x)) (1 # 2) = Lt)
      by exact (proj1 (Qlt_alt _ _) L).
    rewrite C. lia.
  - destruct (Qcompare _ _); [destruct (Z.even _)| |]; lia.
Qed.

Lemma round_digits_le (x : Q) (n : Z) :
  (x <= n # 10000)%Q -> (round_digits x 4 <= n # 10000)%Q.
Proof.
  intros H. unfold round_digits. rewrite Qred_correct.
  change (Z.to_pos (10 ^ Z.of_nat 4)) with 10000%positive.
  assert (L : round_half_even (x * inject_Z 10000) <= n).
  { apply round_half_even_le.
    setoid_replace (inject_Z n) with ((n # 10000) * inject_Z 10000)%Q.
    - apply Qmult_le_compat_r; [assumption|discriminate].
    - unfold Qeq, Qmult, inject_Z. simpl. lia. }
  unfold Qle. simpl. lia.
Qed.

(** The term of the wave height lies between 0 and 1.2, whatever the height
    is: an infinity and NaN give 0. *)
Lemma wave_term_between (wave : float) :
  finite_between 0 1.2
    (py_max (Finite 0) (Finite 1.2 - float_abs (wave - Finite 1.2))%float).
Proof.
  destruct wave as [x|n|].
  - cbn [float_sub float_add float_opp float_abs]. unfold py_max. cbn [float_ltb].
    match goal with
    | |- context [Qabs ?y] => pose proof (Qabs_nonneg y) as A
    end.
    match goal with
    | |- context [Qltb ?a ?b] => destruct (Qltb a b) eqn:L
    end; eexists; (split; [reflexivity|]).
    + apply Qltb_lt in L. lra.
    + lra.
  - exists 0%Q. split; [now destruct n|lra].
  - exists 0%Q. split; [reflexivity|lra].
Qed.

(** The term of the swell period lies between 0 and 2 when the period is not
    negative. *)
Lemma period_term_between (period : float) :
  float_ltb period (Finite 0) = false ->
  finite_between 0 2 (py_min (Finite 2) (period / 6)%float).
Proof.
  intros H. destruct period as [x|n|].
  - cbn in H. apply Qltb_ge in H.
    assert (D : (0 <= x / 6)%Q).
    { apply Qle_shift_div_l; [reflexivity|]. now rewrite Qmult_0_l. }
    cbn [float_div]. unfold py_min. cbn [float_ltb].
    match goal with
    | |- context [Qltb ?a ?b] => destruct (Qltb a b) eqn:L
    end; eexists; (split; [reflexivity|]).
    + apply Qltb_lt in L. lra.
    + lra.
  - destruct n; [discriminate|]. exists 2%Q. split; [reflexivity|lra].
  - exists 2%Q. split; [reflexivity|lra].
Qed.

(** The terms of the wind speed and of the gust, [max(0.0, cap - v / c)], lie
    between 0 and the cap when the value is not negative. *)
Lemma calm_term_between (cap c : Q) (v : float) :
  (0 <= cap)%Q -> (0 < c)%Q ->
  float_ltb v (Finite 0) = false ->
  finite_between 0 cap (py_max (Finite 0) (Finite cap - v / c)%float).
Proof.
  intros Hcap Hc H. destruct v as [x|n|].
  - cbn in H. apply Qltb_ge in H.
    assert (D : (0 <= x / c)%Q).
    { apply Qle_shift_div_l; [assumption|]. now rewrite Qmult_0_l. }
    cbn [float_div float_sub float_add float_opp]. unfold py_max. cbn [float_ltb].
    match goal with
    | |- context [Qltb ?a ?b] => destruct (Qltb a b) eqn:L
    end; eexists; (split; [reflexivity|]).
    + apply Qltb_lt in L. lra.
    + lra.
  - destruct n; [discriminate|].
    assert (N : Qltb c 0 = false) by (apply Qltb_ge; now apply Qlt_le_weak).
    exists 0%Q. split; [|lra].
    cbn [float_div float_sub float_add float_opp]. rewrite N. reflexivity.
  - exists 0%Q. split; [reflexivity|lra].
Qed.

Lemma add_opt_between (o : option float) (f : float -> float) (score : float)
  (bound cap : Q) :
  finite_between 0 bound score ->
  (0 <= cap)%Q ->
  (forall x, o = Some x -> finite_between 0 cap (f x)) ->
  finite_between 0 (bound + cap) (add_opt o f score).
Proof.
  intros (q & -> & Hl & Hu) Hc Hf. destruct o as [x|]; cbn [add_opt].
  - destruct (Hf x eq_refl) as (y & -> & Yl & Yu).
    exists (q + y)%Q. split; [reflexivity|lra].
  - exists q. split; [reflexivity|lra].
Qed.

(** X5. On a normalized hour whose swell period, wind speed and gust are
    missing or not negative the score lies between 0 and 6.7, the sum of the
    caps of the four terms (1.2, 2.0, 2.0 and 1.5). *)
Theorem score_hour_bounds (h : dict pyval) :
  normalized_hour h ->
  (forall x, dict_get "swellPeriodS" h = Some (PFloat x) ->
             float_ltb x (Finite 0) = false) ->
  (forall x, dict_get "windSpeedMps" h = Some (PFloat x) ->
             float_ltb x (Finite 0) = false) ->
  (forall x, dict_get "windGustMps" h = Some (PFloat x) ->
             float_ltb x (Finite 0) = false) ->
  exists s : Q, score_hour h = Ok (Finite s) /\ (0 <= s)%Q /\ (s <= 6.7)%Q.
Proof.
  intros (t & wave & swell & period & swell_dir & wind & wind_dir & gust & water & ->)
         Hp Hw Hg.
  rewrite score_hour_mk_hour.
  assert (S : finite_between 0 (0 + 1.2 + 2 + 2 + 1.5)
                (add_opt gust
                   (fun gust => py_max (Finite 0) (Finite 1.5 - gust / 4)%float)
                   (add_opt wind
                      (fun wind => py_max (Finite 0) (Finite 2 - wind / 3)%float)
                      (add_opt period
                         (fun period => py_min (Finite 2) (period / 6)%float)
                         (add_opt wave
                            (fun wave =>
                               py_max (Finite 0)
                                 (Finite 1.2 - float_abs (wave - Finite 1.2))%float)
                            (Finite 0)))))).
  { repeat apply add_opt_between; try lra.
    - exists 0%Q. split; [reflexivity|lra].
    - intros x _. apply wave_term_between.
    - intros x ->. apply period_term_between. now apply Hp.
    - intros x ->. apply calm_term_between; try lra. now apply Hw.
    - intros x ->. apply calm_term_between; try lra. now apply Hg. }
  destruct S as (q & -> & Hl & Hu). cbn [py_round].
  eexists. split; [reflexivity|]. split.
  - now apply round_digits_nonneg.
  - apply Qle_trans with (y := (67000 # 10000)%Q); [|discriminate].
    apply round_digits_le. lra.
Qed.

(** ** nearest_hour and build_windows *)

(** X6. When no hour carries a [time] key, [nearest_hour] raises
    [ApiError "No weather hours with time field"], as on the empty list:
    hours without the key are left out before the search. *)
Theorem nearest_hour_untimed (hours : list (dict pyval)) (anchor : Z) :
  (forall h, In h hours -> dict_mem "time" h = false) ->
  nearest_hour hours anchor = Raise (ApiError "No weather hours with time field").
Proof.
  intros H. unfold nearest_hour.
  assert (F : filter (dict_mem "time") hours = []).
  { induction hours as [|h hours IH]; auto.
    cbn [filter]. rewrite (H h) by now left.
    apply IH. intros; apply H; now right. }
  now rewrite F.
Qed.

Lemma min_loop_ok {A : Type} (key : A -> result Q) (items : list A) :
  forall best best_key h,
    min_loop key best best_key items = Ok h ->
    (h = best \/ In h items) /\ forall y, In y items -> exists k, key y = Ok k.
Proof.
  induction items as [|x items IH]; intros best best_key h H.
  - inversion H. split; [now left|intros y []].
  - cbn [min_loop] in H. destruct (key x) as [k|] eqn:K; cbn [bind] in H; [|discriminate].
    destruct (Qltb k best_key); apply IH in H; destruct H as [Hh Hall]; split.
    + destruct Hh as [->|Hh]; right; [now left|now right].
    + intros y [<-|Hy]; eauto.
    + destruct Hh as [->|Hh]; [now left|right; now right].
    + intros y [<-|Hy]; eauto.
Qed.

Lemma py_min_by_ok {A : Type} (key : A -> result Q) (items : list A) (h : A) :
  py_min_by key items = Ok h ->
  In h items /\ forall y, In y items -> exists k, key y = Ok k.
Proof.
  destruct items as [|x items]; [discriminate|]. cbn [py_min_by].
  destruct (key x) as [k|] eqn:K; cbn [bind]; [|discriminate].
  intros H. apply min_loop_ok in H. destruct H as [Hh Hall]. split.
  - destruct Hh as [->|Hh]; [now left|now right].
  - intros y [<-|Hy]; eauto.
Qed.



Lemma StronglySorted_app_le {A : Type} (R : A -> A -> Prop) (l1 l2 : list A) :
  StronglySorted R (l1 ++ l2) -> forall a b, In a l1 -> In b l2 -> R a b.
Proof.
  induction l1 as [|x l1 IH]; intros S a b Ha Hb; [destruct Ha|].
  cbn [app] in S. inversion S; subst.
  destruct Ha as [<-|Ha].
  - rewrite Forall_forall in H2. apply H2. apply in_or_app. now right.
  - eapply IH; eauto.
Qed.

(** X8. When no hour scores NaN (none has a swell period of [-Infinity]
    together with a wind speed or a gust of [-Infinity]) and the anchor
    leaves room for the horizon before the last [datetime], in every window
    [bestHours] is the top of its candidates: it holds three of them, or all
    of them when they are fewer, and no candidate left out scores more than
    one that is kept. *)
Theorem build_windows_top (hours : list (dict pyval)) (anchor : Z) (hz : horizon) :
  (forall h, In h hours -> normalized_hour h /\ exists t, time_of h = Ok t) ->
  (forall h, In h hours -> scores_nan h = false) ->
  anchor + timedelta_hours (HORIZON_HOURS hz) <= datetime_max ->
  exists windows,
    build_windows hours anchor hz = Ok windows
    /\ forall label win, In (label, win) windows ->
         exists len left_out,
           In (label, len) WINDOW_LENGTHS
           /\ Permutation (bestHours win ++ left_out) (candidates anchor len hours)
           /\ List.length (bestHours win)
              = Nat.min 3 (List.length (candidates anchor len hours))
           /\ forall kept other, In kept (bestHours win) -> In other left_out ->
                float_leb (entry_score other) (entry_score kept) = true.
Proof.
  intros H Hs _.
  assert (N : numeric_scores hours)
    by (apply scores_nan_numeric; [intros h Hh; apply (H h Hh)|exact Hs]).
  eexists. split; [now apply build_windows_ok|].
  intros label win Hin. apply in_map_iff in Hin.
  destruct Hin as ([label' len] & E & Hw). cbn [fst snd] in E.
  inversion E; subst; clear E.
  apply filter_In in Hw. destruct Hw as [Hw _].
  exists len, (skipn 3 (sorted_entries (candidates anchor len hours))).
  cbn [window_for bestHours].
  split; [assumption|]. split; [|split].
  - rewrite firstn_skipn. apply sorted_entries_perm.
  - rewrite length_firstn.
    now rewrite (Permutation_length (sorted_entries_perm _)).
  - intros kept other Hk Ho.
    assert (S : descending (sorted_entries (candidates anchor len hours)))
      by (apply sorted_entries_descending; now apply candidates_numeric).
    unfold descending in S. rewrite <- (firstn_skipn 3) in S.
    exact (StronglySorted_app_le _ _ _ S kept other Hk Ho).
Qed.

Lemma in_window_longer (anchor len1 len2 : Z) (h : dict pyval) :
  len1 <= len2 ->
  in_window anchor (anchor + timedelta_hours len1) h = true ->
  in_window anchor (anchor + timedelta_hours len2) h = true.
Proof.
  unfold in_window, timedelta_hours, microseconds_per_hour.
  intros L. destruct (time_of h) as [t|]; [|discriminate].
  rewrite !andb_true_iff. lia.
Qed.

Lemma candidates_longer (anchor len1 len2 : Z) (hours : list (dict pyval))
  (e : dict pyval) :
  len1 <= len2 ->
  In e (candidates anchor len1 hours) -> In e (candidates anchor len2 hours).
Proof.
  unfold candidates. intros L H. apply in_map_iff in H.
  destruct H as (h & <- & Hh). apply in_map. apply filter_In in Hh.
  apply filter_In. destruct Hh as [Hin Hw]. split; auto.
  eapply in_window_longer; eauto.
Qed.

Lemma float_leb_refl (a : float) : is_nan a = false -> float_leb a a = true.
Proof.
  destruct a as [x|n|]; cbn; try discriminate.
  - intros _. apply Qle_bool_iff, Qle_refl.
  - intros _. now destruct n.
Qed.

Lemma window_for_dominates (anchor len1 len2 : Z) (hours : list (dict pyval))
  (e : dict pyval) :
  (forall h, In h hours -> normalized_hour h /\ exists t, time_of h = Ok t) ->
  numeric_scores hours ->
  len1 <= len2 ->
  In e (bestHours (window_for anchor len1 hours)) ->
  exists e', In e' (bestHours (window_for anchor len2 hours))
             /\ float_leb (entry_score e) (entry_score e') = true.
Proof.
  intros H N L He. cbn [window_for bestHours] in *.
  apply In_firstn in He.
  eapply Permutation_in in He; [|apply sorted_entries_perm].
  apply (candidates_longer anchor len1 len2 hours e L) in He.
  pose proof (candidates_numeric anchor len2 hours H N e He) as Ne.
  eapply Permutation_in in He; [|symmetry; apply sorted_entries_perm].
  assert (S : descending (sorted_entries (candidates anchor len2 hours)))
    by (apply sorted_entries_descending; now apply candidates_numeric).
  unfold descending in S.
  destruct (sorted_entries (candidates anchor len2 hours)) as [|top rest];
    [destruct He|].
  exists top. split; [now left|].
  destruct He as [<-|He]; [now apply float_leb_refl|].
  inversion S; subst. rewrite Forall_forall in H3. now apply H3.
Qed.

(** X9. When no hour scores NaN (none has a swell period of [-Infinity]
    together with a wind speed or a gust of [-Infinity]) and the anchor
    leaves room for the horizon before the last [datetime], a longer window
    never has a lower best score: for every entry among the best hours of the
    24h window there is one among the best hours of the 48h window that scores
    at least as much, and likewise from 48h to 72h. *)
Theorem build_windows_longer_dominates (hours : list (dict pyval)) (anchor : Z)
  (hz : horizon) (windows : dict window) :
  (forall h, In h hours -> normalized_hour h /\ exists t, time_of h = Ok t) ->
  (forall h, In h hours -> scores_nan h = false) ->
  anchor + timedelta_hours (HORIZON_HOURS hz) <= datetime_max ->
  build_windows hours anchor hz = Ok windows ->
  (forall w24 w48 e,
     dict_get "24h" windows = Some w24 -> dict_get "48h" windows = Some w48 ->
     In e (bestHours w24) ->
     exists e', In e' (bestHours w48)
                /\ float_leb (entry_score e) (entry_score e') = true)
  /\ (forall w48 w72 e,
        dict_get "48h" windows = Some w48 -> dict_get "72h" windows = Some w72 ->
        In e (bestHours w48) ->
        exists e', In e' (bestHours w72)
                   /\ float_leb (entry_score e) (entry_score e') = true).
Proof.
  intros H S _ Hb.
  assert (N : numeric_scores hours)
    by (apply scores_nan_numeric; [intros h Hh; apply (H h Hh)|exact S]).
  rewrite (build_windows_ok hours anchor hz H N) in Hb.
  injection Hb as <-.
  destruct hz; cbn; split; intros wa wb e Ga Gb He; try discriminate;
    injection Ga as <-; injection Gb as <-;
    (eapply window_for_dominates; [exact H|exact N| |exact He]); lia.
Qed.

(** ** tide_trend_now and tides_by_day on any list *)

Lemma hd_error_app_single {A : Type} (l : list A) (x : A) :
  hd_error (l ++ [x]) = match hd_error l with Some y => Some y | None => Some x end.
Proof. destruct l; reflexivity. Qed.

Lemma scan_last_preceding (anchor : Z) (parsed : list (Z * string)) :
  forall best,
    fold_left (fun p item => if fst item <=? anchor then Some item else p) parsed best
    = match hd_error (rev (filter (fun item => fst item <=? anchor) parsed)) with
      | Some item => Some item
      | None => best
      end.
Proof.
  induction parsed as [|item parsed IH]; intros best; auto.
  cbn [fold_left filter]. rewrite IH.
  destruct (fst item <=? anchor); auto.
  cbn [rev]. rewrite hd_error_app_single.
  destruct (hd_error (rev _)); reflexivity.
Qed.

Lemma scan_first_following (anchor : Z) (parsed : list (Z * string)) :
  forall best,
    fold_left (fun n item => if (anchor <? fst item) && is_none n then Some item else n)
      parsed best
    = match best with
      | Some item => Some item
      | None => hd_error (filter (fun item => anchor <? fst item) parsed)
      end.
Proof.
  induction parsed as [|item parsed IH]; intros best.
  - destruct best; reflexivity.
  - cbn [fold_left filter]. rewrite IH.
    destruct (anchor <? fst item); destruct best; reflexivity.
Qed.

(** X10. On any list, in chronological order or not, the trend is that of two
    extremes picked by position: of the extremes whose time parses, the last
    listed one at or before the anchor and the first listed one after it.
    It is [rising] when these are a low then a high, [falling] when a high
    then a low, [unknown] otherwise or when one of them is missing. *)
Theorem tide_trend_now_by_position (extremes : list (dict pyval)) (anchor : Z) :
  tide_trend_now extremes anchor
  = classify
      (hd_error (rev (filter (fun item => fst item <=? anchor)
                        (parsed_extremes extremes))))
      (hd_error (filter (fun item => anchor <? fst item)
                   (parsed_extremes extremes))).
Proof.
  rewrite tide_trend_now_scan, scan_last_preceding, scan_first_following.
  destruct (hd_error (rev _)); reflexivity.
Qed.

Lemma parsed_extremes_app (l1 l2 : list (dict pyval)) :
  parsed_extremes (l1 ++ l2) = parsed_extremes l1 ++ parsed_extremes l2.
Proof.
  induction l1 as [|e l1 IH]; auto.
  cbn [app parsed_extremes]. destruct (parse_extreme e); cbn [app]; congruence.
Qed.

Lemma tides_by_day_loop_app (l1 l2 : list (dict pyval)) :
  forall out,
    tides_by_day_loop (l1 ++ l2) out
    = (out1 <- tides_by_day_loop l1 out ;; tides_by_day_loop l2 out1).
Proof.
  induction l1 as [|e l1 IH]; intros out; auto.
  cbn [app tides_by_day_loop].
  destruct (day_of e) as [day|]; auto.
  destruct (negb _); auto.
  destruct (dict_item day _) as [b|]; cbn [bind]; auto.
  destruct (dict_item (kind_of e) b) as [entries|]; cbn [bind]; auto.
  destruct (dict_item "time" e) as [time|]; cbn [bind]; auto.
Qed.

(** X11. An extreme whose [time] is missing or does not parse, wherever it
    stands in the list, changes neither the trend nor the grouping by day. *)
Theorem malformed_extreme_skipped (before after : list (dict pyval))
  (e : dict pyval) (x : exn) (anchor : Z) :
  time_of e = Raise x ->
  tide_trend_now (before ++ e :: after) anchor
  = tide_trend_now (before ++ after) anchor
  /\ tides_by_day (before ++ e :: after) = tides_by_day (before ++ after).
Proof.
  intros H. split.
  - rewrite !tide_trend_now_scan, !parsed_extremes_app.
    cbn [parsed_extremes]. unfold parse_extreme. rewrite H. reflexivity.
  - unfold tides_by_day. rewrite !tides_by_day_loop_app.
    destruct (tides_by_day_loop before []) as [out|]; cbn [bind]; auto.
    cbn [tides_by_day_loop]. unfold day_of. rewrite H. reflexivity.
Qed.

(** X12. [tides_by_day] loses nothing: it returns for every list, its days
    are exactly the days on which an extreme with a parseable time falls, and
    every such extreme whose lower-cased type is [high] or [low] has its
    entry in the list of that type in the bucket of its day. *)
Theorem tides_by_day_complete (extremes_list : list (dict pyval)) :
  exists out,
    tides_by_day extremes_list = Ok out
    /\ (forall day, In day (dict_keys out)
                    <-> exists e, In e extremes_list /\ day_of e = Ok day)
    /\ forall e day,
         In e extremes_list -> day_of e = Ok day ->
         kind_of e = "high" \/ kind_of e = "low" ->
         exists b entries,
           dict_get day out = Some b
           /\ dict_get (kind_of e) b = Some entries
           /\ In (day_entry (py_get "time" e) e) entries.
Proof.
  destruct (tides_by_day_grouped extremes_list) as (out & R & Hnd & Hget & Hmem).
  exists out. split; [assumption|]. split.
  - intros day. rewrite <- dict_mem_keys. apply Hmem.
  - intros e day Hin D K.
    assert (M : dict_mem day out = true) by (apply Hmem; eauto).
    unfold dict_mem in M. destruct (dict_get day out) as [b|] eqn:G; [|discriminate].
    pose proof (Hget day b G) as ->.
    assert (E : In (day_entry (py_get "time" e) e)
                  (entries_for day (kind_of e) extremes_list)).
    { unfold entries_for.
      apply (in_map (fun e0 => day_entry (py_get "time" e0) e0)).
      apply filter_In. split; auto.
      rewrite String.eqb_refl, andb_true_r. now apply on_day_iff. }
    exists (bucket_for day extremes_list), (entries_for day (kind_of e) extremes_list).
    split; [reflexivity|]. split; [|assumption].
    destruct K as [K|K]; rewrite K; reflexivity.
Qed.

(** ** normalize_tides *)

Lemma string_ltb_lt (s t : string) :
  String.ltb s t = true <-> OrderedTypeEx.String_as_OT.lt s t.
Proof.
  unfold String.ltb. rewrite <- OrderedTypeEx.String_as_OT.cmp_lt.
  unfold OrderedTypeEx.String_as_OT.cmp.
  destruct (String.compare s t); split; congruence.
Qed.

Lemma string_leb_cases (s t : string) :
  String.leb s t = true <-> s = t \/ OrderedTypeEx.String_as_OT.lt s t.
Proof.
  unfold String.leb. split.
  - destruct (String.compare s t) eqn:C; intros H; try discriminate.
    + left. now apply String.compare_eq_iff.
    + right. now apply OrderedTypeEx.String_as_OT.cmp_lt.
  - intros [->|L].
    + assert (E : String.compare t t = Eq)
        by now apply OrderedTypeEx.String_as_OT.cmp_eq.
      now rewrite E.
    + apply OrderedTypeEx.String_as_OT.cmp_lt in L.
      unfold OrderedTypeEx.String_as_OT.cmp in L. now rewrite L.
Qed.

Lemma string_leb_trans (s t u : string) :
  String.leb s t = true -> String.leb t u = true -> String.leb s u = true.
Proof.
  rewrite !string_leb_cases. intros [->|L1] [->|L2]; auto.
  right. eapply OrderedTypeEx.String_as_OT.lt_trans; eauto.
Qed.

Lemma string_ltb_leb (s t : string) : String.ltb s t = true -> String.leb s t = true.
Proof. rewrite string_ltb_lt, string_leb_cases. auto. Qed.

Lemma string_not_ltb_leb (s t : string) :
  String.ltb s t = false -> String.leb t s = true.
Proof.
  unfold String.ltb, String.leb. rewrite (String.compare_antisym t s).
  destruct (String.compare s t); cbn; congruence.
Qed.

Lemma string_ltb_neq (s t : string) : String.ltb s t = true -> s <> t.
Proof.
  rewrite string_ltb_lt. intros L ->.
  exact (OrderedTypeEx.String_as_OT.lt_not_eq _ _ L eq_refl).
Qed.

Section SortAsc.

Context {A : Type}.

Lemma insert_asc_strings (x : pyval * A) (l : list (pyval * A)) :
  (exists s, fst x = PStr s) ->
  (forall p, In p l -> exists s, fst p = PStr s) ->
  exists l',
    insert_asc x l = Ok l'
    /\ Permutation l' (x :: l)
    /\ (StronglySorted str_key_le l -> StronglySorted str_key_le l')
    /\ forall s, filter (str_key_is s) l' = filter (str_key_is s) (x :: l).
Proof.
  intros [sx Hx]. induction l as [|y l IH]; intros Hl.
  - exists [x]. repeat split; auto. intros _. repeat constructor.
  - destruct (Hl y) as [sy Hy]; [now left|].
    destruct IH as (l' & E & P & S & F); [intros; apply Hl; now right|].
    cbn [insert_asc]. rewrite Hy, Hx. cbn [py_lt bind].
    destruct (String.ltb sy sx) eqn:L.
    + rewrite E. cbn [bind]. exists (y :: l'). split; [reflexivity|]. split; [|split].
      * rewrite P. apply perm_swap.
      * intros Hs. inversion Hs; subst. constructor; auto.
        eapply Permutation_Forall; [symmetry; exact P|].
        constructor; auto. unfold str_key_le. rewrite Hy, Hx. now apply string_ltb_leb.
      * intros s. cbn [filter]. rewrite F. cbn [filter].
        destruct (str_key_is s y) eqn:Ky, (str_key_is s x) eqn:Kx; auto.
        unfold str_key_is in Ky, Kx. rewrite Hy in Ky. rewrite Hx in Kx.
        cbn [time_string] in Ky, Kx.
        apply String.eqb_eq in Ky, Kx. subst.
        exfalso. exact (string_ltb_neq _ _ L eq_refl).
    + exists (x :: y :: l). repeat split; auto.
      intros Hs. constructor; auto. inversion Hs; subst.
      assert (Hxy : str_key_le x y).
      { unfold str_key_le. rewrite Hy, Hx. now apply string_not_ltb_leb. }
      constructor; auto.
      eapply Forall_impl; [|eassumption].
      intros z Hz. unfold str_key_le in *. eapply string_leb_trans; eauto.
Qed.

Lemma sort_asc_strings (l : list (pyval * A)) :
  (forall p, In p l -> exists s, fst p = PStr s) ->
  exists l',
    sort_asc l = Ok l'
    /\ Permutation l' l
    /\ StronglySorted str_key_le l'
    /\ forall s, filter (str_key_is s) l' = filter (str_key_is s) l.
Proof.
  induction l as [|x l IH]; intros Hl.
  - exists []. repeat split; auto. constructor.
  - destruct IH as (l1 & E & P & S & F); [intros; apply Hl; now right|].
    destruct (insert_asc_strings x l1) as (l' & E' & P' & S' & F').
    + apply Hl. now left.
    + intros p Hp. apply Hl. right. eapply Permutation_in; eauto.
    + cbn [sort_asc]. rewrite E. cbn [bind]. exists l'.
      split; [assumption|]. split; [|split].
      * rewrite P'. now constructor.
      * auto.
      * intros s. rewrite F'. cbn [filter]. now rewrite F.
Qed.

End SortAsc.

Lemma combine_map_any {A K : Type} (k : A -> K) (l : list A) :
  combine (map k l) l = map (fun a => (k a, a)) l.
Proof. induction l as [|a l IH]; simpl; congruence. Qed.

Lemma height_value_ok (height : pyval) :
  big_int height = false -> exists h, height_value height = Ok h.
Proof.
  intros H. unfold height_value. destruct (is_None height); eauto.
  destruct (py_float height) as [x|e] eqn:F; eauto.
  destruct (py_float_raise _ _ F) as [C|[_ C]]; [rewrite C; eauto|congruence].
Qed.

Lemma normalize_tides_loop_ok (data : list (dict pyval)) :
  (forall item, In item data -> big_int (py_get "height" item) = false) ->
  normalize_tides_loop data = Ok (kept_tides data).
Proof.
  induction data as [|item data IH]; intros H; auto.
  cbn [normalize_tides_loop]. unfold kept_tides in *. cbn [filter].
  rewrite IH by (intros; apply H; now right).
  destruct (py_truthy (py_get "time" item)); cbn [negb]; auto.
  destruct (height_value_ok (py_get "height" item)) as [h Hh]; [apply H; now left|].
  assert (T : tide_record item
              = [("time", py_get "time" item); ("type", py_get "type" item);
                 ("heightM", h)])
    by (unfold tide_record; now rewrite Hh).
  rewrite Hh. cbn [bind map]. now rewrite T.
Qed.

(** X13. When every tide event has a string, or nothing, as its [time] and no
    height is an integer beyond the range of a double, [normalize_tides]
    returns the events with a non-empty time, each as a record with the keys
    [time], [type] and [heightM], sorted by ascending raw time string; events
    with the same string keep the order of the input. *)
Theorem normalize_tides_sorted (data : list (dict pyval)) :
  (forall item, In item data ->
     py_get "time" item = PNone \/ exists s, py_get "time" item = PStr s) ->
  (forall item, In item data -> big_int (py_get "height" item) = false) ->
  exists out,
    normalize_tides data = Ok out
    /\ Permutation out (kept_tides data)
    /\ StronglySorted
         (fun a b => String.leb (time_string (py_get "time" a))
                                (time_string (py_get "time" b)) = true) out
    /\ (forall e, In e out ->
          dict_keys e = ["time"; "type"; "heightM"]
          /\ exists s, py_get "time" e = PStr s /\ s <> EmptyString)
    /\ forall s,
         filter (fun e => String.eqb (time_string (py_get "time" e)) s) out
         = filter (fun e => String.eqb (time_string (py_get "time" e)) s)
             (kept_tides data).
Proof.
  intros Ht Hh. unfold normalize_tides.
  rewrite normalize_tides_loop_ok by assumption. cbn [bind]. unfold list_sort.
  assert (Hk : forall e, In e (kept_tides data) ->
                 dict_keys e = ["time"; "type"; "heightM"]
                 /\ exists s, py_get "time" e = PStr s /\ s <> EmptyString).
  { intros e He. unfold kept_tides in He. apply in_map_iff in He.
    destruct He as (item & <- & Hi). apply filter_In in Hi. destruct Hi as [Hin Htr].
    split; [reflexivity|]. change (py_get "time" (tide_record item)) with (py_get "time" item).
    destruct (Ht item Hin) as [E|[s E]]; rewrite E in *; [discriminate|].
    exists s. split; auto. intros ->. discriminate. }
  rewrite (mapM_total (dict_item "time") (py_get "time")).
  2:{ intros e He. destruct (Hk e He) as [_ (s & E & _)].
      unfold dict_item, py_get in *.
      destruct (dict_get "time" e); [reflexivity|discriminate]. }
  cbn [bind]. rewrite existsb_none.
  2:{ intros k Hin. apply in_map_iff in Hin. destruct Hin as (e & <- & He).
      destruct (Hk e He) as [_ (s & -> & _)]. reflexivity. }
  destruct (sort_asc_strings (combine (map (py_get "time") (kept_tides data))
                                (kept_tides data)))
    as (sorted & E & P & S & F).
  { intros p Hp. rewrite combine_map_any in Hp. apply in_map_iff in Hp.
    destruct Hp as (e & <- & He). destruct (Hk e He) as [_ (s & Es & _)]. eauto. }
  rewrite E. cbn [bind]. eexists. split; [reflexivity|].
  assert (Hpairs : forall p, In p sorted ->
                     fst p = py_get "time" (snd p) /\ In (snd p) (kept_tides data)).
  { intros p Hp. eapply Permutation_in in Hp; [|exact P].
    rewrite combine_map_any in Hp. apply in_map_iff in Hp.
    destruct Hp as (e & <- & He). auto. }
  assert (Pm : Permutation (map snd sorted) (kept_tides data)).
  { rewrite P, combine_map_any, map_map. cbn. now rewrite map_id. }
  split; [assumption|]. split; [|split].
  - clear E P F Pm. induction S as [|p l Hs IH Hp]; cbn [map]; constructor.
    + apply IH. intros q Hq. apply Hpairs. now right.
    + rewrite Forall_forall in *. intros e He. apply in_map_iff in He.
      destruct He as (q & <- & Hq).
      destruct (Hpairs p) as [Ep _]; [now left|].
      destruct (Hpairs q) as [Eq _]; [now right|].
      specialize (Hp q Hq). unfold str_key_le in Hp. now rewrite Ep, Eq in Hp.
  - intros e He. apply Hk. eapply Permutation_in; eauto.
  - intros s. rewrite filter_map_commute.
    transitivity (map snd (filter (str_key_is s) sorted)).
    + f_equal. apply filter_ext_in. intros p Hp. unfold str_key_is.
      destruct (Hpairs p Hp) as [-> _]. reflexivity.
    + rewrite F, combine_map_any, filter_map_commute, map_map.
      unfold str_key_is. cbn. now rewrite map_id.
Qed.

(** ** build_report and main *)

Lemma min_loop_total {A : Type} (key : A -> result Q) (items : list A) :
  (forall y, In y items -> exists k, key y = Ok k) ->
  forall best best_key, exists h, min_loop key best best_key items = Ok h.
Proof.
  induction items as [|x items IH]; intros H best best_key; [now exists best|].
  cbn [min_loop]. destruct (H x (or_introl eq_refl)) as [k K]. rewrite K. cbn [bind].
  destruct (Qltb k best_key); apply IH; intros; apply H; now right.
Qed.

Lemma nearest_hour_total (hours : list (dict pyval)) (anchor : Z) :
  hours <> [] ->
  (forall h, In h hours -> normalized_hour h /\ exists t, time_of h = Ok t) ->
  exists h, nearest_hour hours anchor = Ok h /\ In h hours.
Proof.
  intros Hne H. unfold nearest_hour.
  rewrite filter_all by (intros; now apply normalized_hour_time, H).
  destruct hours as [|h0 hours]; [contradiction|].
  assert (K : forall y, In y (h0 :: hours) -> exists k, distance anchor y = Ok k).
  { intros y Hy. destruct (H y Hy) as [_ [t T]]. rewrite (distance_ok _ _ _ T). eauto. }
  assert (E : exists h, py_min_by (distance anchor) (h0 :: hours) = Ok h).
  { cbn [py_min_by]. destruct (K h0 (or_introl eq_refl)) as [k ->]. cbn [bind].
    apply min_loop_total. intros; apply K; now right. }
  destruct E as [h E]. exists h. split; [assumption|].
  now apply py_min_by_ok in E.
Qed.

(** X17. Once the hours that carry a time have been normalized, nothing
    else in [build_report] can fail but a time that does not parse or the
    tide data: when there is at least one such hour, every time parses and
    [normalize_tides] returns, a report is built; its [now] is one of the
    normalized hours, its windows carry the labels of the horizon, its
    extremes are what [normalize_tides] returned, and its [meta] and
    [location] are the arguments. *)
Theorem build_report_returns (anchor : Z) (hz : horizon) (mode : string)
  (sources geo_warnings : list string) (loc : pyval)
  (weather_hours tide_data normalized exs : list (dict pyval)) :
  mapM (fun hour => normalize_hour hour sources)
       (filter (dict_mem "time") weather_hours) = Ok normalized ->
  normalized <> [] ->
  (forall h, In h normalized -> exists t, time_of h = Ok t) ->
  normalize_tides tide_data = Ok exs ->
  exists r,
    build_report anchor hz mode sources geo_warnings loc weather_hours tide_data = Ok r
    /\ In (now r) normalized
    /\ extremes (tides r) = exs
    /\ dict_keys (forecast_windows r) = expected_labels hz
    /\ meta r = {| generatedAt := iso_z anchor;
                   meta_horizon := hz;
                   inputMode := mode;
                   sourcesRequested := sources;
                   warnings := geo_warnings |}
    /\ location r = loc.
Proof.
  intros N Hne Ht T.
  assert (Hwf : forall h, In h normalized ->
                          normalized_hour h /\ exists t, time_of h = Ok t).
  { intros h Hin. split; [eapply mapM_normalized; eauto|auto]. }
  destruct (nearest_hour_total normalized anchor Hne Hwf) as (current & C & Hin).
  destruct (tides_by_day_grouped exs) as (by_day & D & _).
  destruct (build_windows_returns normalized anchor hz Hwf) as (windows & W & K).
  unfold build_report. rewrite N. cbn [bind].
  destruct normalized as [|h0 rest]; [contradiction|].
  rewrite C. cbn [bind]. rewrite T. cbn [bind].
  rewrite W. cbn [bind]. rewrite D. cbn [bind].
  eexists. split; [reflexivity|].
  cbn [now tides extremes forecast_windows meta location].
  repeat split; auto.
Qed.

(** X18. When no weather hour carries a [time] field, [main] exits with
    status 4, the status of an API error, whatever the tide data. *)
Theorem main_data_gap_exit_4 (anchor : Z) (hz : horizon) (mode : string)
  (sources geo_warnings : list string) (loc : pyval)
  (weather_hours tide_data : list (dict pyval)) :
  filter (dict_mem "time") weather_hours = [] ->
  main_of_report
    (build_report anchor hz mode sources geo_warnings loc weather_hours tide_data)
  = Returns 4.
Proof. intros H. unfold build_report. rewrite H. reflexivity. Qed.

(** X19. A weather hour whose [time] is present but does not parse makes
    [main] exit with status 5, the status of an unexpected error, and not
    with 4: the parser's [ValueError] is not turned into an API error. *)
Theorem main_malformed_time_exit_5 (anchor : Z) (hz : horizon) (mode : string)
  (sources geo_warnings : list string) (loc : pyval)
  (weather_hours tide_data hours : list (dict pyval)) (h : dict pyval) :
  mapM (fun hour => normalize_hour hour sources)
       (filter (dict_mem "time") weather_hours) = Ok hours ->
  In h hours ->
  (exists v, dict_get "time" h = Some v /\ parse_time (py_str v) = Raise ValueError) ->
  main_of_report
    (build_report anchor hz mode sources geo_warnings loc weather_hours tide_data)
  = Returns 5.
Proof.
  intros N Hin (v & Hv & Hp).
  assert (Hbad : time_of h = Raise ValueError).
  { unfold time_of, dict_item. rewrite Hv. exact Hp. }
  assert (Hnear : nearest_hour hours anchor = Raise ValueError).
  { apply nearest_hour_raise. exists h, ValueError. repeat split; auto.
    apply normalized_hour_time. eapply mapM_normalized; eauto. }
  unfold build_report. rewrite N. cbn [bind].
  destruct hours as [|h0 hours]; [destruct Hin|].
  rewrite Hnear. reflexivity.
Qed.

(** ** parse_time *)

Lemma length_append (s t : string) :
  String.length (s ++ t)%string = (String.length s + String.length t)%nat.
Proof. induction s as [|c s IH]; simpl; auto. Qed.

Lemma substring_prefix (s t : string) :
  substring 0 (String.length s) (s ++ t)%string = s.
Proof.
  induction s as [|c s IH]; simpl; [now destruct t|now rewrite IH].
Qed.

Lemma substring_skip (s t : string) (k m : nat) :
  substring (String.length s + k) m (s ++ t)%string = substring k m t.
Proof. induction s as [|c s IH]; simpl; auto. Qed.

(** X27. A time written with the suffix [Z] parses as the same text with
    [+00:00] in its place: both give the same instant, or both raise
    [ValueError]. *)
Theorem parse_time_z_suffix (s : string) :
  parse_time (s ++ "Z") = parse_time (s ++ "+00:00").
Proof.
  unfold parse_time, endswith. rewrite !length_append. cbn [String.length].
  replace (String.length s + 1 - 1)%nat with (String.length s + 0)%nat by lia.
  replace (String.length s + 6 - 1)%nat with (String.length s + 5)%nat by lia.
  rewrite !substring_skip. cbn [substring String.eqb Ascii.eqb Bool.eqb andb].
  replace (1 <=? String.length s + 1)%nat with true
    by (symmetry; apply Nat.leb_le; lia).
  rewrite Bool.andb_false_r. cbn [andb].
  rewrite Nat.add_0_r, substring_prefix. reflexivity.
Qed.

End Properties.

(** * normalize_surf_data.normalize keeps the eight keys in [now] *)

Lemma NOW_KEYS_METRIC_MAP : NOW_KEYS = dict_values METRIC_MAP.
Proof. reflexivity. Qed.

Lemma setdefault_in_ok (outer key : string) (v : pyval) (payload out : dict pyval) :
  setdefault_in outer key v payload = Ok out ->
  exists d, dict_get outer payload = Some (PDict d)
            /\ out = dict_set outer (PDict (dict_setdefault key v d)) payload.
Proof.
  unfold setdefault_in, dict_item.
  destruct (dict_get outer payload) as [inner|]; cbn [bind]; [|discriminate].
  destruct inner; try discriminate. intros H. inversion H. eauto.
Qed.

Lemma setdefault_in_other (outer outer' key : string) (v : pyval)
  (payload out : dict pyval) :
  outer' <> outer ->
  setdefault_in outer key v payload = Ok out ->
  dict_get outer' out = dict_get outer' payload.
Proof.
  intros N H. apply setdefault_in_ok in H. destruct H as (d & _ & ->).
  now apply dict_get_set_other.
Qed.

Lemma setdefault_now_keys (keys : list string) :
  forall (payload out : dict pyval) (d : dict pyval),
    dict_get "now" payload = Some (PDict d) ->
    setdefault_now keys payload = Ok out ->
    exists d', dict_get "now" out = Some (PDict d')
               /\ (forall k, dict_mem k d = true -> dict_mem k d' = true)
               /\ (forall k, In k keys -> dict_mem k d' = true).
Proof.
  induction keys as [|key keys IH]; intros payload out d G H.
  - inversion H; subst. exists d. split; [assumption|]. split; [auto|intros k []].
  - cbn [setdefault_now] in H.
    destruct (setdefault_in "now" key PNone payload) as [p1|] eqn:S; cbn [bind] in H;
      [|discriminate].
    apply setdefault_in_ok in S. destruct S as (d0 & G0 & ->).
    rewrite G in G0. inversion G0; subst d0.
    destruct (IH _ out (dict_setdefault key PNone d) (dict_get_set_same _ _ _) H)
      as (d' & G' & Hold & Hnew).
    exists d'. split; [assumption|]. split.
    + intros k Hk. apply Hold. now apply dict_mem_setdefault.
    + intros k [<-|Hk]; auto. apply Hold. apply dict_mem_setdefault_same.
Qed.

(** Whenever [normalize] returns, [now] is an object that has the eight
    metric keys. *)
Lemma normalize_now_keys (payload out : dict pyval) :
  normalize payload = Ok out ->
  exists now_obj, dict_get "now" out = Some (PDict now_obj)
                  /\ forall key, In key NOW_KEYS -> dict_mem key now_obj = true.
Proof.
  unfold normalize.
  set (p0 := dict_setdefault "tides" _ _).
  destruct (setdefault_now NOW_KEYS p0) as [p1|] eqn:S1; cbn [bind]; [|discriminate].
  destruct (setdefault_in "meta" _ _ p1) as [p2|] eqn:S2; cbn [bind]; [|discriminate].
  destruct (setdefault_in "forecast" _ _ p2) as [p3|] eqn:S3; cbn [bind]; [|discriminate].
  destruct (setdefault_in "tides" "extremes" _ p3) as [p4|] eqn:S4; cbn [bind];
    [|discriminate].
  destruct (setdefault_in "tides" "byDay" _ p4) as [p5|] eqn:S5; cbn [bind];
    [|discriminate].
  intros S6.
  assert (Hnow : exists d, dict_get "now" p0 = Some (PDict d)).
  { unfold NOW_KEYS in S1. cbn [setdefault_now] in S1.
    destruct (setdefault_in "now" "waveHeightM" PNone p0) eqn:S; [|discriminate].
    apply setdefault_in_ok in S. destruct S as (d & G & _). eauto. }
  destruct Hnow as (d & G).
  destruct (setdefault_now_keys NOW_KEYS p0 p1 d G S1) as (d' & G' & _ & Hkeys).
  exists d'. split; [|assumption].
  assert (Nt : "now" <> "tides") by discriminate.
  assert (Nf : "now" <> "forecast") by discriminate.
  assert (Nm : "now" <> "meta") by discriminate.
  rewrite (setdefault_in_other _ _ _ _ _ _ Nt S6).
  rewrite (setdefault_in_other _ _ _ _ _ _ Nt S5).
  rewrite (setdefault_in_other _ _ _ _ _ _ Nt S4).
  rewrite (setdefault_in_other _ _ _ _ _ _ Nf S3).
  rewrite (setdefault_in_other _ _ _ _ _ _ Nm S2).
  exact G'.
Qed.

(** * normalize_surf_data.normalize as a table of defaults *)

Lemma dict_get_setdefault {V : Type} (key key' : string) (v : V) (d : dict V) :
  dict_get key' (dict_setdefault key v d)
  = match dict_get key' d with
    | Some w => Some w
    | None => if String.eqb key' key then Some v else None
    end.
Proof.
  unfold dict_setdefault, dict_mem.
  destruct (String.eqb key' key) eqn:E.
  - apply String.eqb_eq in E. subst key'.
    destruct (dict_get key d) eqn:G; [now rewrite G|]. now rewrite dict_get_set_same.
  - assert (N : key' <> key) by (intros ->; rewrite String.eqb_refl in E; discriminate).
    destruct (dict_get key d) eqn:G.
    + now destruct (dict_get key' d).
    + rewrite dict_get_set_other by assumption. now destruct (dict_get key' d).
Qed.

Lemma dict_set_get_same {V : Type} (key : string) (v : V) (d : dict V) :
  dict_get key d = Some v -> dict_set key v d = d.
Proof.
  induction d as [|[k w] d IH]; simpl; [discriminate|].
  destruct (String.eqb key k) eqn:E; intros H.
  - apply String.eqb_eq in E. congruence.
  - f_equal. auto.
Qed.

Lemma bind_ret {A : Type} (c : result A) : (x <- c ;; Ok x) = c.
Proof. now destruct c. Qed.

Lemma setdefault_now_fill (keys : list string) :
  forall (rest : list (string * string * pyval)) (payload : dict pyval),
    (payload' <- setdefault_now keys payload ;; fill_defaults rest payload')
    = fill_defaults (map (fun key => ("now", key, PNone)) keys ++ rest) payload.
Proof.
  induction keys as [|key keys IH]; intros rest payload; [reflexivity|].
  cbn [setdefault_now map app fill_defaults].
  destruct (setdefault_in "now" key PNone payload); cbn [bind]; auto.
Qed.

Lemma normalize_fill (payload : dict pyval) :
  normalize payload = fill_defaults NORMALIZE_DEFAULTS (with_sections payload).
Proof.
  unfold normalize, NORMALIZE_DEFAULTS. fold (with_sections payload).
  rewrite <- setdefault_now_fill.
  destruct (setdefault_now NOW_KEYS (with_sections payload)) as [p1|]; cbn [bind];
    [|reflexivity].
  cbn [fill_defaults].
  repeat match goal with
         | |- context [bind (setdefault_in ?a ?b ?c ?d) _] =>
             destruct (setdefault_in a b c d); cbn [bind]; [|reflexivity]
         end.
  reflexivity.
Qed.

Lemma setdefault_in_field (o k : string) (v : pyval) (p out : dict pyval)
  (o' k' : string) :
  setdefault_in o k v p = Ok out ->
  section_field o' k' out
  = match section_field o' k' p with
    | Some w => Some w
    | None => if String.eqb o o' && String.eqb k k' then Some v else None
    end.
Proof.
  intros H. apply setdefault_in_ok in H. destruct H as (d & G & ->).
  unfold section_field. destruct (String.eqb o o') eqn:E.
  - apply String.eqb_eq in E. subst o'.
    rewrite dict_get_set_same, G, dict_get_setdefault.
    rewrite (String.eqb_sym k' k). reflexivity.
  - assert (N : o' <> o) by (intros ->; rewrite String.eqb_refl in E; discriminate).
    rewrite dict_get_set_other by assumption. cbn [andb].
    destruct (dict_get o' p) as [[]|]; try reflexivity.
    now destruct (dict_get k' _).
Qed.

Lemma fill_defaults_field (defaults : list (string * string * pyval)) :
  forall (p out : dict pyval) (o k : string),
    fill_defaults defaults p = Ok out ->
    section_field o k out
    = match section_field o k p with
      | Some w => Some w
      | None => default_of defaults o k
      end.
Proof.
  induction defaults as [|[[s kk] v] rest IH]; intros p out o k H.
  - inversion H; subst. cbn [default_of]. now destruct (section_field o k out).
  - cbn [fill_defaults] in H.
    destruct (setdefault_in s kk v p) as [p1|] eqn:S; cbn [bind] in H; [|discriminate].
    rewrite (IH _ _ o k H), (setdefault_in_field _ _ _ _ _ o k S).
    cbn [default_of].
    destruct (section_field o k p); [reflexivity|].
    now destruct (String.eqb s o && String.eqb kk k).
Qed.

Lemma section_field_setdefault (s o k : string) (p : dict pyval) :
  section_field o k (dict_setdefault s (PDict []) p) = section_field o k p.
Proof.
  unfold section_field. rewrite dict_get_setdefault.
  destruct (dict_get o p); [reflexivity|].
  now destruct (String.eqb o s).
Qed.

Lemma section_field_with_sections (o k : string) (p : dict pyval) :
  section_field o k (with_sections p) = section_field o k p.
Proof. unfold with_sections. now rewrite !section_field_setdefault. Qed.

Lemma setdefault_in_mem (o k s : string) (v : pyval) (p out : dict pyval) :
  setdefault_in o k v p = Ok out -> dict_mem s p = true -> dict_mem s out = true.
Proof.
  intros H. apply setdefault_in_ok in H. destruct H as (d & _ & ->).
  apply dict_mem_set.
Qed.

Lemma fill_defaults_mem (defaults : list (string * string * pyval)) (s : string) :
  forall p out : dict pyval,
    fill_defaults defaults p = Ok out -> dict_mem s p = true -> dict_mem s out = true.
Proof.
  induction defaults as [|[[o k] v] rest IH]; intros p out H M.
  - now inversion H; subst.
  - cbn [fill_defaults] in H.
    destruct (setdefault_in o k v p) as [p1|] eqn:S; cbn [bind] in H; [|discriminate].
    eapply IH; eauto using setdefault_in_mem.
Qed.

Lemma setdefault_in_id (o k : string) (v w : pyval) (p : dict pyval) :
  section_field o k p = Some w -> setdefault_in o k v p = Ok p.
Proof.
  unfold section_field, setdefault_in, dict_item.
  destruct (dict_get o p) as [[]|] eqn:G; try discriminate. intros F. cbn [bind].
  unfold dict_setdefault, dict_mem. rewrite F.
  now rewrite (dict_set_get_same _ _ _ G).
Qed.

Lemma fill_defaults_id (defaults : list (string * string * pyval)) (p : dict pyval) :
  (forall o k v, In (o, k, v) defaults -> section_field o k p <> None) ->
  fill_defaults defaults p = Ok p.
Proof.
  induction defaults as [|[[o k] v] rest IH]; intros H; [reflexivity|].
  cbn [fill_defaults].
  destruct (section_field o k p) as [w|] eqn:F.
  - rewrite (setdefault_in_id _ _ v _ _ F). cbn [bind].
    apply IH. intros o' k' v' Hin. apply (H o' k' v'). now right.
  - exfalso. apply (H o k v); [now left|assumption].
Qed.

Lemma default_of_In (defaults : list (string * string * pyval)) (o k : string) (v : pyval) :
  In (o, k, v) defaults -> default_of defaults o k <> None.
Proof.
  induction defaults as [|[[s kk] w] rest IH]; [intros []|].
  intros [E|Hin]; cbn [default_of].
  - inversion E; subst. now rewrite !String.eqb_refl.
  - destruct (String.eqb s o && String.eqb kk k); [discriminate|auto].
Qed.

Lemma dict_setdefault_mem {V : Type} (key : string) (v : V) (d : dict V) :
  dict_mem key d = true -> dict_setdefault key v d = d.
Proof. unfold dict_setdefault. now intros ->. Qed.

Lemma section_field_mem (o k : string) (p : dict pyval) :
  section_field o k p <> None -> dict_mem o p = true.
Proof.
  unfold section_field, dict_mem. destruct (dict_get o p); [reflexivity|congruence].
Qed.

Lemma dict_mem_with_sections (s : string) (p : dict pyval) :
  In s ["meta"; "location"; "now"; "forecast"; "tides"] ->
  dict_mem s (with_sections p) = true.
Proof.
  unfold with_sections. intros H. simpl in H.
  destruct H as [<-|[<-|[<-|[<-|[<-|[]]]]]];
    repeat first [apply dict_mem_setdefault_same | apply dict_mem_setdefault].
Qed.

Lemma with_sections_id (p : dict pyval) :
  (forall s, In s ["meta"; "location"; "now"; "forecast"; "tides"] ->
             dict_mem s p = true) ->
  with_sections p = p.
Proof.
  intros H. unfold with_sections.
  rewrite (dict_setdefault_mem "meta") by (apply H; simpl; tauto).
  rewrite (dict_setdefault_mem "location") by (apply H; simpl; tauto).
  rewrite (dict_setdefault_mem "now") by (apply H; simpl; tauto).
  rewrite (dict_setdefault_mem "forecast") by (apply H; simpl; tauto).
  apply dict_setdefault_mem. apply H; simpl; tauto.
Qed.

(** X14. What [normalize] returns is the input with the defaults of the
    table filled in: a field of a section keeps the value the input has
    for it (a null included), and a field the input lacks gets the
    table's default, or stays absent when the table has none. *)
Theorem normalize_fills_defaults (payload out : dict pyval) (section key : string) :
  normalize payload = Ok out ->
  section_field section key out
  = match section_field section key payload with
    | Some w => Some w
    | None => default_of NORMALIZE_DEFAULTS section key
    end.
Proof.
  rewrite normalize_fill. intros H.
  rewrite (fill_defaults_field _ _ _ section key H).
  now rewrite section_field_with_sections.
Qed.

(** X15. [normalize] is idempotent: normalizing its own output returns
    that output unchanged. *)
Theorem normalize_idempotent (payload out : dict pyval) :
  normalize payload = Ok out -> normalize out = Ok out.
Proof.
  rewrite !normalize_fill. intros H.
  assert (F : forall o k v, In (o, k, v) NORMALIZE_DEFAULTS -> section_field o k out <> None).
  { intros o k v Hin. rewrite (fill_defaults_field _ _ _ o k H).
    destruct (section_field o k (with_sections payload)); [discriminate|].
    now apply default_of_In with (v := v). }
  assert (W : with_sections out = out).
  { apply with_sections_id. intros s Hs.
    apply (fill_defaults_mem _ s _ _ H). now apply dict_mem_with_sections. }
  rewrite W. now apply fill_defaults_id.
Qed.

Lemma setdefault_in_object (o k s : string) (v : pyval) (p out : dict pyval) :
  setdefault_in o k v p = Ok out ->
  (exists d, dict_get s p = Some (PDict d)) ->
  exists d, dict_get s out = Some (PDict d).
Proof.
  intros H [d G]. apply setdefault_in_ok in H. destruct H as (d0 & G0 & ->).
  destruct (String.eqb s o) eqn:E.
  - apply String.eqb_eq in E. subst s. rewrite dict_get_set_same. eauto.
  - rewrite dict_get_set_other; [eauto|].
    intros ->. rewrite String.eqb_refl in E. discriminate.
Qed.

Lemma fill_defaults_returns (defaults : list (string * string * pyval)) :
  forall p : dict pyval,
    (forall o k v, In (o, k, v) defaults -> exists d, dict_get o p = Some (PDict d)) ->
    exists out, fill_defaults defaults p = Ok out.
Proof.
  induction defaults as [|[[o k] v] rest IH]; intros p H; [now exists p|].
  cbn [fill_defaults].
  destruct (H o k v (or_introl eq_refl)) as [d G].
  destruct (setdefault_in o k v p) as [p1|e] eqn:S.
  - cbn [bind]. apply IH. intros o' k' v' Hin.
    apply (setdefault_in_object _ _ _ _ _ _ S). apply (H o' k' v'). now right.
  - unfold setdefault_in, dict_item in S. rewrite G in S. discriminate.
Qed.

Lemma fill_defaults_raises (defaults : list (string * string * pyval)) :
  forall p : dict pyval,
    (forall o k v, In (o, k, v) defaults -> dict_mem o p = true) ->
    (exists o k v w, In (o, k, v) defaults
                     /\ dict_get o p = Some w /\ is_object w = false) ->
    fill_defaults defaults p = Raise AttributeError.
Proof.
  induction defaults as [|[[s kk] x] rest IH]; intros p M (o & k & v & w & Hin & G & Hw);
    [destruct Hin|].
  cbn [fill_defaults].
  assert (Ms := M s kk x (or_introl eq_refl)). unfold dict_mem in Ms.
  destruct (dict_get s p) as [y|] eqn:Gs; [|discriminate].
  destruct (is_object y) eqn:Oy.
  - destruct y; try discriminate.
    assert (N : o <> s) by (intros ->; rewrite Gs in G; inversion G; subst; discriminate).
    destruct (setdefault_in s kk x p) as [p1|e] eqn:S.
    + cbn [bind]. apply IH.
      * intros o' k' v' Hin'. apply (setdefault_in_mem _ _ _ _ _ _ S).
        apply (M o' k' v'). now right.
      * exists o, k, v, w. split; [|split; [|assumption]].
        -- destruct Hin as [E|Hin]; [inversion E; subst; contradiction|assumption].
        -- now rewrite (setdefault_in_other _ _ _ _ _ _ N S).
    + unfold setdefault_in, dict_item in S. rewrite Gs in S. discriminate.
  - unfold setdefault_in, dict_item. rewrite Gs. cbn [bind].
    destruct y; try reflexivity. discriminate.
Qed.

Lemma dict_get_with_sections (s : string) (p : dict pyval) :
  In s ["now"; "meta"; "forecast"; "tides"] ->
  dict_get s (with_sections p)
  = match dict_get s p with
    | Some w => Some w
    | None => Some (PDict [])
    end.
Proof.
  unfold with_sections. intros H. simpl in H.
  destruct H as [<-|[<-|[<-|[<-|[]]]]]; rewrite !dict_get_setdefault;
    match goal with |- context [dict_get ?s p] => now destruct (dict_get s p) end.
Qed.

Lemma NORMALIZE_DEFAULTS_sections (o k : string) (v : pyval) :
  In (o, k, v) NORMALIZE_DEFAULTS -> In o ["now"; "meta"; "forecast"; "tides"].
Proof.
  unfold NORMALIZE_DEFAULTS, NOW_KEYS. cbn [map app In].
  intros H.
  repeat match goal with
         | H : _ \/ _ |- _ => destruct H as [H|H]
         | H : (_, _, _) = (_, _, _) |- _ => inversion H; subst; clear H
         | H : False |- _ => destruct H
         end; tauto.
Qed.

(** X16. [normalize] either returns or raises AttributeError, and which
    one is decided by the four sections it writes into: it returns when
    each of [now], [meta], [forecast] and [tides] is absent or an object,
    and raises AttributeError as soon as one of them is present with
    another kind of value (a null, a list, a number). *)
Theorem normalize_outcome (payload : dict pyval) :
  if sections_are_objects payload
  then exists out, normalize payload = Ok out
  else normalize payload = Raise AttributeError.
Proof.
  rewrite normalize_fill.
  destruct (sections_are_objects payload) eqn:E.
  - apply fill_defaults_returns. intros o k v Hin.
    apply NORMALIZE_DEFAULTS_sections in Hin.
    rewrite (dict_get_with_sections _ _ Hin).
    unfold sections_are_objects in E. rewrite forallb_forall in E.
    specialize (E o Hin).
    destruct (dict_get o payload) as [[]|]; try discriminate; eauto.
  - apply fill_defaults_raises.
    + intros o k v Hin. apply NORMALIZE_DEFAULTS_sections in Hin.
      unfold dict_mem. rewrite (dict_get_with_sections _ _ Hin).
      now destruct (dict_get o payload).
    + assert (X : exists s, In s ["now"; "meta"; "forecast"; "tides"]
                            /\ exists w, dict_get s payload = Some w
                                         /\ is_object w = false).
      { unfold sections_are_objects in E. cbn [forallb] in E.
        repeat (apply Bool.andb_false_iff in E; destruct E as [E|E]);
          try discriminate;
          match type of E with
          | context [dict_get ?s payload] =>
              exists s; split; [simpl; tauto|];
              destruct (dict_get s payload) as [w|]; [|discriminate];
              exists w; auto
          end. }
      destruct X as (s & Hs & w & G & Hw).
      assert (T : exists k v, In (s, k, v) NORMALIZE_DEFAULTS).
      { simpl in Hs. destruct Hs as [<-|[<-|[<-|[<-|[]]]]].
        - exists "waveHeightM", PNone. simpl. tauto.
        - exists "warnings", (PList []). simpl. tauto.
        - exists "windows", (PDict []). simpl. tauto.
        - exists "extremes", (PList []). simpl. tauto. }
      destruct T as (k & v & Hin).
      exists s, k, v, w. split; [assumption|]. split; [|assumption].
      rewrite (dict_get_with_sections _ _ Hs). now rewrite G.
Qed.

(** * fetch_weather and fetch_tides *)

(** X20. What [fetch_weather] returns is the [hours] list of the response,
    or the empty list when the response has no [hours] key; what it raises
    is what the request raised, or the API error for an [hours] that is
    present and not a list, a null included. *)
Theorem fetch_weather_outcome (http_get_json : string -> result (dict pyval))
  (query : string) :
  match fetch_weather http_get_json query with
  | Ok hours =>
      exists payload,
        http_get_json (url_of WEATHER_ENDPOINT query) = Ok payload
        /\ (dict_get "hours" payload = Some (PList hours)
            \/ (dict_get "hours" payload = None /\ hours = []))
  | Raise e =>
      http_get_json (url_of WEATHER_ENDPOINT query) = Raise e
      \/ (e = ApiError "Weather response missing hours array"
          /\ exists payload v,
               http_get_json (url_of WEATHER_ENDPOINT query) = Ok payload
               /\ dict_get "hours" payload = Some v
               /\ forall hours, v <> PList hours)
  end.
Proof.
  unfold fetch_weather, py_get_default.
  destruct (http_get_json _) as [payload|e]; cbn [bind]; [|now left].
  destruct (dict_get "hours" payload) as [v|] eqn:G.
  - destruct v; try (right; split; [reflexivity|]; do 2 eexists;
                     repeat split; eauto; discriminate).
    exists payload. auto.
  - exists payload. auto.
Qed.

Lemma fetch_tides_loop_skip (http_get_json : string -> result (dict pyval))
  (query : string) (before : list string) :
  forall (rest : list string) (last_error : option exn),
    (forall endpoint, In endpoint before ->
       exists msg, tide_attempt http_get_json query endpoint = Raise (ApiError msg)) ->
    before <> [] ->
    exists msg,
      tide_attempt http_get_json query (last before EmptyString) = Raise (ApiError msg)
      /\ fetch_tides_loop http_get_json query (before ++ rest) last_error
         = fetch_tides_loop http_get_json query rest (Some (ApiError msg)).
Proof.
  induction before as [|e before IH]; intros rest last_error H Hne; [contradiction|].
  destruct (H e (or_introl eq_refl)) as [msg A].
  cbn [app fetch_tides_loop]. rewrite A.
  destruct before as [|e' before'].
  - exists msg. split; [exact A|reflexivity].
  - destruct (IH rest (Some (ApiError msg))) as (msg' & A' & L).
    + intros; apply H; now right.
    + discriminate.
    + exists msg'. split; [exact A'|exact L].
Qed.

(** X21. The first endpoint that does not raise an API error decides
    [fetch_tides]: when the endpoints tried before it all raised one, the
    loop gives what that endpoint gave, its list or its exception, and the
    endpoints after it are not asked. *)
Theorem fetch_tides_first_answer (http_get_json : string -> result (dict pyval))
  (query : string) (before : list string) (endpoint : string)
  (after : list string) (last_error : option exn) :
  (forall e, In e before ->
     exists msg, tide_attempt http_get_json query e = Raise (ApiError msg)) ->
  (forall msg, tide_attempt http_get_json query endpoint <> Raise (ApiError msg)) ->
  fetch_tides_loop http_get_json query (before ++ endpoint :: after) last_error
  = tide_attempt http_get_json query endpoint.
Proof.
  intros Hb He.
  assert (S : forall last,
             fetch_tides_loop http_get_json query (endpoint :: after) last
             = tide_attempt http_get_json query endpoint).
  { intros last. cbn [fetch_tides_loop].
    destruct (tide_attempt http_get_json query endpoint) as [data|e] eqn:A;
      [reflexivity|].
    destruct e; try reflexivity. now destruct (He msg). }
  destruct before as [|e0 before]; [apply S|].
  destruct (fetch_tides_loop_skip http_get_json query (e0 :: before)
              (endpoint :: after) last_error Hb) as (msg & _ & L); [discriminate|].
  rewrite L. apply S.
Qed.

(** X22. When every endpoint raises an API error, [fetch_tides] raises the
    error of the last endpoint, not of the first, and never falls through
    to the empty list. *)
Theorem fetch_tides_all_fail (http_get_json : string -> result (dict pyval))
  (query : string) :
  (forall endpoint, In endpoint TIDE_ENDPOINTS ->
     exists msg, tide_attempt http_get_json query endpoint = Raise (ApiError msg)) ->
  exists msg,
    tide_attempt http_get_json query (last TIDE_ENDPOINTS EmptyString)
    = Raise (ApiError msg)
    /\ fetch_tides http_get_json query = Raise (ApiError msg).
Proof.
  intros H. unfold fetch_tides.
  destruct (fetch_tides_loop_skip http_get_json query TIDE_ENDPOINTS [] None H)
    as (msg & A & L); [discriminate|].
  exists msg. split; [exact A|]. rewrite app_nil_r in L. rewrite L. reflexivity.
Qed.

(** X23. A list that [fetch_tides] returns is the [data] of the response
    of one of its endpoints, the empty list standing for a response
    without [data]; an exception it raises was raised for one of its
    endpoints. *)
Theorem fetch_tides_outcome (http_get_json : string -> result (dict pyval))
  (query : string) :
  match fetch_tides http_get_json query with
  | Ok data =>
      exists endpoint payload,
        In endpoint TIDE_ENDPOINTS
        /\ http_get_json (url_of endpoint query) = Ok payload
        /\ py_get_default "data" (PList []) payload = PList data
  | Raise e =>
      exists endpoint,
        In endpoint TIDE_ENDPOINTS
        /\ tide_attempt http_get_json query endpoint = Raise e
  end.
Proof.
  assert (A : forall endpoint data,
             tide_attempt http_get_json query endpoint = Ok data ->
             exists payload,
               http_get_json (url_of endpoint query) = Ok payload
               /\ py_get_default "data" (PList []) payload = PList data).
  { intros endpoint data. unfold tide_attempt.
    destruct (http_get_json _) as [payload|]; cbn [bind]; [|discriminate].
    destruct (py_get_default "data" (PList []) payload) eqn:G; try discriminate.
    intros E. inversion E; subst. eauto. }
  unfold fetch_tides, TIDE_ENDPOINTS. cbn [fetch_tides_loop].
  destruct (tide_attempt http_get_json query
              "https://api.stormglass.io/v2/tide/extremes/point") as [d1|e1] eqn:A1.
  - destruct (A _ _ A1) as (payload & ? & ?).
    exists "https://api.stormglass.io/v2/tide/extremes/point", payload.
    simpl; auto.
  - destruct e1;
      try (exists "https://api.stormglass.io/v2/tide/extremes/point";
           simpl; now auto).
    destruct (tide_attempt http_get_json query
                "https://api.stormglass.io/v2/tide/extremes") as [d2|e2] eqn:A2.
    + destruct (A _ _ A2) as (payload & ? & ?).
      exists "https://api.stormglass.io/v2/tide/extremes", payload. simpl; auto.
    + destruct e2;
        exists "https://api.stormglass.io/v2/tide/extremes"; simpl; now auto.
Qed.

(** * parse_sources, parse_args and main *)

(** X24. [parse_sources] returns no empty name, whatever the value: the
    names are the stripped parts of the value between commas, and a part
    that strips to nothing is left out. *)
Theorem parse_sources_names (strip : string -> string) (value : option string) :
  Forall (fun name =>
            name <> EmptyString
            /\ exists v part, value = Some v /\ In part (split_on ","%char v)
                              /\ name = strip part)
         (parse_sources strip value).
Proof.
  unfold parse_sources. destruct value as [v|]; [|constructor].
  destruct (String.eqb v ""); [constructor|].
  rewrite Forall_forall. intros name Hin.
  apply in_map_iff in Hin. destruct Hin as (part & <- & Hin).
  apply filter_In in Hin. destruct Hin as [Hin Hne]. split.
  - intros E. rewrite E in Hne. discriminate.
  - eauto.
Qed.

(** X25. [parse_args] accepts the arguments in exactly two cases: a
    non-empty location with neither coordinate, or no location (or an empty
    one) with both coordinates; in every other case it exits, and [main]
    turns that exit into status 2. *)
Theorem parse_args_one_mode (location : option string) (lat lon : option float) :
  let has_location := exists s, location = Some s /\ s <> EmptyString in
  match parse_args_outcome location lat lon with
  | None =>
      (has_location /\ lat = None /\ lon = None)
      \/ (~ has_location /\ lat <> None /\ lon <> None)
  | Some r =>
      exit_status r = Some 2
      /\ ~ (has_location /\ lat = None /\ lon = None)
      /\ ~ (~ has_location /\ lat <> None /\ lon <> None)
  end.
Proof.
  unfold parse_args_outcome, check_args.
  destruct location as [s|]; [destruct (String.eqb s "") eqn:E|].
  - apply String.eqb_eq in E. subst s.
    destruct lat, lon; cbn; repeat split;
      try (intros ((s' & S & Hs) & ? & ?); congruence);
      try (intros (Hn & ? & ?); congruence);
      right; repeat split; try discriminate; intros (s' & S & Hs); congruence.
  - apply String.eqb_neq in E.
    assert (L : exists s', Some s = Some s' /\ s' <> EmptyString) by eauto.
    destruct lat, lon; cbn; repeat split;
      try (intros (_ & ? & ?); congruence);
      try (intros (Hn & _); now apply Hn);
      left; repeat split; assumption.
  - destruct lat, lon; cbn; repeat split;
      try (intros ((s' & S & Hs) & ? & ?); congruence);
      try (intros (Hn & ? & ?); congruence);
      right; repeat split; try discriminate; intros (s' & S & Hs); congruence.
Qed.

(** X26. Whatever the body of [main] raises, [main] either returns one of
    the statuses 0, 2, 3, 4 and 5, or lets an exception through that is not
    an [Exception], such as [KeyboardInterrupt]: no clause catches that one,
    and every other exception is caught.  The status is 0 only when nothing
    was raised or the program exited with status 0. *)
Theorem main_exit_status (body : option raised) :
  match main body with
  | Returns status =>
      In status [0; 2; 3; 4; 5]
      /\ (forall name, body <> Some (BaseException name))
      /\ (status = 0 ->
          body = None \/ body = Some (SystemExit (PInt 0))
          \/ body = Some (SystemExit (PBool false)))
  | Propagates r =>
      body = Some r /\ exists name, r = BaseException name
  end.
Proof.
  destruct body as [[code|msg|e|name]|]; cbn [main exit_status].
  - destruct code as [|b|n|x|s|l|d];
      try (split; [simpl; tauto|split; [discriminate|discriminate]]).
    + destruct b; cbn; (split; [tauto|split; [discriminate|]]);
        [discriminate|auto].
    + destruct (n =? 0) eqn:E0; cbn [orb].
      * apply Z.eqb_eq in E0. subst n.
        split; [simpl; tauto|split; [discriminate|auto]].
      * apply Z.eqb_neq in E0.
        destruct (n =? 2) eqn:E2; cbn [orb].
        -- apply Z.eqb_eq in E2. subst n.
           split; [simpl; tauto|split; discriminate].
        -- destruct (n =? 3) eqn:E3.
           ++ apply Z.eqb_eq in E3. subst n.
              split; [simpl; tauto|split; discriminate].
           ++ split; [simpl; tauto|split; discriminate].
  - split; [simpl; tauto|split; discriminate].
  - destruct e; (split; [simpl; tauto|split; discriminate]).
  - split; [reflexivity|eauto].
  - split; [simpl; tauto|split; [discriminate|auto]].
Qed.

(** * The model on sample payloads *)

#[local] Existing Instance reference_builtins.

Example iso_z_examples :
  iso_z sample_anchor = "2024-01-01T09:00:00Z"
  /\ iso_z 951782400500000 = "2000-02-29T00:00:00.500000Z"
  /\ iso_z (-1000000) = "1969-12-31T23:59:59Z"
  /\ parse_time "2024-01-01T09:00:00Z" = Ok sample_anchor
  /\ parse_time "2024-02-30T09:00:00Z" = Raise ValueError.
Proof. repeat split; vm_compute; reflexivity. Qed.

Example py_round_examples :
  py_round (Finite (12345 # 100000)) 4 = Finite (617 # 5000)
  /\ py_round (Finite (12355 # 100000)) 4 = Finite (309 # 2500)
  /\ py_round (Finite (-1)) 4 = Finite (-1)
  /\ py_round (Infinity true) 4 = Infinity true
  /\ py_round NaN 4 = NaN.
Proof. repeat split; vm_compute; reflexivity. Qed.

(** [total_seconds] gives the doubles of the interpreter: a microsecond is
    [4722366482869645 * 2**-72], and near 35469997200 seconds, where doubles
    are [2**-17] seconds apart, neighbouring microseconds collapse. *)
Example total_seconds_examples :
  total_seconds 1500000 = (3 # 2)%Q
  /\ total_seconds 1 = (4722366482869645 # 4722366482869645213696)%Q
  /\ total_seconds 123456789012345678 = (4045432062356543 # 32768)%Q
  /\ total_seconds 8589934591999999 = (9007199254740991 # 1048576)%Q
  /\ total_seconds (-35469997199999998) = (-35469997200)%Q
  /\ total_seconds (-35469997199999997) = (-35469997200)%Q.
Proof. repeat split; vm_compute; reflexivity. Qed.

(** A swell period and a wind speed of [-Infinity] add up to NaN. *)
Example score_hour_examples :
  score_hour (hd [] sample_hours) = Ok (Finite 2.9)
  /\ score_hour (hd [] nan_score_hours) = Ok NaN
  /\ score_hour (mk_hour PNone None None None None (Some (Infinity true))
                   None None None) = Ok (Infinity false)
  /\ score_hour (mk_hour PNone (Some NaN) None (Some NaN) None (Some NaN)
                   None (Some NaN) None) = Ok (Finite 2).
Proof. repeat split; vm_compute; reflexivity. Qed.

Example normalize_hour_example :
  normalize_hour
    [("time", PStr "2024-01-01T09:00:00+00:00");
     ("swellPeriod", PDict [("sg", PFloat (Finite (-6)))])] []
  = Ok negative_period_hour.
Proof. vm_compute. reflexivity. Qed.

Example build_report_example :
  exists r,
    build_report sample_anchor H24 "coordinates" ["gfs"] [] PNone
      sample_weather_hours mixed_offset_tides = Ok r
    /\ dict_get "waveHeightM" (now r) = Some (PFloat (Finite 1.8))
    /\ dict_keys (forecast_windows r) = ["24h"]
    /\ extremes (tides r) = mixed_offset_extremes
    /\ trendNow (tides r) = "unknown".
Proof. eexists. vm_compute. repeat split; reflexivity. Qed.

(** C5, as the specification states it, fails on a normalized hour with the
    swell period [-6.0], which [normalize_hour] produces from a raw hour that
    carries it: the score is [-1.0]. *)
Lemma score_hour_negative_period :
  normalized_hour negative_period_hour
  /\ score_hour negative_period_hour = Ok (Finite (-1))
  /\ float_ltb (Finite (-1)) (Finite 0) = true.
Proof.
  split; [|split].
  - unfold negative_period_hour. repeat eexists.
  - vm_compute. reflexivity.
  - reflexivity.
Qed.

(** Two hours inside the 24h window, the first with a swell period and a
    wind speed of [-Infinity]: whatever rearrangement of the two entries the
    interpreter's sort returns, [bestHours] holds both, and the NaN is not
    in descending order with the other score on either side of it. *)
Lemma nan_score_never_descending :
  forall sort perm total,
    let B := builtins_with_sort sort perm total in
    (forall h, In h nan_score_hours ->
       normalized_hour h /\ exists t, @time_of B h = Ok t)
    /\ sample_anchor + timedelta_hours (HORIZON_HOURS H24) <= datetime_max
    /\ scores_nan (hd [] nan_score_hours) = true
    /\ score_hour (hd [] nan_score_hours) = Ok NaN
    /\ exists windows win,
         @build_windows B nan_score_hours sample_anchor H24 = Ok windows
         /\ dict_get "24h" windows = Some win
         /\ ~ descending (bestHours win).
Proof.
  intros sort perm total B. subst B.
  set (B := builtins_with_sort sort perm total).
  assert (Hwf : forall h, In h nan_score_hours ->
                  normalized_hour h /\ exists t, @time_of B h = Ok t).
  { change (@time_of B) with (@time_of reference_builtins). clear B.
    intros h [<-|[<-|[]]];
      (split; [repeat eexists | eexists; vm_compute; reflexivity]). }
  split; [exact Hwf|]. split; [vm_compute; discriminate|].
  split; [reflexivity|]. split; [vm_compute; reflexivity|].
  unfold build_windows, WINDOW_LENGTHS. cbn [windows_loop].
  change ((HORIZON_HOURS H24 <? 24) || is_now H24) with false.
  change ((HORIZON_HOURS H24 <? 48) || is_now H24) with true.
  change ((HORIZON_HOURS H24 <? 72) || is_now H24) with true.
  cbn iota.
  rewrite (@collect_window_ok B) by exact Hwf. cbn [bind].
  set (e1 := with_score (nth 0 nan_score_hours [])).
  set (e2 := with_score (nth 1 nan_score_hours [])).
  change (@in_window B) with (@in_window reference_builtins).
  assert (C : map with_score
                (filter (@in_window reference_builtins sample_anchor
                           (sample_anchor + timedelta_hours 24))
                   nan_score_hours) = [e1; e2])
    by (vm_compute; reflexivity).
  rewrite C. unfold sorted_desc.
  assert (K : mapM score_key [e1; e2] = Ok [NaN; Finite (6 # 5)])
    by (vm_compute; reflexivity).
  rewrite K. cbn [bind existsb is_nan orb combine].
  destruct (total float (dict pyval) (fun a b : float => Ok (float_ltb a b)) true
              [(NaN, e1); (Finite (6 # 5), e2)]) as [l' Hl']; [eauto|].
  change (@sort_unordered B float (dict pyval)) with (sort float (dict pyval)).
  rewrite Hl'. cbn [bind].
  eexists. eexists. split; [reflexivity|]. split; [reflexivity|].
  cbn [bestHours].
  apply perm in Hl'.
  assert (S1 : score_key e1 = Ok NaN) by (vm_compute; reflexivity).
  assert (S2 : score_key e2 = Ok (Finite (6 # 5))) by (vm_compute; reflexivity).
  assert (L : l' = [(NaN, e1); (Finite (6 # 5), e2)]
              \/ l' = [(Finite (6 # 5), e2); (NaN, e1)]).
  { symmetry in Hl'. apply Permutation_length_2_inv in Hl'. tauto. }
  unfold descending.
  destruct L as [-> | ->]; cbn [map snd firstn]; intros S;
    inversion S as [|? ? _ F]; subst;
    inversion F as [|? ? X _]; subst;
    unfold entry_score in X; rewrite S1, S2 in X; discriminate.
Qed.


(** C4, as the specification states it, fails on hours far from the anchor:
    of these two hours of the year 900 the second is nearer to the anchor by
    a microsecond, yet both are 35469997200.0 seconds away as doubles, and
    [nearest_hour] returns the first. *)
Lemma nearest_hour_float_tie :
  (forall h, In h far_hours -> normalized_hour h)
  /\ far_hours <> []
  /\ time_of (nth 0 far_hours []) = Ok (-33765897599999998)
  /\ time_of (nth 1 far_hours []) = Ok (-33765897599999997)
  /\ Z.abs (-33765897599999997 - sample_anchor)
     < Z.abs (-33765897599999998 - sample_anchor)
  /\ exact_seconds_range <= Z.abs (-33765897599999997 - sample_anchor)
  /\ distance sample_anchor (nth 0 far_hours []) = Ok (35469997200 # 1)
  /\ distance sample_anchor (nth 1 far_hours []) = Ok (35469997200 # 1)
  /\ nearest_hour far_hours sample_anchor = Ok (nth 0 far_hours []).
Proof.
  split; [intros h [<-|[<-|[]]]; repeat eexists|].
  split; [discriminate|].
  split; [vm_compute; reflexivity|]. split; [vm_compute; reflexivity|].
  split; [vm_compute; reflexivity|]. split; [vm_compute; discriminate|].
  split; [vm_compute; reflexivity|]. split; vm_compute; reflexivity.
Qed.

(** C3, as the specification states it, fails on extremes that are not in
    chronological order, such as these, which [normalize_tides] returns in the
    order of their time strings: at 09:00Z the nearest extreme before the
    anchor is the low of 08:30Z and the nearest after it is the high of
    10:00Z, yet the trend is [unknown]. *)
Lemma tide_trend_now_unsorted :
  normalize_tides mixed_offset_tides = Ok mixed_offset_extremes
  /\ nearest_preceding sample_anchor (parsed_extremes mixed_offset_extremes)
     = Some (1704097800000000, "low")
  /\ nearest_following sample_anchor (parsed_extremes mixed_offset_extremes)
     = Some (1704103200000000, "high")
  /\ tide_trend_now mixed_offset_extremes sample_anchor = "unknown".
Proof. repeat split; vm_compute; reflexivity. Qed.

(** ** The theorems on the sample payloads *)

Lemma sample_hours_well_formed :
  forall h, In h sample_hours -> normalized_hour h /\ exists t, time_of h = Ok t.
Proof.
  intros h [<-|[<-|[<-|[]]]];
    (split; [repeat eexists | eexists; vm_compute; reflexivity]).
Defined.

Lemma sample_hours_not_nan : forall h, In h sample_hours -> scores_nan h = false.
Proof. intros h [<-|[<-|[<-|[]]]]; reflexivity. Defined.

Lemma sample_hours_numeric : numeric_scores sample_hours.
Proof.
  intros h s [<-|[<-|[<-|[]]]] H; vm_compute in H; inversion H; reflexivity.
Defined.

Lemma sample_anchor_in_range (hz : horizon) :
  sample_anchor + timedelta_hours (HORIZON_HOURS hz) <= datetime_max.
Proof. destruct hz; vm_compute; discriminate. Defined.


Lemma nearest_hour_first_least_witness :
  (sample_hours <> []
   /\ forall h, In h sample_hours ->
        exists t, time_of h = Ok t
                  /\ Z.abs (t - sample_anchor) < exact_seconds_range)
  /\ nearest_hour [] sample_anchor = Raise (ApiError "No weather hours with time field")
  /\ exists before h t after,
       nearest_hour sample_hours sample_anchor = Ok h
       /\ sample_hours = before ++ h :: after
       /\ time_of h = Ok t
       /\ (forall h' t', In h' before -> time_of h' = Ok t' ->
             Z.abs (t - sample_anchor) < Z.abs (t' - sample_anchor))
       /\ (forall h' t', In h' after -> time_of h' = Ok t' ->
             Z.abs (t - sample_anchor) <= Z.abs (t' - sample_anchor)).
Proof.
  assert (H1 : sample_hours <> []) by discriminate.
  assert (H2 : forall h, In h sample_hours ->
                 exists t, time_of h = Ok t
                           /\ Z.abs (t - sample_anchor) < exact_seconds_range).
  { intros h [<-|[<-|[<-|[]]]]; eexists; (split; [vm_compute; reflexivity|]);
      vm_compute; reflexivity. }
  split; [split; assumption|].
  exact (nearest_hour_first_least sample_hours sample_anchor H1 H2).
Defined.

Lemma score_hour_nonneg_witness :
  (normalized_hour untimed_hour
   /\ forall period, dict_get "swellPeriodS" untimed_hour = Some (PFloat period) ->
                     float_ltb period (Finite 0) = false)
  /\ exists s, score_hour untimed_hour = Ok s
               /\ float_leb (Finite 0) s = true
               /\ (forall s', score_hour untimed_hour = Ok s' -> s' = s).
Proof.
  assert (H1 : normalized_hour untimed_hour) by (unfold untimed_hour; repeat eexists).
  assert (H2 : forall period,
             dict_get "swellPeriodS" untimed_hour = Some (PFloat period) ->
             float_ltb period (Finite 0) = false)
    by (intros period H; vm_compute in H; discriminate).
  split; [split; assumption|].
  exact (score_hour_nonneg untimed_hour H1 H2).
Defined.

Lemma tide_trend_now_chronological_witness :
  chronological (parsed_extremes sample_extremes)
  /\ (let parsed := parsed_extremes sample_extremes in
      let prev := nearest_preceding sample_anchor parsed in
      let next := nearest_following sample_anchor parsed in
      let trend := tide_trend_now sample_extremes sample_anchor in
      (trend = "rising"
       <-> exists tp tn, prev = Some (tp, "low") /\ next = Some (tn, "high"))
      /\ (trend = "falling"
          <-> exists tp tn, prev = Some (tp, "high") /\ next = Some (tn, "low"))
      /\ (trend = "rising" \/ trend = "falling" \/ trend = "unknown")
      /\ tide_trend_now [] sample_anchor = "unknown"
      /\ (forall p, prev = Some p ->
            In p parsed /\ fst p <= sample_anchor
            /\ forall q, In q parsed -> fst q <= sample_anchor -> fst q <= fst p)
      /\ (prev = None -> forall q, In q parsed -> sample_anchor < fst q)
      /\ (forall n, next = Some n ->
            In n parsed /\ sample_anchor < fst n
            /\ forall q, In q parsed -> sample_anchor < fst q -> fst n <= fst q)
      /\ (next = None -> forall q, In q parsed -> fst q <= sample_anchor)).
Proof.
  assert (H : chronological (parsed_extremes sample_extremes)).
  { vm_compute. repeat constructor; discriminate. }
  split; [exact H|].
  exact (tide_trend_now_chronological sample_extremes sample_anchor H).
Defined.

Lemma build_report_data_gap_witness :
  filter (dict_mem "time") [[("waveHeight", PFloat (Finite 1.1))]] = []
  /\ build_report sample_anchor H24 "coordinates" [] [] PNone
       [[("waveHeight", PFloat (Finite 1.1))]] mixed_offset_tides
     = Raise (ApiError "No weather data points returned").
Proof.
  split; [reflexivity|].
  exact (build_report_data_gap sample_anchor H24 "coordinates" [] [] PNone
           [[("waveHeight", PFloat (Finite 1.1))]] mixed_offset_tides eq_refl).
Defined.

Lemma malformed_time_aborts_witness :
  ((forall h', In h' (sample_hours ++ [untimed_hour]) -> normalized_hour h')
   /\ In untimed_hour (sample_hours ++ [untimed_hour])
   /\ exists v, dict_get "time" untimed_hour = Some v
                /\ parse_time (py_str v) = Raise ValueError)
  /\ nearest_hour (sample_hours ++ [untimed_hour]) sample_anchor = Raise ValueError
  /\ (forall hz, hz <> Now ->
        build_windows (sample_hours ++ [untimed_hour]) sample_anchor hz
        = Raise ValueError)
  /\ build_windows (sample_hours ++ [untimed_hour]) sample_anchor Now = Ok []
  /\ (forall hz mode sources geo_warnings loc weather_hours tide_data,
        mapM (fun hour => normalize_hour hour sources)
             (filter (dict_mem "time") weather_hours)
        = Ok (sample_hours ++ [untimed_hour]) ->
        build_report sample_anchor hz mode sources geo_warnings loc
          weather_hours tide_data
        = Raise ValueError)
  /\ (forall rest out,
        parsed_extremes (untimed_hour :: rest) = parsed_extremes rest
        /\ tides_by_day_loop (untimed_hour :: rest) out = tides_by_day_loop rest out).
Proof.
  assert (H1 : forall h', In h' (sample_hours ++ [untimed_hour]) -> normalized_hour h').
  { intros h' [<-|[<-|[<-|[<-|[]]]]]; repeat eexists. }
  assert (H2 : In untimed_hour (sample_hours ++ [untimed_hour])).
  { cbn. tauto. }
  assert (H3 : exists v, dict_get "time" untimed_hour = Some v
                         /\ parse_time (py_str v) = Raise ValueError).
  { exists PNone. split; vm_compute; reflexivity. }
  split; [repeat split; assumption|].
  exact (malformed_time_aborts (sample_hours ++ [untimed_hour]) sample_anchor
           untimed_hour H1 H2 H3).
Defined.

(** * The further properties on sample payloads *)

Lemma select_metric_value_resolves_witness :
  existsb big_int (dict_values sample_wave_sources) = false
  /\ select_metric_value (PDict sample_wave_sources) ["gfs"]
     = Ok (resolve_spec sample_wave_sources ["gfs"]).
Proof.
  split; [reflexivity|].
  exact (select_metric_value_resolves
           sample_wave_sources ["gfs"] eq_refl).
Defined.

Lemma preferred_source_wins_witness :
  ((forall k, In k ["sg"] ->
      dict_get k sample_wave_sources = None)
   /\ dict_get "gfs" sample_wave_sources
      = Some (PFloat (Finite 1.8))
   /\ is_None (PFloat (Finite 1.8)) = false
   /\ py_float (PFloat (Finite 1.8)) = Ok (Finite 1.8))
  /\ select_metric_value (PDict sample_wave_sources)
       (["sg"] ++ "gfs" :: ["noaa"])
     = Ok (Some (Finite 1.8)).
Proof.
  assert (H1 : forall k, In k ["sg"] ->
                 dict_get k sample_wave_sources = None).
  { intros k [<-|[]]. reflexivity. }
  split; [repeat split; [exact H1|reflexivity..]|].
  exact (preferred_source_wins sample_wave_sources
           ["sg"] "gfs" ["noaa"] (PFloat (Finite 1.8)) (Finite 1.8)
           H1 eq_refl eq_refl eq_refl).
Defined.


Lemma score_hour_bounds_witness :
  (normalized_hour untimed_hour
   /\ (forall x, dict_get "swellPeriodS" untimed_hour = Some (PFloat x) ->
                 float_ltb x (Finite 0) = false)
   /\ (forall x, dict_get "windSpeedMps" untimed_hour = Some (PFloat x) ->
                 float_ltb x (Finite 0) = false)
   /\ (forall x, dict_get "windGustMps" untimed_hour = Some (PFloat x) ->
                 float_ltb x (Finite 0) = false))
  /\ exists s : Q,
       score_hour untimed_hour = Ok (Finite s) /\ (0 <= s)%Q /\ (s <= 6.7)%Q.
Proof.
  assert (H1 : normalized_hour untimed_hour) by (unfold untimed_hour; repeat eexists).
  assert (H2 : forall x, dict_get "swellPeriodS" untimed_hour = Some (PFloat x) ->
                         float_ltb x (Finite 0) = false)
    by (intros x H; vm_compute in H; discriminate).
  assert (H3 : forall x, dict_get "windSpeedMps" untimed_hour = Some (PFloat x) ->
                         float_ltb x (Finite 0) = false)
    by (intros x H; vm_compute in H; discriminate).
  assert (H4 : forall x, dict_get "windGustMps" untimed_hour = Some (PFloat x) ->
                         float_ltb x (Finite 0) = false)
    by (intros x H; vm_compute in H; discriminate).
  split; [repeat split; assumption|].
  exact (score_hour_bounds untimed_hour H1 H2 H3 H4).
Defined.

Lemma nearest_hour_untimed_witness :
  (forall h, In h [[("waveHeight", PDict [("sg", PFloat (Finite 1.1))])]] ->
             dict_mem "time" h = false)
  /\ nearest_hour [[("waveHeight", PDict [("sg", PFloat (Finite 1.1))])]] sample_anchor
     = Raise (ApiError "No weather hours with time field").
Proof.
  assert (H : forall h, In h [[("waveHeight", PDict [("sg", PFloat (Finite 1.1))])]] ->
                        dict_mem "time" h = false).
  { intros h [<-|[]]. reflexivity. }
  split; [exact H|].
  exact (nearest_hour_untimed [[("waveHeight", PDict [("sg", PFloat (Finite 1.1))])]]
           sample_anchor H).
Defined.


Lemma build_windows_top_witness :
  ((forall h, In h sample_hours -> normalized_hour h /\ exists t, time_of h = Ok t)
   /\ (forall h, In h sample_hours -> scores_nan h = false)
   /\ sample_anchor + timedelta_hours (HORIZON_HOURS H48) <= datetime_max)
  /\ exists windows,
       build_windows sample_hours sample_anchor H48 = Ok windows
       /\ forall label win, In (label, win) windows ->
            exists len left_out,
              In (label, len) WINDOW_LENGTHS
              /\ Permutation (bestHours win ++ left_out)
                   (candidates sample_anchor len sample_hours)
              /\ List.length (bestHours win)
                 = Nat.min 3 (List.length (candidates sample_anchor len sample_hours))
              /\ forall kept other, In kept (bestHours win) -> In other left_out ->
                   float_leb (entry_score other) (entry_score kept) = true.
Proof.
  split; [split; [exact sample_hours_well_formed|split;
                  [exact sample_hours_not_nan|exact (sample_anchor_in_range H48)]]|].
  exact (build_windows_top sample_hours sample_anchor H48
           sample_hours_well_formed sample_hours_not_nan
           (sample_anchor_in_range H48)).
Defined.

Lemma build_windows_longer_dominates_witness :
  ((forall h, In h sample_hours -> normalized_hour h /\ exists t, time_of h = Ok t)
   /\ (forall h, In h sample_hours -> scores_nan h = false)
   /\ sample_anchor + timedelta_hours (HORIZON_HOURS H72) <= datetime_max
   /\ build_windows sample_hours sample_anchor H72
      = Ok (map (fun w => (fst w, window_for sample_anchor (snd w) sample_hours))
              WINDOW_LENGTHS))
  /\ (forall w24 w48 e,
        dict_get "24h"
          (map (fun w => (fst w, window_for sample_anchor (snd w) sample_hours))
             WINDOW_LENGTHS) = Some w24 ->
        dict_get "48h"
          (map (fun w => (fst w, window_for sample_anchor (snd w) sample_hours))
             WINDOW_LENGTHS) = Some w48 ->
        In e (bestHours w24) ->
        exists e', In e' (bestHours w48)
                   /\ float_leb (entry_score e) (entry_score e') = true)
  /\ (forall w48 w72 e,
        dict_get "48h"
          (map (fun w => (fst w, window_for sample_anchor (snd w) sample_hours))
             WINDOW_LENGTHS) = Some w48 ->
        dict_get "72h"
          (map (fun w => (fst w, window_for sample_anchor (snd w) sample_hours))
             WINDOW_LENGTHS) = Some w72 ->
        In e (bestHours w48) ->
        exists e', In e' (bestHours w72)
                   /\ float_leb (entry_score e) (entry_score e') = true).
Proof.
  assert (H : build_windows sample_hours sample_anchor H72
              = Ok (map (fun w => (fst w, window_for sample_anchor (snd w) sample_hours))
                      WINDOW_LENGTHS)).
  { exact (build_windows_ok sample_hours sample_anchor H72
             sample_hours_well_formed sample_hours_numeric). }
  split; [split; [exact sample_hours_well_formed|split;
                  [exact sample_hours_not_nan|split;
                   [exact (sample_anchor_in_range H72)|exact H]]]|].
  exact (build_windows_longer_dominates sample_hours sample_anchor H72 _
           sample_hours_well_formed sample_hours_not_nan
           (sample_anchor_in_range H72) H).
Defined.

Lemma malformed_extreme_skipped_witness :
  time_of untimed_hour = Raise ValueError
  /\ tide_trend_now ([] ++ untimed_hour :: sample_extremes) sample_anchor
     = tide_trend_now ([] ++ sample_extremes) sample_anchor
  /\ tides_by_day ([] ++ untimed_hour :: sample_extremes)
     = tides_by_day ([] ++ sample_extremes).
Proof.
  assert (H : time_of untimed_hour = Raise ValueError) by (vm_compute; reflexivity).
  split; [exact H|].
  exact (malformed_extreme_skipped [] sample_extremes untimed_hour ValueError
           sample_anchor H).
Defined.

Lemma normalize_tides_sorted_witness :
  ((forall item, In item mixed_offset_tides ->
      py_get "time" item = PNone \/ exists s, py_get "time" item = PStr s)
   /\ (forall item, In item mixed_offset_tides ->
         big_int (py_get "height" item) = false))
  /\ exists out,
       normalize_tides mixed_offset_tides = Ok out
       /\ Permutation out (kept_tides mixed_offset_tides)
       /\ StronglySorted
            (fun a b => String.leb (time_string (py_get "time" a))
                                   (time_string (py_get "time" b)) = true) out
       /\ (forall e, In e out ->
             dict_keys e = ["time"; "type"; "heightM"]
             /\ exists s, py_get "time" e = PStr s /\ s <> EmptyString)
       /\ forall s,
            filter (fun e => String.eqb (time_string (py_get "time" e)) s) out
            = filter (fun e => String.eqb (time_string (py_get "time" e)) s)
                (kept_tides mixed_offset_tides).
Proof.
  assert (H1 : forall item, In item mixed_offset_tides ->
                 py_get "time" item = PNone \/ exists s, py_get "time" item = PStr s).
  { intros item [<-|[<-|[<-|[]]]]; right; eexists; reflexivity. }
  assert (H2 : forall item, In item mixed_offset_tides ->
                 big_int (py_get "height" item) = false).
  { intros item [<-|[<-|[<-|[]]]]; reflexivity. }
  split; [split; assumption|].
  exact (normalize_tides_sorted mixed_offset_tides H1 H2).
Defined.

Lemma normalize_fills_defaults_witness :
  normalize sample_payload = Ok sample_normalized_payload
  /\ section_field "tides" "trendNow" sample_normalized_payload
     = match section_field "tides" "trendNow" sample_payload with
       | Some w => Some w
       | None => default_of NORMALIZE_DEFAULTS "tides" "trendNow"
       end.
Proof.
  assert (H : normalize sample_payload = Ok sample_normalized_payload)
    by (vm_compute; reflexivity).
  split; [exact H|].
  exact (normalize_fills_defaults sample_payload sample_normalized_payload
           "tides" "trendNow" H).
Defined.

Lemma normalize_idempotent_witness :
  normalize sample_payload = Ok sample_normalized_payload
  /\ normalize sample_normalized_payload = Ok sample_normalized_payload.
Proof.
  assert (H : normalize sample_payload = Ok sample_normalized_payload)
    by (vm_compute; reflexivity).
  split; [exact H|].
  exact (normalize_idempotent sample_payload sample_normalized_payload H).
Defined.

Lemma build_report_returns_witness :
  (mapM (fun hour => normalize_hour hour ["gfs"])
        (filter (dict_mem "time") sample_weather_hours) = Ok sample_normalized_hours
   /\ sample_normalized_hours <> []
   /\ (forall h, In h sample_normalized_hours -> exists t, time_of h = Ok t)
   /\ normalize_tides mixed_offset_tides = Ok mixed_offset_extremes)
  /\ exists r,
       build_report sample_anchor H24 "coordinates" ["gfs"] [] PNone
         sample_weather_hours mixed_offset_tides = Ok r
       /\ In (now r) sample_normalized_hours
       /\ extremes (tides r) = mixed_offset_extremes
       /\ dict_keys (forecast_windows r) = expected_labels H24
       /\ meta r = {| generatedAt := iso_z sample_anchor;
                      meta_horizon := H24;
                      inputMode := "coordinates";
                      sourcesRequested := ["gfs"];
                      warnings := [] |}
       /\ location r = PNone.
Proof.
  assert (H1 : mapM (fun hour => normalize_hour hour ["gfs"])
                    (filter (dict_mem "time") sample_weather_hours)
               = Ok sample_normalized_hours) by (vm_compute; reflexivity).
  assert (H2 : sample_normalized_hours <> []) by discriminate.
  assert (H3 : forall h, In h sample_normalized_hours -> exists t, time_of h = Ok t).
  { intros h [<-|[<-|[]]]; eexists; vm_compute; reflexivity. }
  assert (H4 : normalize_tides mixed_offset_tides = Ok mixed_offset_extremes)
    by (vm_compute; reflexivity).
  split; [repeat split; assumption|].
  exact (build_report_returns sample_anchor H24 "coordinates" ["gfs"] [] PNone
           sample_weather_hours mixed_offset_tides sample_normalized_hours
           mixed_offset_extremes H1 H2 H3 H4).
Defined.

Lemma main_data_gap_exit_4_witness :
  filter (dict_mem "time") [[("waveHeight", PDict [("sg", PFloat (Finite 1.1))])]] = []
  /\ main_of_report
       (build_report sample_anchor H72 "location" [] [] PNone
          [[("waveHeight", PDict [("sg", PFloat (Finite 1.1))])]] mixed_offset_tides)
     = Returns 4.
Proof.
  split; [reflexivity|].
  exact (main_data_gap_exit_4 sample_anchor H72 "location" [] [] PNone
           [[("waveHeight", PDict [("sg", PFloat (Finite 1.1))])]] mixed_offset_tides eq_refl).
Defined.

Lemma main_malformed_time_exit_5_witness :
  (mapM (fun hour => normalize_hour hour [])
        (filter (dict_mem "time") [untimed_weather_hour]) = Ok [untimed_hour]
   /\ In untimed_hour [untimed_hour]
   /\ exists v, dict_get "time" untimed_hour = Some v
                /\ parse_time (py_str v) = Raise ValueError)
  /\ main_of_report
       (build_report sample_anchor H72 "coordinates" [] [] PNone
          [untimed_weather_hour] mixed_offset_tides)
     = Returns 5.
Proof.
  assert (H1 : mapM (fun hour => normalize_hour hour [])
                    (filter (dict_mem "time") [untimed_weather_hour])
               = Ok [untimed_hour]) by (vm_compute; reflexivity).
  assert (H2 : In untimed_hour [untimed_hour]) by (left; reflexivity).
  assert (H3 : exists v, dict_get "time" untimed_hour = Some v
                         /\ parse_time (py_str v) = Raise ValueError).
  { exists PNone. split; vm_compute; reflexivity. }
  split; [repeat split; assumption|].
  exact (main_malformed_time_exit_5 sample_anchor H72 "coordinates" [] [] PNone
           [untimed_weather_hour] mixed_offset_tides [untimed_hour] untimed_hour
           H1 H2 H3).
Defined.

Lemma fetch_tides_first_answer_witness :
  ((forall e, In e ["https://api.stormglass.io/v2/tide/extremes/point"] ->
      exists msg,
        tide_attempt sample_http "lat=50.7&lng=-1.7" e = Raise (ApiError msg))
   /\ (forall msg,
         tide_attempt sample_http "lat=50.7&lng=-1.7"
           "https://api.stormglass.io/v2/tide/extremes"
         <> Raise (ApiError msg)))
  /\ fetch_tides_loop sample_http "lat=50.7&lng=-1.7"
       (["https://api.stormglass.io/v2/tide/extremes/point"]
        ++ "https://api.stormglass.io/v2/tide/extremes" :: []) None
     = tide_attempt sample_http "lat=50.7&lng=-1.7"
         "https://api.stormglass.io/v2/tide/extremes".
Proof.
  assert (H1 : forall e,
             In e ["https://api.stormglass.io/v2/tide/extremes/point"] ->
             exists msg,
               tide_attempt sample_http "lat=50.7&lng=-1.7" e = Raise (ApiError msg)).
  { intros e [<-|[]]. eexists. vm_compute. reflexivity. }
  assert (H2 : forall msg,
             tide_attempt sample_http "lat=50.7&lng=-1.7"
               "https://api.stormglass.io/v2/tide/extremes"
             <> Raise (ApiError msg)).
  { intros msg. vm_compute. discriminate. }
  split; [split; assumption|].
  exact (fetch_tides_first_answer sample_http "lat=50.7&lng=-1.7"
           ["https://api.stormglass.io/v2/tide/extremes/point"]
           "https://api.stormglass.io/v2/tide/extremes" [] None H1 H2).
Defined.

Lemma fetch_tides_all_fail_witness :
  (forall endpoint, In endpoint TIDE_ENDPOINTS ->
     exists msg,
       tide_attempt failing_http "lat=50.7&lng=-1.7" endpoint = Raise (ApiError msg))
  /\ exists msg,
       tide_attempt failing_http "lat=50.7&lng=-1.7" (last TIDE_ENDPOINTS EmptyString)
       = Raise (ApiError msg)
       /\ fetch_tides failing_http "lat=50.7&lng=-1.7" = Raise (ApiError msg).
Proof.
  assert (H : forall endpoint, In endpoint TIDE_ENDPOINTS ->
                exists msg,
                  tide_attempt failing_http "lat=50.7&lng=-1.7" endpoint
                  = Raise (ApiError msg)).
  { intros endpoint _. eexists. reflexivity. }
  split; [exact H|].
  exact (fetch_tides_all_fail failing_http "lat=50.7&lng=-1.7" H).
Defined.
